(** * CIIS ml-models: risk aggregation and anomaly detection

    A shallow embedding of the statistical core of the [ml-models] package
    ([risk_probability_model.py], [anomaly_detection_model.py],
    [failure_prediction_model.py], [model_utils.py], the helpers of
    [feature_engineering.py] and the endpoints of [api_integration.py]).

    Python floats are modelled as real numbers, except where a property is
    one of floating tolerance: there the rounding of each operation is
    written out (module [Rounded]).  A NaN produced by pandas is modelled
    as [None]; a raised exception as the left injection of a sum.
    Timestamps are integers (nanoseconds since the epoch, as pandas stores
    them). *)

From Stdlib Require Import String.
From Stdlib Require Import Reals Lra Lia ZArith List Bool.
From Stdlib Require Import Sorting.Sorted.
Import ListNotations.
Open Scope R_scope.

(** ** Python built-ins and exceptions *)

Module Py.

(** The exceptions the embedded functions can raise. *)
Inductive exn : Type :=
| ZeroDivisionError
| ValueError (msg : string)
| AttributeError
| IndexError
| NotFittedError.

Definition result (A : Type) : Type := (exn + A)%type.

Definition ok {A : Type} (a : A) : result A := inr a.
Definition raise {A : Type} (e : exn) : result A := inl e.

Definition bind {A B : Type} (m : result A) (k : A -> result B) : result B :=
  match m with
  | inl e => inl e
  | inr a => k a
  end.

(** Comparisons on floats, as booleans. *)
Definition ltb (x y : R) : bool := if Rlt_dec x y then true else false.
Definition gtb (x y : R) : bool := ltb y x.
Definition geb (x y : R) : bool := if Rge_dec x y then true else false.
Definition eqb (x y : R) : bool := if Req_dec_T x y then true else false.

(** [min(a, b)] returns [b] when [b < a] and [a] otherwise. *)
Definition min (a b : R) : R := if ltb b a then b else a.

(** [max(a, b)] returns [b] when [b > a] and [a] otherwise. *)
Definition max (a b : R) : R := if gtb b a then b else a.

(** [a / b] on Python floats raises on a zero divisor. *)
Definition truediv (a b : R) : result R :=
  if eqb b 0 then raise ZeroDivisionError else ok (a / b).

End Py.

Notation "x <- m ;; k" := (Py.bind m (fun x => k))
  (at level 61, m at next level, right associativity).
Notation "' p <- m ;; k" := (Py.bind m (fun x => match x with p => k end))
  (at level 61, p pattern, m at next level, right associativity).

(** ** risk_probability_model.py *)

Module RiskProbabilityModel.

Inductive RiskLevel : Type := LOW | MEDIUM | HIGH | CRITICAL.

Inductive Action : Type :=
| IMMEDIATE_INTERVENTION_REQUIRED
| URGENT_MAINTENANCE_REQUIRED
| SCHEDULE_MAINTENANCE
| ROUTINE_MAINTENANCE.

(** The attributes [__init__] stores on [self]. *)
Record t : Type := mk {
  failure_weight : R;
  anomaly_weight : R;
  recency_weight : R;
  risk_threshold_critical : R;
  risk_threshold_high : R;
  risk_threshold_medium : R
}.

(** [__init__]: the three weights are divided by their sum. *)
Definition init (failure_weight anomaly_weight recency_weight : R)
  : Py.result t :=
  let total := failure_weight + anomaly_weight + recency_weight in
  fw <- Py.truediv failure_weight total ;;
  aw <- Py.truediv anomaly_weight total ;;
  rw <- Py.truediv recency_weight total ;;
  Py.ok (mk fw aw rw (80/100) (60/100) (40/100)).

(** The dictionary [calculate_building_risk] returns ([calculated_at], the
    wall-clock time of the call, is left out). *)
Record RiskScore : Type := mkScore {
  building_id : string;
  risk_probability : R;
  risk_level : RiskLevel;
  action : Action;
  failure_component : R;
  anomaly_component : R;
  recency_component : R;
  composite_score : R;
  recent_critical_issues : Z
}.

Definition calculate_building_risk (self : t) (building_id : string)
    (failure_probability anomaly_probability issue_frequency_score : R)
    (recent_high_severity_issues : Z) : RiskScore :=
  let failure_prob := Py.max 0 (Py.min 1 failure_probability) in
  let anomaly_prob := Py.max 0 (Py.min 1 anomaly_probability) in
  let freq_score := Py.max 0 (Py.min 1 issue_frequency_score) in
  let composite_risk :=
    failure_weight self * failure_prob +
    anomaly_weight self * anomaly_prob +
    recency_weight self * freq_score in
  let risk_probability := 1 / (1 + exp (- 5 * (composite_risk - 5/10))) in
  let '(risk_level, action) :=
    if Py.geb risk_probability (risk_threshold_critical self) then
      (CRITICAL, IMMEDIATE_INTERVENTION_REQUIRED)
    else if Py.geb risk_probability (risk_threshold_high self) then
      (HIGH, URGENT_MAINTENANCE_REQUIRED)
    else if Py.geb risk_probability (risk_threshold_medium self) then
      (MEDIUM, SCHEDULE_MAINTENANCE)
    else
      (LOW, ROUTINE_MAINTENANCE) in
  mkScore building_id risk_probability risk_level action
          failure_prob anomaly_prob freq_score composite_risk
          recent_high_severity_issues.

(** [calculate_risk_confidence]: the product of the two confidences. *)
Definition calculate_risk_confidence (failure_confidence anomaly_confidence : R)
  : R :=
  failure_confidence * anomaly_confidence.

(** The specification's table of action labels, one per level. *)
Definition action_of (l : RiskLevel) : Action :=
  match l with
  | CRITICAL => IMMEDIATE_INTERVENTION_REQUIRED
  | HIGH => URGENT_MAINTENANCE_REQUIRED
  | MEDIUM => SCHEDULE_MAINTENANCE
  | LOW => ROUTINE_MAINTENANCE
  end.

(** The specification's logistic rescaling of the composite score. *)
Definition logistic (c : R) : R := 1 / (1 + exp (- 5 * (c - 5/10))).

(** The model [RiskProbabilityModel()] builds from the default weights
    0.4 / 0.3 / 0.3. *)
Definition default_model : t :=
  mk (4/10 / (4/10 + 3/10 + 3/10)) (3/10 / (4/10 + 3/10 + 3/10))
     (3/10 / (4/10 + 3/10 + 3/10)) (80/100) (60/100) (40/100).

End RiskProbabilityModel.

(** ** The constructor in rounded arithmetic *)

Module Rounded.
Import RiskProbabilityModel.

(** A rounding [fl] of the real results to floats is accurate to [u] when
    every result is stored with a relative error of at most [u]; binary64
    away from underflow and overflow is accurate to 2^-53. *)
Definition accurate (u : R) (fl : R -> R) : Prop :=
  forall x, Rabs (fl x - x) <= u * Rabs x.

Section Rounding.

(** [fl x]: the float that stores the real [x]. *)
Variable fl : R -> R.

(** [a / b] on floats. *)
Definition truediv (a b : R) : Py.result R :=
  if Py.eqb b 0 then Py.raise Py.ZeroDivisionError else Py.ok (fl (a / b)).

(** [__init__], the rounding of each of its operations written out. *)
Definition init (failure_weight anomaly_weight recency_weight : R)
  : Py.result t :=
  let total := fl (fl (failure_weight + anomaly_weight) + recency_weight) in
  fw <- truediv failure_weight total ;;
  aw <- truediv anomaly_weight total ;;
  rw <- truediv recency_weight total ;;
  Py.ok (mk fw aw rw (80/100) (60/100) (40/100)).

End Rounding.

End Rounded.

(** ** numpy and pandas reductions *)

Module Stats.

Definition sum (l : list R) : R := fold_right Rplus 0 l.

(** [np.mean] / [Series.mean] of a non-empty sequence. *)
Definition mean (l : list R) : R := sum l / INR (length l).

(** Sum of squared deviations from the mean. *)
Definition sq_dev (l : list R) : R :=
  sum (map (fun x => (x - mean l) * (x - mean l)) l).

(** Sum of squares. *)
Definition sum_sq (l : list R) : R := sum (map (fun x => x * x) l).

(** [np.std]: population standard deviation (ddof = 0). *)
Definition np_std (l : list R) : R := sqrt (sq_dev l / INR (length l)).

(** [Series.mean]: NaN on an empty series. *)
Definition pd_mean (l : list R) : option R :=
  match l with
  | [] => None
  | _ => Some (mean l)
  end.

(** [Series.std]: sample standard deviation (ddof = 1), NaN with fewer than
    two observations. *)
Definition pd_std (l : list R) : option R :=
  if (length l <? 2)%nat then None
  else Some (sqrt (sq_dev l / INR (length l - 1))).

(** [ndarray.min] and [ndarray.max] raise on a zero-size array. *)
Definition np_min (l : list R) : Py.result R :=
  match l with
  | [] => Py.raise (Py.ValueError "zero-size array to reduction operation minimum which has no identity"%string)
  | x :: xs => Py.ok (fold_left Rmin xs x)
  end.

Definition np_max (l : list R) : Py.result R :=
  match l with
  | [] => Py.raise (Py.ValueError "zero-size array to reduction operation maximum which has no identity"%string)
  | x :: xs => Py.ok (fold_left Rmax xs x)
  end.

(** [np.diff] on integers. *)
Fixpoint diff (l : list Z) : list Z :=
  match l with
  | x :: (y :: _) as tl => (y - x)%Z :: diff tl
  | _ => []
  end.

(** [sort_values] on an integer column (insertion sort). *)
Fixpoint insert (x : Z) (l : list Z) : list Z :=
  match l with
  | [] => [x]
  | y :: tl => if (x <=? y)%Z then x :: l else y :: insert x tl
  end.

Definition sort (l : list Z) : list Z := fold_right insert [] l.

(** [groupby(key).size()]: one count per distinct key, keys ascending. *)
Definition group_sizes (keys : list Z) : list nat :=
  map (fun k => count_occ Z.eq_dec keys k) (nodup Z.eq_dec (sort keys)).

End Stats.

(** ** The issue and building tables *)

Module Data.

Record Issue : Type := mkIssue {
  issue_id : string;
  building_id : string;
  severity : Z;
  created_at : Z
}.

Record Building : Type := mkBuilding {
  id : string;
  name : string
}.

(** [issues_df[issues_df['building_id'] == building_id]] *)
Definition issues_of (issues_df : list Issue) (b : string) : list Issue :=
  filter (fun i => String.eqb (building_id i) b) issues_df.

Definition ns_per_hour : Z := 3600 * 1000000000.
Definition ns_per_day : Z := 24 * ns_per_hour.

(** [Timestamp.date()], as a day number. *)
Definition date (t : Z) : Z := (t / ns_per_day)%Z.

End Data.

(** ** api_integration.py: the risk endpoint's frequency score *)

Module RiskEndpoint.
Import Data.

(** The number of issues of a building and the number of them with
    severity 4 or 5, as the endpoint counts them. *)
Definition num_issues (issues_df : list Issue) (b : string) : nat :=
  length (issues_of issues_df b).

Definition num_critical (issues_df : list Issue) (b : string) : nat :=
  length (filter (fun i => (4 <=? severity i)%Z) (issues_of issues_df b)).

(** Lines 452-473 of [get_risk_scores]: the per-building frequency score and
    the count of severity >= 4 issues. *)
Definition frequency_score (issues_df : list Issue) (b : string) : R * nat :=
  let building_issues := issues_of issues_df b in
  let recent_critical :=
    length (filter (fun i => (4 <=? severity i)%Z) building_issues) in
  let num_issues := length building_issues in
  let freq_score :=
    if (num_issues =? 0)%nat then 0
    else
      let max_expected_issues := 100 in
      Py.min 1 (sqrt (INR num_issues) / sqrt max_expected_issues) in
  let freq_score :=
    if (0 <? num_issues)%nat then
      let critical_ratio := INR recent_critical / INR num_issues in
      let critical_boost := Py.min (2/10) (critical_ratio * (4/10)) in
      Py.min 1 (freq_score + critical_boost)
    else freq_score in
  (freq_score, recent_critical).

(** One iteration of the scoring loop (lines 451-482). *)
Definition building_risk (risk_model : RiskProbabilityModel.t)
    (failure_map anomaly_map : string -> option R)
    (issues_df : list Issue) (b : string) : RiskProbabilityModel.RiskScore :=
  let '(freq_score, recent_critical) := frequency_score issues_df b in
  RiskProbabilityModel.calculate_building_risk risk_model b
    (match failure_map b with Some p => p | None => 0 end)
    (match anomaly_map b with Some p => p | None => 0 end)
    freq_score (Z.of_nat recent_critical).

End RiskEndpoint.

(** ** The scikit-learn estimators the models wrap

    The library is outside the repository: its fitting and scoring functions
    are the fields of an interface.  What is modelled of it is the fitted /
    unfitted state of an estimator: [transform], [predict], [score_samples]
    and [predict_proba] start with [check_is_fitted], which raises
    [NotFittedError] on an estimator that was never fitted. *)

Module Sklearn.

Definition Matrix : Type := list (list R).

Class Backend : Type := {
  ScalerParams : Type;
  scaler_fit : Matrix -> ScalerParams;
  scaler_apply : ScalerParams -> Matrix -> Matrix;
  FittedDetector : Type;
  detector_fit : string -> R -> Matrix -> FittedDetector;
  detector_predict : FittedDetector -> Matrix -> list Z;
  detector_score_samples : FittedDetector -> Matrix -> list R;
  FittedClassifier : Type;
  (* [fit(X, y)] may refuse its data *)
  classifier_fit : string -> Matrix -> list Z -> Py.result FittedClassifier;
  classifier_predict : FittedClassifier -> Matrix -> list Z;
  (* [predict_proba(X)[:, 1]]: a classifier fitted on a single class has
     one column only, and the index raises *)
  classifier_predict_proba : FittedClassifier -> Matrix -> Py.result (list R);
  (* [f1_score(y_true, y_pred, zero_division=0)] *)
  f1_score : list Z -> list Z -> Py.result R;
  (* [roc_auc_score(y_true, y_score)] *)
  roc_auc_score : list Z -> list R -> Py.result R
}.

Section Estimators.
Context {sk : Backend}.

(** [StandardScaler()] *)
Record StandardScaler : Type := mkScaler {
  scaler_state : option ScalerParams
}.

(** Input validation: an array without samples is refused. *)
Definition check_array (X : Matrix) : Py.result Matrix :=
  match X with
  | [] => Py.raise (Py.ValueError "Found array with 0 sample(s) while a minimum of 1 is required")
  | _ => Py.ok X
  end.

Definition fit_transform (s : StandardScaler) (X : Matrix)
  : Py.result (StandardScaler * Matrix) :=
  X <- check_array X ;;
  let p := scaler_fit X in Py.ok (mkScaler (Some p), scaler_apply p X).

(** [transform] checks that the scaler is fitted before it looks at [X]. *)
Definition transform (s : StandardScaler) (X : Matrix) : Py.result Matrix :=
  match scaler_state s with
  | None => Py.raise Py.NotFittedError
  | Some p => X <- check_array X ;; Py.ok (scaler_apply p X)
  end.

(** [IsolationForest(...)] or [OneClassSVM(...)], named by the algorithm
    string, with the contamination (or nu) it was built with. *)
Record Detector : Type := mkDetector {
  detector_kind : string;
  detector_contamination : R;
  detector_state : option FittedDetector
}.

Definition detector_fitted (d : Detector) (X : Matrix) : Detector :=
  mkDetector (detector_kind d) (detector_contamination d)
    (Some (detector_fit (detector_kind d) (detector_contamination d) X)).

Definition predict (d : Detector) (X : Matrix) : Py.result (list Z) :=
  match detector_state d with
  | None => Py.raise Py.NotFittedError
  | Some f => Py.ok (detector_predict f X)
  end.

Definition score_samples (d : Detector) (X : Matrix) : Py.result (list R) :=
  match detector_state d with
  | None => Py.raise Py.NotFittedError
  | Some f => Py.ok (detector_score_samples f X)
  end.

(** [XGBClassifier(...)], [RandomForestClassifier(...)] or
    [GradientBoostingClassifier(...)], named by the model type. *)
Record Classifier : Type := mkClassifier {
  classifier_kind : string;
  classifier_state : option FittedClassifier
}.

Definition classifier_fitted (c : Classifier) (X : Matrix) (y : list Z)
  : Py.result Classifier :=
  f <- classifier_fit (classifier_kind c) X y ;;
  Py.ok (mkClassifier (classifier_kind c) (Some f)).

Definition clf_predict (c : Classifier) (X : Matrix) : Py.result (list Z) :=
  match classifier_state c with
  | None => Py.raise Py.NotFittedError
  | Some f => Py.ok (classifier_predict f X)
  end.

(** [predict_proba(X)[:, 1]] *)
Definition clf_predict_proba (c : Classifier) (X : Matrix)
  : Py.result (list R) :=
  match classifier_state c with
  | None => Py.raise Py.NotFittedError
  | Some f => classifier_predict_proba f X
  end.

End Estimators.
End Sklearn.

(** Whether the labels hold both classes. *)
Definition two_classes (y : list Z) : bool :=
  existsb (Z.eqb 0) y && existsb (Z.eqb 1) y.

(** A small backend on which runs can be exhibited: the scaler is the
    identity, a sample's score (and class-1 probability) is its first
    feature, and every sample is labelled 1.  The classifier remembers
    whether it was fitted on both classes; fitted on one class only it has
    no column of class-1 probabilities.  The area under the curve is
    refused for labels of a single class. *)
Definition first_feature_backend : Sklearn.Backend := {|
  Sklearn.ScalerParams := unit;
  Sklearn.scaler_fit := fun _ => tt;
  Sklearn.scaler_apply := fun _ X => X;
  Sklearn.FittedDetector := unit;
  Sklearn.detector_fit := fun _ _ _ => tt;
  Sklearn.detector_predict := fun _ X => map (fun _ => 1%Z) X;
  Sklearn.detector_score_samples := fun _ X => map (fun row => hd 0 row) X;
  Sklearn.FittedClassifier := bool;
  Sklearn.classifier_fit := fun _ _ y => Py.ok (two_classes y);
  Sklearn.classifier_predict := fun _ X => map (fun _ => 1%Z) X;
  Sklearn.classifier_predict_proba := fun both X =>
    if both then Py.ok (map (fun row => hd 0 row) X)
    else Py.raise Py.IndexError;
  Sklearn.f1_score := fun _ _ => Py.ok 0;
  Sklearn.roc_auc_score := fun y _ =>
    if two_classes y then Py.ok (1/2)
    else Py.raise (Py.ValueError "Only one class present in y_true. ROC AUC score is not defined in that case.")
|}.

(** ** anomaly_detection_model.py: AnomalyDetectionModel *)

Module AnomalyDetectionModel.
Import Sklearn.

Section Model.
Context {sk : Backend}.

Record t : Type := mk {
  algorithm : string;
  contamination : R;
  scaler : StandardScaler;
  model : option Detector;
  feature_names : list string
}.

Definition init (algorithm : string) (contamination : R) : Py.result t :=
  if String.eqb algorithm "isolation_forest" then
    Py.ok (mk algorithm contamination (mkScaler None)
             (Some (mkDetector algorithm contamination None)) [])
  else if String.eqb algorithm "one_class_svm" then
    Py.ok (mk algorithm contamination (mkScaler None)
             (Some (mkDetector algorithm contamination None)) [])
  else
    Py.raise (Py.ValueError ("Unknown algorithm: " ++ algorithm)).

(** [train]: the scaler and the detector are fitted on [X]; the returned
    statistics are not modelled, the updated object is. *)
Definition train (self : t) (columns : list string) (X : Matrix)
  : Py.result t :=
  '(scaler', X_scaled) <- fit_transform (scaler self) X ;;
  match model self with
  | None => Py.raise Py.AttributeError
  | Some d =>
      Py.ok (mk (algorithm self) (contamination self) scaler'
               (Some (detector_fitted d X_scaled)) columns)
  end.

Definition detect_anomalies (self : t) (X : Matrix)
  : Py.result (list Z * list R * list R) :=
  match model self with
  | None => Py.raise (Py.ValueError "Model not trained yet")
  | Some d =>
      X_scaled <- transform (scaler self) X ;;
      predictions <- predict d X_scaled ;;
      anomaly_scores <- score_samples d X_scaled ;;
      min_score <- Stats.np_min anomaly_scores ;;
      max_score <- Stats.np_max anomaly_scores ;;
      let anomaly_prob :=
        if Py.gtb (max_score - min_score) 0 then
          map (fun s => 1 - (s - min_score) / (max_score - min_score))
              anomaly_scores
        else
          map (fun _ => 0) anomaly_scores in
      Py.ok (predictions, anomaly_scores, anomaly_prob)
  end.

End Model.
End AnomalyDetectionModel.

(** ** failure_prediction_model.py: FailurePredictionModel *)

Module FailurePredictionModel.
Import Sklearn.

Section Model.
Context {sk : Backend}.

Record t : Type := mk {
  model_type : string;
  classifier : option Classifier;
  scaler : StandardScaler;
  feature_names : list string
}.

Definition _initialize_model (self : t) : Py.result t :=
  if String.eqb (model_type self) "xgboost" then
    Py.ok (mk (model_type self) (Some (mkClassifier (model_type self) None))
             (scaler self) (feature_names self))
  else if String.eqb (model_type self) "random_forest" then
    Py.ok (mk (model_type self) (Some (mkClassifier (model_type self) None))
             (scaler self) (feature_names self))
  else if String.eqb (model_type self) "gradient_boosting" then
    Py.ok (mk (model_type self) (Some (mkClassifier (model_type self) None))
             (scaler self) (feature_names self))
  else
    Py.raise (Py.ValueError ("Unknown model type: " ++ model_type self)).

Definition init (model_type : string) : Py.result t :=
  _initialize_model (mk model_type None (mkScaler None) []).

Record Metrics : Type := mkMetrics {
  train_f1 : R;
  train_auc : R
}.

(** The [try] block around the training metrics: a [ValueError] of
    [roc_auc_score] gives the area 0.0; the handler computes the F1 score
    again, so an error of [f1_score] escapes either way. *)
Definition training_metrics (y_train y_pred_train : list Z)
    (y_pred_proba_train : list R) : Py.result Metrics :=
  f1 <- f1_score y_train y_pred_train ;;
  match roc_auc_score y_train y_pred_proba_train with
  | inr auc => Py.ok (mkMetrics f1 auc)
  | inl (Py.ValueError _) => Py.ok (mkMetrics f1 0)
  | inl e => Py.raise e
  end.

(** [train] without a validation set: the updated object and the metrics
    it returns.  The object that a raised exception leaves behind is not
    modelled. *)
Definition train (self : t) (X_train : Matrix) (y_train : list Z)
  : Py.result (t * Metrics) :=
  '(scaler', X_train_scaled) <- fit_transform (scaler self) X_train ;;
  match classifier self with
  | None => Py.raise Py.AttributeError
  | Some c =>
      c' <- classifier_fitted c X_train_scaled y_train ;;
      y_pred_train <- clf_predict c' X_train_scaled ;;
      y_pred_proba_train <- clf_predict_proba c' X_train_scaled ;;
      metrics <- training_metrics y_train y_pred_train y_pred_proba_train ;;
      Py.ok (mk (model_type self) (Some c') scaler' (feature_names self),
             metrics)
  end.

Definition predict_failure_risk (self : t) (X : Matrix)
  : Py.result (list Z * list R) :=
  X_scaled <- transform (scaler self) X ;;
  match classifier self with
  | None => Py.raise Py.AttributeError
  | Some c =>
      predictions <- clf_predict c X_scaled ;;
      probabilities <- clf_predict_proba c X_scaled ;;
      Py.ok (predictions, probabilities)
  end.

End Model.

(** [_categorize_risk]: the risk level of a failure probability. *)
Definition _categorize_risk (probability : R) : RiskProbabilityModel.RiskLevel :=
  if Py.geb probability (8/10) then RiskProbabilityModel.CRITICAL
  else if Py.geb probability (6/10) then RiskProbabilityModel.HIGH
  else if Py.geb probability (4/10) then RiskProbabilityModel.MEDIUM
  else RiskProbabilityModel.LOW.

End FailurePredictionModel.

(** ** anomaly_detection_model.py: the time-series detectors *)

Module Detectors.
Import Data.

Inductive Severity : Type := LOW | MEDIUM | HIGH | CRITICAL.

(** [for b in ids: anomalies.extend(f(b))], stopping at the first exception. *)
Fixpoint collect {A : Type} (f : string -> Py.result (list A))
    (ids : list string) : Py.result (list A) :=
  match ids with
  | [] => Py.ok []
  | b :: rest =>
      xs <- f b ;;
      ys <- collect f rest ;;
      Py.ok (xs ++ ys)
  end.

(** *** detect_spike_anomalies *)

Record SpikeAnomaly : Type := mkSpike {
  spike_building_id : string;
  anomaly_date : Z;
  daily_count : nat;
  expected_count : R;
  spike_z_score : R;
  spike_severity : Severity
}.

(** [pd.date_range(start, end, freq='D')]: [start], [start] + 1 day, ...
    for as long as [end] is not passed. *)
Definition date_range (start stop : Z) : list Z :=
  map (fun k => (start + Z.of_nat k * ns_per_day)%Z)
      (seq 0 (Z.to_nat ((stop - start) / ns_per_day) + 1)).

(** The rows a centred fixed window of size [w] covers at row [i]:
    [offset = (w - 1) // 2], [end = i + 1 + offset], [start = end - w],
    both clipped to the series. *)
Definition rolling_window (w : nat) (l : list R) (i : nat) : list R :=
  let offset := ((w - 1) / 2)%nat in
  let stop := Nat.min (i + 1 + offset) (length l) in
  let start := Nat.min (i + 1 + offset - w) (length l) in
  firstn (stop - start) (skipn start l).

(** [rolling(window=w, center=True).mean()] at row [i]; NaN when the window
    holds fewer than [w] observations ([min_periods] defaults to [w]). *)
Definition rolling_mean (w : nat) (l : list R) (i : nat) : option R :=
  let win := rolling_window w l i in
  if (length win <? w)%nat then None else Stats.pd_mean win.

(** [rolling(window=w, center=True).std()] at row [i]. *)
Definition rolling_std (w : nat) (l : list R) (i : nat) : option R :=
  let win := rolling_window w l i in
  if (length win <? w)%nat then None else Stats.pd_std win.

(** The body of the loop over the days [i] of one building. *)
Definition spike_at (b : string) (date_range : list Z)
    (daily_counts : list nat) (window_days : nat) (threshold : R) (i : nat)
  : list SpikeAnomaly :=
  let counts := map INR daily_counts in
  match rolling_std window_days counts i with
  | None => []
  | Some sd =>
      if Py.eqb sd 0 then []
      else
        match rolling_mean window_days counts i with
        | None => []
        | Some m =>
            let z_score := (INR (nth i daily_counts 0%nat) - m) / sd in
            if Py.gtb (Rabs z_score) threshold then
              [ mkSpike b (nth i date_range 0%Z) (nth i daily_counts 0%nat)
                  m z_score
                  (if Py.gtb (Rabs z_score) 3 then CRITICAL else HIGH) ]
            else []
        end
  end.

(** The daily counts of one building over its date range. *)
Definition daily_counts_of (building_issues : list Issue)
    (date_range : list Z) : list nat :=
  map (fun d =>
         length (filter (fun i => (date (created_at i) =? date d)%Z)
                        building_issues))
      date_range.

(** The body of the loop over buildings. *)
Definition spikes_of_building (issues_df : list Issue) (window_days : nat)
    (threshold : R) (b : string) : Py.result (list SpikeAnomaly) :=
  let building_issues := issues_of issues_df b in
  if (length building_issues <? window_days)%nat then Py.ok []
  else
    match Stats.sort (map created_at building_issues) with
    | [] => Py.raise (Py.ValueError "Neither `start` nor `end` can be NaT")
    | (first :: _) as times =>
        let date_range := date_range first (last times first) in
        let daily_counts := daily_counts_of building_issues date_range in
        if (length daily_counts <? window_days * 2)%nat then Py.ok []
        else
          Py.ok (flat_map
                   (spike_at b date_range daily_counts window_days threshold)
                   (seq window_days
                        (length daily_counts - window_days - window_days)))
    end.

Definition detect_spike_anomalies (issues_df : list Issue)
    (buildings_df : list Building) (window_days : nat) (threshold : R)
  : Py.result (list SpikeAnomaly) :=
  collect (spikes_of_building issues_df window_days threshold)
          (map id buildings_df).

(** *** detect_temporal_anomalies *)

Record TemporalAnomaly : Type := mkTemporal {
  temporal_building_id : string;
  time_index : nat;
  inter_arrival_hours : R;
  expected_hours : R;
  temporal_z_score : R;
  temporal_severity : Severity
}.

(** Outcome of a computation on numpy floats in which a division by zero,
    which numpy answers with a warning and a non-finite value, is kept apart
    from a finite result. *)
Inductive np_result (A : Type) : Type :=
| Finite (a : A)
| DivideByZero.
Arguments Finite {A} a.
Arguments DivideByZero {A}.

Definition np_divide (x y : R) : np_result R :=
  if Py.eqb y 0 then DivideByZero else Finite (x / y).

(** [np.diff(arrival_times).astype('timedelta64[h]').astype(float)]: the
    gaps between consecutive arrivals in whole hours. *)
Definition inter_arrival (arrival_times : list Z) : list R :=
  map (fun d => IZR (d / ns_per_hour)) (Stats.diff arrival_times).

(** The loop over [enumerate(inter_arrival_times)], from index [i] on. *)
Fixpoint temporal_scan (b : string) (mean_time std_time : R) (i : nat)
    (gaps : list R) : np_result (list TemporalAnomaly) :=
  match gaps with
  | [] => Finite []
  | time_diff :: rest =>
      if Py.eqb std_time 0 then temporal_scan b mean_time std_time (S i) rest
      else
        match np_divide (time_diff - mean_time) std_time with
        | DivideByZero => DivideByZero
        | Finite z_score =>
            match temporal_scan b mean_time std_time (S i) rest with
            | DivideByZero => DivideByZero
            | Finite found =>
                if Py.ltb z_score (-2) then
                  Finite (mkTemporal b i time_diff mean_time z_score
                            (if Py.ltb z_score (-3) then HIGH else MEDIUM)
                          :: found)
                else Finite found
            end
        end
  end.

(** The inter-arrival gaps of one building, in time order. *)
Definition gaps_of (issues_df : list Issue) (b : string) : list R :=
  inter_arrival (Stats.sort (map created_at (issues_of issues_df b))).

(** The body of the loop over buildings. *)
Definition temporal_of_building (issues_df : list Issue) (b : string)
  : np_result (list TemporalAnomaly) :=
  let building_issues := issues_of issues_df b in
  if (length building_issues <? 5)%nat then Finite []
  else
    let arrival_times := Stats.sort (map created_at building_issues) in
    let inter_arrival_times := inter_arrival arrival_times in
    if (length inter_arrival_times <? 2)%nat then Finite []
    else
      let mean_time := Stats.mean inter_arrival_times in
      let std_time := Stats.np_std inter_arrival_times in
      temporal_scan b mean_time std_time 0 inter_arrival_times.

Fixpoint detect_temporal_anomalies_ids (issues_df : list Issue)
    (ids : list string) : np_result (list TemporalAnomaly) :=
  match ids with
  | [] => Finite []
  | b :: rest =>
      match temporal_of_building issues_df b with
      | DivideByZero => DivideByZero
      | Finite xs =>
          match detect_temporal_anomalies_ids issues_df rest with
          | DivideByZero => DivideByZero
          | Finite ys => Finite (xs ++ ys)
          end
      end
  end.

Definition detect_temporal_anomalies (issues_df : list Issue)
    (buildings_df : list Building) : np_result (list TemporalAnomaly) :=
  detect_temporal_anomalies_ids issues_df (map id buildings_df).

(** The specification's series: one row per calendar day from the date of
    the earliest issue to the date of the latest. *)
Definition spec_date_range (start stop : Z) : list Z :=
  map (fun k => ((date start + Z.of_nat k) * ns_per_day)%Z)
      (seq 0 (Z.to_nat (date stop - date start) + 1)).

(** The specification's spike detector for one building: the series runs
    from the first to the last date, and a building is excluded only for a
    series of fewer than [2 * window_days] days. *)
Definition spec_spikes_of_building (issues_df : list Issue)
    (window_days : nat) (threshold : R) (b : string) : list SpikeAnomaly :=
  let building_issues := issues_of issues_df b in
  match Stats.sort (map created_at building_issues) with
  | [] => []
  | (first :: _) as times =>
      let date_range := spec_date_range first (last times first) in
      let daily_counts := daily_counts_of building_issues date_range in
      if (length daily_counts <? window_days * 2)%nat then []
      else
        flat_map (spike_at b date_range daily_counts window_days threshold)
                 (seq window_days
                      (length daily_counts - window_days - window_days))
  end.

(** A building with three issues, ten days apart. *)
Definition sparse_issues : list Issue :=
  [ mkIssue "issue_0" "b1" 3 0;
    mkIssue "issue_1" "b1" 3 (10 * ns_per_day);
    mkIssue "issue_2" "b1" 3 (20 * ns_per_day) ].

(** A sample table for one building: one issue on day 0, three on day 3 and
    one on day 6. *)
Definition spike_issues : list Issue :=
  [ mkIssue "issue_0" "b1" 2 0;
    mkIssue "issue_1" "b1" 4 (3 * ns_per_day);
    mkIssue "issue_2" "b1" 5 (3 * ns_per_day + ns_per_hour);
    mkIssue "issue_3" "b1" 3 (3 * ns_per_day + 2 * ns_per_hour);
    mkIssue "issue_4" "b1" 1 (6 * ns_per_day) ].

End Detectors.

(** ** anomaly_detection_model.py: AnomalyFeatureEngineer *)

Module AnomalyFeatureEngineer.
Import Data.

(** The five columns added per building; [None] is NaN. *)
Record Features : Type := mkFeatures {
  issue_frequency_variance : option R;
  issue_severity_variance : option R;
  inter_arrival_variance : option R;
  daily_issue_std : option R;
  weekly_issue_coefficient_variation : option R
}.

(** [s.std() / (s.mean() + 1)] on a pandas series. *)
Definition std_over_mean_plus_one (s : list R) : option R :=
  match Stats.pd_std s, Stats.pd_mean s with
  | Some sd, Some m => Some (sd / (m + 1))
  | _, _ => None
  end.

Section Engineer.

(** [Timestamp.isocalendar().week], a calendar computation of pandas. *)
Variable isocalendar_week : Z -> Z.

(** The body of the loop over buildings. *)
Definition features_of_building (issues_df : list Issue) (b : string)
  : Features :=
  let building_issues := issues_of issues_df b in
  if (length building_issues =? 0)%nat then
    mkFeatures (Some 0) (Some 0) (Some 0) (Some 0) (Some 0)
  else
    let daily_counts :=
      map INR (Stats.group_sizes
                 (map (fun i => date (created_at i)) building_issues)) in
    let frequency_variance := std_over_mean_plus_one daily_counts in
    let severity_variance :=
      std_over_mean_plus_one (map (fun i => IZR (severity i)) building_issues) in
    let inter_arrival_var :=
      if (1 <? length building_issues)%nat then
        let inter_arrivals :=
          Detectors.inter_arrival
            (Stats.sort (map created_at building_issues)) in
        Some (Stats.np_std inter_arrivals / (Stats.mean inter_arrivals + 1))
      else Some 0 in
    let daily_std := Stats.pd_std daily_counts in
    let weekly_counts :=
      map INR (Stats.group_sizes
                 (map (fun i => isocalendar_week (created_at i))
                      building_issues)) in
    let weekly_cv :=
      if (1 <? length weekly_counts)%nat then
        std_over_mean_plus_one weekly_counts
      else Some 0 in
    mkFeatures frequency_variance severity_variance inter_arrival_var
               daily_std weekly_cv.

Definition engineer_anomaly_features (issues_df : list Issue)
    (buildings_df : list Building) : list (Building * Features) :=
  map (fun bld => (bld, features_of_building issues_df (id bld)))
      buildings_df.

End Engineer.

(** The specification's coefficient of variation, std / mean. *)
Definition spec_coefficient_of_variation (s : list R) : option R :=
  match Stats.pd_std s, Stats.pd_mean s with
  | Some sd, Some m => Some (sd / m)
  | _, _ => None
  end.

(** A sample table: one issue on the first day and three on the second. *)
Definition two_day_issues : list Issue :=
  [ mkIssue "issue_0" "b1" 3 0;
    mkIssue "issue_1" "b1" 3 ns_per_day;
    mkIssue "issue_2" "b1" 3 (ns_per_day + 1);
    mkIssue "issue_3" "b1" 3 (ns_per_day + 2) ].

(** A week numbering, counted from the epoch, that stands in for the ISO
    calendar where a run is exhibited. *)
Definition week_from_epoch (t : Z) : Z := (t / (7 * ns_per_day))%Z.

End AnomalyFeatureEngineer.

(** ** api_integration.py: PredictionAPI.get_anomalies *)

Module AnomalyEndpoint.
Import Sklearn.

Record Anomaly : Type := mkAnomaly {
  building_id : string;
  anomaly_probability : R;
  anomaly_severity : Detectors.Severity;
  if_probability : R;
  svm_probability : R
}.

(** [(if_probs + svm_probs) / 2] on two arrays of one length. *)
Definition ensemble (if_probs svm_probs : list R) : Py.result (list R) :=
  if (length if_probs =? length svm_probs)%nat then
    Py.ok (map (fun '(p, q) => (p + q) / 2) (combine if_probs svm_probs))
  else
    Py.raise (Py.ValueError "operands could not be broadcast together").

(** [a[i]] on an array. *)
Definition item (a : list R) (i : nat) : Py.result R :=
  match nth_error a i with
  | Some x => Py.ok x
  | None => Py.raise Py.IndexError
  end.

(** The loop over [enumerate(features_df['id'])], from index [i] on. *)
Fixpoint anomalies_from (ensemble_probs if_probs svm_probs : list R)
    (i : nat) (ids : list string) : Py.result (list Anomaly) :=
  match ids with
  | [] => Py.ok []
  | b :: rest =>
      anomaly_prob <- item ensemble_probs i ;;
      if Py.gtb anomaly_prob (4/10) then
        let severity :=
          if Py.geb anomaly_prob (8/10) then Detectors.CRITICAL
          else if Py.geb anomaly_prob (6/10) then Detectors.HIGH
          else Detectors.MEDIUM in
        p <- item if_probs i ;;
        q <- item svm_probs i ;;
        found <- anomalies_from ensemble_probs if_probs svm_probs (S i) rest ;;
        Py.ok (mkAnomaly b anomaly_prob severity p q :: found)
      else
        anomalies_from ensemble_probs if_probs svm_probs (S i) rest
  end.

Section Endpoint.
Context {sk : Backend}.

(** Lines 232-259 of [get_anomalies], before the final sort: [ids] is the
    id column of the feature table and [X] its numeric part. *)
Definition get_anomalies (anomaly_if anomaly_svm : AnomalyDetectionModel.t)
    (ids : list string) (X : Matrix) : Py.result (list Anomaly) :=
  '(_, _, if_probs) <- AnomalyDetectionModel.detect_anomalies anomaly_if X ;;
  '(_, _, svm_probs) <- AnomalyDetectionModel.detect_anomalies anomaly_svm X ;;
  ensemble_probs <- ensemble if_probs svm_probs ;;
  anomalies_from ensemble_probs if_probs svm_probs 0 ids.

End Endpoint.
End AnomalyEndpoint.

(** ** api_integration.py: the responses of the anomaly and risk endpoints *)

Module Endpoints.
Import Sklearn.

(** [sorted(l, key=key, reverse=True)]: a stable sort, greatest key first;
    elements with equal keys keep their order. *)
Fixpoint insert_desc {A : Type} (key : A -> R) (x : A) (l : list A) : list A :=
  match l with
  | [] => [x]
  | y :: tl =>
      if Py.ltb (key x) (key y) then y :: insert_desc key x tl else x :: l
  end.

Definition sorted_desc {A : Type} (key : A -> R) (l : list A) : list A :=
  fold_right (insert_desc key) [] l.

(** What an endpoint method returns: the payload with status "success", the
    fixed message of a missing model, or the message of a caught exception. *)
Inductive Response (A : Type) : Type :=
| Success (payload : A)
| NotTrained (message : string)
| Failed (e : Py.exn).
Arguments Success {A} payload.
Arguments NotTrained {A} message.
Arguments Failed {A} e.

Definition count_severity (s : Detectors.Severity)
    (l : list Detectors.Severity) : nat :=
  length (filter (fun x => match x, s with
                           | Detectors.LOW, Detectors.LOW
                           | Detectors.MEDIUM, Detectors.MEDIUM
                           | Detectors.HIGH, Detectors.HIGH
                           | Detectors.CRITICAL, Detectors.CRITICAL => true
                           | _, _ => false
                           end) l).

Record AnomaliesPayload : Type := mkAnomalies {
  anomalies : list AnomalyEndpoint.Anomaly;
  total_anomalies : nat;
  critical_count : nat;
  high_count : nat;
  medium_count : nat
}.

Record SpikesPayload : Type := mkSpikes {
  spike_anomalies : list Detectors.SpikeAnomaly;
  total_spikes : nat;
  critical_spikes : nat;
  high_spikes : nat
}.

Record TemporalPayload : Type := mkTemporalPayload {
  temporal_anomalies : list Detectors.TemporalAnomaly;
  total_temporal : nat;
  critical_anomalies : nat;
  high_anomalies : nat
}.

Definition not_trained_message : string :=
  "Anomaly detection models not trained. Run: python train_anomaly_detection.py".

Section Api.
Context {sk : Backend}.

(** [PredictionAPI.get_anomalies]; [ids] and [X] are the id column and the
    numeric part of the engineered feature table.  A missing SVM model is
    met only after the isolation forest has scored the table. *)
Definition get_anomalies
    (anomaly_if anomaly_svm : option AnomalyDetectionModel.t)
    (ids : list string) (X : Matrix) : Response AnomaliesPayload :=
  match anomaly_if with
  | None => NotTrained not_trained_message
  | Some model_if =>
      match anomaly_svm with
      | None =>
          match AnomalyDetectionModel.detect_anomalies model_if X with
          | inl e => Failed e
          | inr _ => Failed Py.AttributeError
          end
      | Some model_svm =>
          match AnomalyEndpoint.get_anomalies model_if model_svm ids X with
          | inl e => Failed e
          | inr found =>
              let anomalies :=
                sorted_desc AnomalyEndpoint.anomaly_probability found in
              let severities :=
                map AnomalyEndpoint.anomaly_severity anomalies in
              Success (mkAnomalies anomalies (length anomalies)
                         (count_severity Detectors.CRITICAL severities)
                         (count_severity Detectors.HIGH severities)
                         (count_severity Detectors.MEDIUM severities))
          end
      end
  end.

(** [PredictionAPI.get_spike_anomalies]: the detector is called with
    [window_days=7] and its default threshold 2.0. *)
Definition get_spike_anomalies (anomaly_if : option AnomalyDetectionModel.t)
    (issues_df : list Data.Issue) (buildings_df : list Data.Building)
  : Response SpikesPayload :=
  match anomaly_if with
  | None => NotTrained not_trained_message
  | Some _ =>
      match Detectors.detect_spike_anomalies issues_df buildings_df 7 2 with
      | inl e => Failed e
      | inr spikes =>
          let severities := map Detectors.spike_severity spikes in
          Success (mkSpikes spikes (length spikes)
                     (count_severity Detectors.CRITICAL severities)
                     (count_severity Detectors.HIGH severities))
      end
  end.

(** [PredictionAPI.get_temporal_anomalies].  The detector never divides by
    zero; that outcome is given the empty list here. *)
Definition get_temporal_anomalies
    (anomaly_if : option AnomalyDetectionModel.t)
    (issues_df : list Data.Issue) (buildings_df : list Data.Building)
  : Response TemporalPayload :=
  match anomaly_if with
  | None => NotTrained not_trained_message
  | Some _ =>
      let found :=
        match Detectors.detect_temporal_anomalies issues_df buildings_df with
        | Detectors.Finite l => l
        | Detectors.DivideByZero => []
        end in
      let severities := map Detectors.temporal_severity found in
      Success (mkTemporalPayload found (length found)
                 (count_severity Detectors.CRITICAL severities)
                 (count_severity Detectors.HIGH severities))
  end.

End Api.

(** The anomaly map of [get_risk_scores]: one entry per listed anomaly whose
    building id and probability are both truthy, a later entry replacing an
    earlier one for the same building. *)
Fixpoint anomaly_map_from (listed : list AnomalyEndpoint.Anomaly)
    (anomaly_map : string -> option R) : string -> option R :=
  match listed with
  | [] => anomaly_map
  | a :: rest =>
      let building_id := AnomalyEndpoint.building_id a in
      let anomaly_prob := AnomalyEndpoint.anomaly_probability a in
      if negb (String.eqb building_id "") && negb (Py.eqb anomaly_prob 0) then
        anomaly_map_from rest
          (fun b => if String.eqb b building_id then Some anomaly_prob
                    else anomaly_map b)
      else anomaly_map_from rest anomaly_map
  end.

(** [anomalies_response.get('anomalies', [])] *)
Definition listed_anomalies (response : Response AnomaliesPayload)
  : list AnomalyEndpoint.Anomaly :=
  match response with
  | Success payload => anomalies payload
  | _ => []
  end.

Definition anomaly_map_of (response : Response AnomaliesPayload)
  : string -> option R :=
  anomaly_map_from (listed_anomalies response) (fun _ => None).

End Endpoints.

(** ** risk_probability_model.py: prioritisation and the risk report *)

Module Reports.
Import RiskProbabilityModel.

(** [sorted(l, key=..., reverse=True)] for a key compared by [lt]: a stable
    sort, greatest key first. *)
Fixpoint insert_by {A : Type} (lt : A -> A -> bool) (x : A) (l : list A)
  : list A :=
  match l with
  | [] => [x]
  | y :: tl => if lt x y then y :: insert_by lt x tl else x :: l
  end.

Definition sorted_reverse {A : Type} (lt : A -> A -> bool) (l : list A)
  : list A :=
  fold_right (insert_by lt) [] l.

(** [l[:n]]: the first [n] elements, or all but the last [-n] for a
    negative [n]. *)
Definition slice_to {A : Type} (l : list A) (n : Z) : list A :=
  if (0 <=? n)%Z then firstn (Z.to_nat n) l
  else firstn (length l - Z.to_nat (- n)) l.

(** The order of the keys [(risk_probability, recent_critical_issues)]:
    tuples are compared on the first component in which they differ. *)
Definition priority_lt (x y : RiskScore) : bool :=
  if Py.eqb (risk_probability x) (risk_probability y)
  then (recent_critical_issues x <? recent_critical_issues y)%Z
  else Py.ltb (risk_probability x) (risk_probability y).

(** The order of the result: [x] may come before [y]. *)
Definition priority_ge (x y : RiskScore) : Prop :=
  risk_probability y < risk_probability x \/
  (risk_probability y = risk_probability x /\
   (recent_critical_issues y <= recent_critical_issues x)%Z).

Definition prioritize_buildings (building_risks : list RiskScore) (top_n : Z)
  : list RiskScore :=
  slice_to (sorted_reverse priority_lt building_risks) top_n.

Definition level_eqb (a b : RiskLevel) : bool :=
  match a, b with
  | LOW, LOW | MEDIUM, MEDIUM | HIGH, HIGH | CRITICAL, CRITICAL => true
  | _, _ => false
  end.

(** [[r for r in building_risks if r['risk_level'] == level]] *)
Definition with_level (level : RiskLevel) (building_risks : list RiskScore)
  : list RiskScore :=
  filter (fun r => level_eqb (risk_level r) level) building_risks.

Record Summary : Type := mkSummary {
  total_buildings : nat;
  avg_risk_probability : R;
  critical_buildings : nat;
  high_risk_buildings : nat;
  critical_percentage : R
}.

Record Distribution : Type := mkDistribution {
  dist_critical : nat;
  dist_high : nat;
  dist_medium : nat;
  dist_low : nat
}.

(** The building-level part of the report; the category and zone tables and
    the recommendation texts are not modelled. *)
Record Report : Type := mkReport {
  summary : Summary;
  risk_distribution : Distribution;
  top_priority_buildings : list RiskScore
}.

Definition generate_risk_report (building_risks : list RiskScore) : Report :=
  let risk_probs := map risk_probability building_risks in
  let critical_buildings := with_level CRITICAL building_risks in
  let high_buildings := with_level HIGH building_risks in
  mkReport
    (mkSummary
       (length building_risks)
       (match risk_probs with [] => 0 | _ => Stats.mean risk_probs end)
       (length critical_buildings)
       (length high_buildings)
       (match building_risks with
        | [] => 0
        | _ => 100 * INR (length critical_buildings)
               / INR (length building_risks)
        end))
    (mkDistribution
       (length (with_level CRITICAL building_risks))
       (length (with_level HIGH building_risks))
       (length (with_level MEDIUM building_risks))
       (length (with_level LOW building_risks)))
    (prioritize_buildings building_risks 5).

(** *** calculate_zone_risk *)

(** [unique()]: the distinct values in order of first appearance. *)
Fixpoint unique (l : list string) : list string :=
  match l with
  | [] => []
  | x :: tl => x :: filter (fun y => negb (String.eqb y x)) (unique tl)
  end.

(** The building table as the function reads it: the id of each building
    with its label from the column zone (or, without that column, from
    building_type), or the ids alone when the table has neither column. *)
Inductive ZoneTable : Type :=
| Labelled (rows : list (string * string))
| Unlabelled (ids : list string).

(** [{risk['building_id']: risk for risk in building_risks}]: the last
    score of a building is the one kept. *)
Fixpoint building_risk_map (building_risks : list RiskScore) (bid : string)
  : option RiskScore :=
  match building_risks with
  | [] => None
  | r :: rest =>
      match building_risk_map rest bid with
      | Some later => Some later
      | None => if String.eqb (building_id r) bid then Some r else None
      end
  end.

Record ZoneRisk : Type := mkZoneRisk {
  zone : string;
  building_count : nat;
  avg_risk_probability_zone : R;
  max_risk_probability : R;
  critical_buildings_zone : nat;
  zone_risk_level : RiskLevel
}.

(** [np.max] of a non-empty list given by its head and tail. *)
Definition max_of (x : R) (xs : list R) : R := fold_left Rmax xs x.

(** The body of the loop over zones. *)
Definition zone_row (self : t) (building_risks : list RiskScore)
    (zone : string) (zone_building_ids : list string) : list ZoneRisk :=
  let zone_risks_list :=
    flat_map (fun bid => match building_risk_map building_risks bid with
                         | Some risk => [risk_probability risk]
                         | None => []
                         end) zone_building_ids in
  match zone_risks_list with
  | [] => []
  | x :: xs =>
      let avg_risk := Stats.mean zone_risks_list in
      let max_risk := max_of x xs in
      let critical_count :=
        length (filter (fun r => Py.geb r (risk_threshold_critical self))
                       zone_risks_list) in
      let zone_risk_level :=
        if Py.geb avg_risk (risk_threshold_critical self) then CRITICAL
        else if Py.geb avg_risk (risk_threshold_high self) then HIGH
        else if Py.geb avg_risk (risk_threshold_medium self) then MEDIUM
        else LOW in
      [ mkZoneRisk zone (length zone_building_ids) avg_risk max_risk
          critical_count zone_risk_level ]
  end.

Definition calculate_zone_risk (self : t) (buildings_df : ZoneTable)
    (building_risks : list RiskScore) : list ZoneRisk :=
  match buildings_df with
  | Labelled rows =>
      flat_map
        (fun zone =>
           zone_row self building_risks zone
             (map fst (filter (fun row => String.eqb (snd row) zone) rows)))
        (unique (map snd rows))
  | Unlabelled ids => zone_row self building_risks "Unknown" ids
  end.

End Reports.

(** ** failure_prediction_model.py: the time-window heuristic *)

Module TimeWindow.

(** [int(x)] on a float: truncation towards zero. *)
Definition trunc (r : R) : Z :=
  if Rle_dec 0 r then Int_part r else (- Int_part (- r))%Z.

(** Lines 253-259 of [predict_time_window]: the estimated days to failure
    from the failure probability and the days since the last issue. *)
Definition estimated_days (prob days_since_last : R) : Z :=
  if Py.gtb prob (7/10) then Z.min (trunc (days_since_last * (5/10))) 30
  else if Py.gtb prob (5/10) then Z.min (trunc (days_since_last * (7/10))) 45
  else Z.min (trunc days_since_last) 60.

(** [np.clip(a, lo, hi)] *)
Definition clip (a lo hi : R) : R := Rmin hi (Rmax a lo).

(** Line 267: [np.clip(abs(prob - 0.5) * 2, 0, 1)]. *)
Definition confidence (prob : R) : R := clip (Rabs (prob - 5/10) * 2) 0 1.

End TimeWindow.

(** ** model_utils.py and the endpoints that use it *)

Module ModelUtils.
Import RiskProbabilityModel.

(** Python values held in the prediction dictionaries. *)
Inductive Value : Type :=
| VStr (s : string)
| VFloat (r : R)
| VInt (z : Z)
| VBool (b : bool).

(** A dictionary with string keys, in insertion order. *)
Definition Dict : Type := list (string * Value).

Inductive DictError : Type :=
| KeyError (key : string)
| TypeError
| OverflowError.

Definition result (A : Type) : Type := (DictError + A)%type.

Definition bind {A B : Type} (m : result A) (k : A -> result B) : result B :=
  match m with
  | inl e => inl e
  | inr a => k a
  end.

(** [d[key]] *)
Fixpoint getitem (d : Dict) (key : string) : result Value :=
  match d with
  | [] => inl (KeyError key)
  | (k, v) :: rest => if String.eqb k key then inr v else getitem rest key
  end.

(** [float(v)] and [int(v)] on numbers and booleans; the parsing of a
    string is not modelled and is given as an error. *)
Definition to_float (v : Value) : result R :=
  match v with
  | VFloat r => inr r
  | VInt z => inr (IZR z)
  | VBool b => inr (if b then 1 else 0)
  | VStr _ => inl TypeError
  end.

Definition to_int (v : Value) : result Z :=
  match v with
  | VInt z => inr z
  | VFloat r => inr (TimeWindow.trunc r)
  | VBool b => inr (if b then 1 else 0)%Z
  | VStr _ => inl TypeError
  end.

Definition level_name (l : RiskLevel) : string :=
  match l with
  | CRITICAL => "CRITICAL"
  | HIGH => "HIGH"
  | MEDIUM => "MEDIUM"
  | LOW => "LOW"
  end.

(** A row of the result of [predict_time_window]. *)
Record Prediction : Type := mkPrediction {
  building_id : string;
  building_name : string;
  failure_probability : R;
  failure_risk_level : RiskLevel;
  estimated_days_to_failure : Z;
  confidence : R;
  primary_concern : string
}.

(** The dictionary [predict_time_window] builds for that row. *)
Definition raw_dict (p : Prediction) : Dict :=
  [ ("building_id", VStr (building_id p));
    ("building_name", VStr (building_name p));
    ("failure_probability", VFloat (failure_probability p));
    ("failure_risk_level", VStr (level_name (failure_risk_level p)));
    ("estimated_days_to_failure", VInt (estimated_days_to_failure p));
    ("confidence", VFloat (confidence p));
    ("primary_concern", VStr (primary_concern p)) ]%string.

(** [v in ['CRITICAL', 'HIGH']] *)
Definition is_critical_or_high (v : Value) : bool :=
  match v with
  | VStr s => String.eqb s "CRITICAL" || String.eqb s "HIGH"
  | _ => false
  end.

Section Formatter.

(** [round(x, 4)], a float operation that is not modelled. *)
Variable round4 : R -> R.

(** [(datetime.now() + timedelta(days=v)).isoformat()]: the calendar is not
    modelled; the operation raises for a value that is no number and for a
    date outside the years 1 to 9999. *)
Variable failure_date : Value -> result Value.

(** The body of the loop of [format_predictions], its entries evaluated in
    the order of the dictionary display; the timestamp entry is left
    out. *)
Definition format_prediction (pred : Dict) : result Dict :=
  bind (getitem pred "building_id") (fun bid =>
  bind (getitem pred "building_name") (fun bname =>
  bind (getitem pred "failure_probability") (fun prob =>
  bind (to_float prob) (fun prob =>
  bind (getitem pred "failure_risk_level") (fun level =>
  bind (getitem pred "estimated_days_to_failure") (fun days =>
  bind (to_int days) (fun int_days =>
  bind (failure_date days) (fun date =>
  bind (getitem pred "confidence") (fun conf =>
  bind (to_float conf) (fun conf =>
  bind (getitem pred "primary_concern") (fun concern =>
  inr [ ("buildingId", bid);
        ("buildingName", bname);
        ("failureProbability", VFloat (round4 prob));
        ("riskLevel", level);
        ("estimatedDaysToFailure", VInt int_days);
        ("estimatedFailureDate", date);
        ("confidence", VFloat (round4 conf));
        ("primaryConcern", concern);
        ("actionRequired", VBool (is_critical_or_high level)) ]%string))))))))))).

Fixpoint format_predictions (predictions : list Dict) : result (list Dict) :=
  match predictions with
  | [] => inr []
  | pred :: rest =>
      bind (format_prediction pred) (fun formatted =>
      bind (format_predictions rest) (fun more =>
      inr (formatted :: more)))
  end.

End Formatter.

(** *** AlertSystem *)

Record Template : Type := mkTemplate {
  title : string;
  priority : Z;
  action : string
}.

(** [ALERT_TEMPLATES.get(risk_level, {})], with the defaults that
    [generate_alert] uses for a missing entry. *)
Definition template_of (risk_level : Value) : Template :=
  match risk_level with
  | VStr s =>
      if String.eqb s "CRITICAL" then
        mkTemplate "URGENT: Critical Failure Risk Detected" 1
                   "IMMEDIATE MAINTENANCE REQUIRED"
      else if String.eqb s "HIGH" then
        mkTemplate "HIGH: Significant Failure Risk" 2
                   "SCHEDULE MAINTENANCE SOON"
      else if String.eqb s "MEDIUM" then
        mkTemplate "MEDIUM: Moderate Failure Risk" 3 "PLAN MAINTENANCE"
      else if String.eqb s "LOW" then
        mkTemplate "LOW: Minor Failure Risk" 4 "ROUTINE MONITORING"
      else mkTemplate "Failure Risk Alert" 4 "REVIEW"
  | _ => mkTemplate "Failure Risk Alert" 4 "REVIEW"
  end.

(** An alert; its id, timestamp and message text are left out. *)
Record Alert : Type := mkAlert {
  alert_building_id : Value;
  alert_building_name : Value;
  alert_title : string;
  alert_priority : Z;
  alert_risk_level : Value;
  alert_probability : Value;
  alert_estimated_days : Value;
  alert_primary_concern : Value;
  alert_action_required : string
}.

Definition generate_alert (prediction : Dict) : result Alert :=
  bind (getitem prediction "failure_risk_level") (fun risk_level =>
  let template := template_of risk_level in
  bind (getitem prediction "building_id") (fun bid =>
  bind (getitem prediction "building_name") (fun bname =>
  bind (getitem prediction "failure_probability") (fun prob =>
  bind (getitem prediction "estimated_days_to_failure") (fun days =>
  bind (getitem prediction "primary_concern") (fun concern =>
  inr (mkAlert bid bname (title template) (priority template) risk_level
               prob days concern (action template)))))))).

(** The alert that [generate_alert] builds from the dictionary of a row. *)
Definition alert_of (p : Prediction) : Alert :=
  let level := VStr (level_name (failure_risk_level p)) in
  mkAlert (VStr (building_id p)) (VStr (building_name p))
          (title (template_of level)) (priority (template_of level)) level
          (VFloat (failure_probability p))
          (VInt (estimated_days_to_failure p))
          (VStr (primary_concern p)) (action (template_of level)).

(** The loop of [generate_alerts]. *)
Fixpoint collect_alerts (predictions : list Dict) : result (list Alert) :=
  match predictions with
  | [] => inr []
  | pred :: rest =>
      bind (getitem pred "failure_risk_level") (fun level =>
      if is_critical_or_high level then
        bind (generate_alert pred) (fun alert =>
        bind (collect_alerts rest) (fun more => inr (alert :: more)))
      else collect_alerts rest)
  end.

(** [sorted(alerts, key=lambda x: x['priority'])]: a stable sort, least
    priority number first. *)
Fixpoint insert_alert (x : Alert) (l : list Alert) : list Alert :=
  match l with
  | [] => [x]
  | y :: tl =>
      if (alert_priority y <? alert_priority x)%Z
      then y :: insert_alert x tl else x :: l
  end.

Definition generate_alerts (predictions : list Dict) : result (list Alert) :=
  bind (collect_alerts predictions) (fun alerts =>
  inr (fold_right insert_alert [] alerts)).

(** *** PredictionFormatter.group_by_risk_level *)

Record Grouped : Type := mkGrouped {
  group_critical : list Dict;
  group_high : list Dict;
  group_medium : list Dict;
  group_low : list Dict
}.

(** One step of the loop: the prediction is appended to the list of its
    level, or dropped when the level is none of the four. *)
Definition group_add (g : Grouped) (pred : Dict) : result Grouped :=
  bind (getitem pred "failure_risk_level") (fun level =>
  match level with
  | VStr s =>
      if String.eqb s "CRITICAL" then
        inr (mkGrouped (group_critical g ++ [pred]) (group_high g)
                       (group_medium g) (group_low g))
      else if String.eqb s "HIGH" then
        inr (mkGrouped (group_critical g) (group_high g ++ [pred])
                       (group_medium g) (group_low g))
      else if String.eqb s "MEDIUM" then
        inr (mkGrouped (group_critical g) (group_high g)
                       (group_medium g ++ [pred]) (group_low g))
      else if String.eqb s "LOW" then
        inr (mkGrouped (group_critical g) (group_high g)
                       (group_medium g) (group_low g ++ [pred]))
      else inr g
  | _ => inr g
  end).

Fixpoint group_loop (g : Grouped) (predictions : list Dict) : result Grouped :=
  match predictions with
  | [] => inr g
  | pred :: rest => bind (group_add g pred) (fun g' => group_loop g' rest)
  end.

Definition group_by_risk_level (predictions : list Dict) : result Grouped :=
  group_loop (mkGrouped [] [] [] []) predictions.

(** *** The endpoints on top of the predictions *)

(** An endpoint response: the payload of a success, or the exception whose
    text becomes the message of an error response. *)
Inductive ApiResponse (A : Type) : Type :=
| ApiSuccess (payload : A)
| ApiError (e : DictError).
Arguments ApiSuccess {A} payload.
Arguments ApiError {A} e.

Record AlertsPayload : Type := mkAlertsPayload {
  alerts : list Alert;
  totalAlerts : nat;
  criticalAlerts : nat
}.

Section Api.
Variable round4 : R -> R.
Variable failure_date : Value -> result Value.

(** The failure date of a row can be computed. *)
Definition dated (p : Prediction) : Prop :=
  exists date, failure_date (VInt (estimated_days_to_failure p)) = inr date.

(** The end of [get_predictions]: the rows of [predict_time_window] are
    formatted for the response; the summary statistics of the response are
    left out. *)
Definition get_predictions (predictions : list Prediction)
  : ApiResponse (list Dict) :=
  match format_predictions round4 failure_date (map raw_dict predictions) with
  | inl e => ApiError e
  | inr formatted => ApiSuccess formatted
  end.

(** [get_alerts], given the response of [get_predictions]. *)
Definition get_alerts (predictions_response : ApiResponse (list Dict))
  : ApiResponse AlertsPayload :=
  match predictions_response with
  | ApiError e => ApiError e
  | ApiSuccess predictions =>
      match generate_alerts predictions with
      | inl e => ApiError e
      | inr alerts =>
          ApiSuccess
            (mkAlertsPayload alerts (length alerts)
               (length (filter (fun a => (alert_priority a =? 1)%Z) alerts)))
      end
  end.

(** [get_risk_summary], given the response of [get_predictions]: the
    groups and the size of each. *)
Definition get_risk_summary (predictions_response : ApiResponse (list Dict))
  : ApiResponse (Grouped * (nat * nat * nat * nat)) :=
  match predictions_response with
  | ApiError e => ApiError e
  | ApiSuccess predictions =>
      match group_by_risk_level predictions with
      | inl e => ApiError e
      | inr grouped =>
          ApiSuccess
            (grouped,
             (length (group_critical grouped), length (group_high grouped),
              length (group_medium grouped), length (group_low grouped)))
      end
  end.

End Api.

End ModelUtils.

(** ** feature_engineering.py: FeatureEngineer *)

Module FeatureEngineer.
Import Data.

(** [Timedelta.days]: whole days, rounded down. *)
Definition days (delta : Z) : Z := (delta / ns_per_day)%Z.

(** [created_at.diff().dt.days.dropna()] on the issues sorted by their
    time of creation. *)
Definition time_diffs (issues : list Issue) : list R :=
  map (fun d => IZR (days d))
      (Stats.diff (Stats.sort (map created_at issues))).

(** [_calculate_clustering_score]; [None] is NaN. *)
Definition _calculate_clustering_score (building_issues : list Issue)
  : option R :=
  if (length building_issues <? 2)%nat then Some 0
  else
    let time_diffs := time_diffs building_issues in
    if (length time_diffs =? 0)%nat then Some 0
    else AnomalyFeatureEngineer.std_over_mean_plus_one time_diffs.

(** [_calculate_recurrence_rate] *)
Definition _calculate_recurrence_rate (category_issues : list Issue) : R :=
  if (length category_issues <? 2)%nat then 0
  else
    let time_diffs := time_diffs category_issues in
    if (length time_diffs =? 0)%nat then 0
    else 1 / (Stats.mean time_diffs + 1).

Section Training.

(** [now n] is the [n]-th reading of [datetime.now()] during a call. *)
Variable now : nat -> Z.

(** The body of the loop of [create_training_dataset] for one building,
    from the number of clock readings made so far: the label of the
    building and the number of readings afterwards. *)
Definition target_of (target_window_days : Z) (issues_df : list Issue)
    (tick : nat) (building_id : string) : Z * nat :=
  let building_issues := issues_of issues_df building_id in
  if (length building_issues =? 0)%nat then (0%Z, tick)
  else
    let future_date := (now tick + target_window_days * ns_per_day)%Z in
    let future_issues :=
      filter (fun i => (now (S tick) <? created_at i)%Z
                       && (created_at i <=? future_date)%Z)
             building_issues in
    let has_failure :=
      (0 <? length (filter (fun i => (4 <=? severity i)%Z) future_issues))%nat in
    ((if has_failure then 1 else 0)%Z, S (S tick)).

(** The labels of [create_training_dataset], one per building; [tick] is
    the number of clock readings that engineering the features took. *)
Fixpoint targets (target_window_days : Z) (issues_df : list Issue)
    (tick : nat) (building_ids : list string) : list Z :=
  match building_ids with
  | [] => []
  | building_id :: rest =>
      let '(target, tick') :=
        target_of target_window_days issues_df tick building_id in
      target :: targets target_window_days issues_df tick' rest
  end.

End Training.

End FeatureEngineer.

(** ** risk_probability_model.py: calculate_category_risk *)

Module CategoryRisk.

(** A row of the issue table with the columns the function reads; a missing
    resolution time is NaN. *)
Record Issue : Type := mkIssue {
  category : string;
  severity : Z;
  status : string;
  resolution_days : option R;
  created_at : Z
}.

Record Row : Type := mkRow {
  row_category : string;
  total_issues : nat;
  critical_issues : nat;
  avg_resolution_days : option R;
  recent_issue_count : nat;
  category_risk_score : R
}.

(** [Series.mean()]: the mean of the values that are not NaN, NaN when
    there is none. *)
Definition mean_skipna (column : list (option R)) : option R :=
  Stats.pd_mean
    (flat_map (fun v => match v with Some x => [x] | None => [] end) column).

(** [min(1.0, x)] for a float [x] that may be NaN: a comparison with NaN
    is false, so the first argument is kept. *)
Definition min_one (x : option R) : R :=
  match x with
  | Some x => Py.min 1 x
  | None => 1
  end.

Definition categories : list string :=
  [ "WATER"; "ELECTRICITY"; "WIFI"; "SANITATION"; "TEMPERATURE" ]%string.

Section Categories.

(** [now n] is the [n]-th reading of [datetime.now()] during the call. *)
Variable now : nat -> Z.

(** Whether the issue table has a column resolution_days. *)
Variable has_resolution_days : bool.

(** The body of the loop over the categories, from the number of clock
    readings made so far. *)
Definition category_row (issues_df : list Issue) (tick : nat)
    (category_name : string) : Row * nat :=
  let category_issues :=
    filter (fun i => String.eqb (category i) category_name) issues_df in
  if (length category_issues =? 0)%nat then
    (mkRow category_name 0 0 (Some 0) 0 0, tick)
  else
    let critical_count :=
      length (filter (fun i => (4 <=? severity i)%Z) category_issues) in
    let resolved_issues :=
      filter (fun i => String.eqb (status i) "RESOLVED") category_issues in
    let avg_resolution :=
      if (0 <? length resolved_issues)%nat && has_resolution_days
      then mean_skipna (map resolution_days resolved_issues)
      else Some 0 in
    let cutoff_date := (now tick - 30 * Data.ns_per_day)%Z in
    let recent_count :=
      length (filter (fun i => (cutoff_date <=? created_at i)%Z)
                     category_issues) in
    let total_issues := length category_issues in
    let severity_ratio :=
      if (0 <? total_issues)%nat
      then INR critical_count / INR total_issues else 0 in
    let severity_component := severity_ratio in
    let frequency_component := Py.min 1 (INR recent_count / 10) in
    let resolution_component :=
      min_one (option_map (fun a => a / 30) avg_resolution) in
    let category_risk :=
      severity_component * (4/10) + frequency_component * (35/100)
      + resolution_component * (25/100) in
    (mkRow category_name total_issues critical_count avg_resolution
           recent_count category_risk, S tick).

Fixpoint category_rows (issues_df : list Issue) (tick : nat)
    (names : list string) : list Row :=
  match names with
  | [] => []
  | name :: rest =>
      let '(row, tick') := category_row issues_df tick name in
      row :: category_rows issues_df tick' rest
  end.

Definition calculate_category_risk (issues_df : list Issue) : list Row :=
  category_rows issues_df 0 categories.

End Categories.

End CategoryRisk.

(** * Properties *)

(** ** Python comparisons against the order on the reals *)

Lemma Py_ltb_spec (x y : R) : Py.ltb x y = true <-> x < y.
Proof. unfold Py.ltb. destruct (Rlt_dec x y); split; intros; easy. Qed.

Lemma Py_ltb_false (x y : R) : Py.ltb x y = false <-> y <= x.
Proof.
  unfold Py.ltb. destruct (Rlt_dec x y); split; intros; try easy; lra.
Qed.

Lemma Py_gtb_spec (x y : R) : Py.gtb x y = true <-> x > y.
Proof. unfold Py.gtb. rewrite Py_ltb_spec. lra. Qed.

Lemma Py_gtb_false (x y : R) : Py.gtb x y = false <-> x <= y.
Proof. unfold Py.gtb. rewrite Py_ltb_false. lra. Qed.

Lemma Py_geb_spec (x y : R) : Py.geb x y = true <-> x >= y.
Proof. unfold Py.geb. destruct (Rge_dec x y); split; intros; easy. Qed.

Lemma Py_geb_false (x y : R) : Py.geb x y = false <-> x < y.
Proof.
  unfold Py.geb. destruct (Rge_dec x y); split; intros; try easy; lra.
Qed.

Lemma Py_eqb_spec (x y : R) : Py.eqb x y = true <-> x = y.
Proof. unfold Py.eqb. destruct (Req_dec_T x y); split; intros; easy. Qed.

Lemma Py_eqb_false (x y : R) : Py.eqb x y = false <-> x <> y.
Proof. unfold Py.eqb. destruct (Req_dec_T x y); split; intros; easy. Qed.

Lemma Py_min_Rmin (a b : R) : Py.min a b = Rmin a b.
Proof.
  unfold Py.min, Py.ltb, Rmin.
  destruct (Rlt_dec b a), (Rle_dec a b); lra.
Qed.

Lemma Py_max_Rmax (a b : R) : Py.max a b = Rmax a b.
Proof.
  unfold Py.max, Py.gtb, Py.ltb, Rmax.
  destruct (Rlt_dec a b), (Rle_dec a b); lra.
Qed.

Lemma Py_clamp_bounds (x : R) : 0 <= Py.max 0 (Py.min 1 x) <= 1.
Proof.
  rewrite Py_max_Rmax, Py_min_Rmin. unfold Rmax, Rmin.
  destruct (Rle_dec 1 x); destruct (Rle_dec 0 _); lra.
Qed.

Lemma Py_truediv_ok (a b : R) : b <> 0 -> Py.truediv a b = inr (a / b).
Proof.
  intros Hb. unfold Py.truediv.
  destruct (Py.eqb b 0) eqn:E; [apply Py_eqb_spec in E; easy | reflexivity].
Qed.

Lemma Py_truediv_zero (a : R) : Py.truediv a 0 = inl Py.ZeroDivisionError.
Proof.
  unfold Py.truediv.
  destruct (Py.eqb 0 0) eqn:E; [reflexivity | apply Py_eqb_false in E; easy].
Qed.

(** ** RiskProbabilityModel *)

Section RiskFacts.
Import RiskProbabilityModel.

Lemma init_ok (fw aw rw : R) :
  fw + aw + rw <> 0 ->
  init fw aw rw =
  inr (mk (fw / (fw + aw + rw)) (aw / (fw + aw + rw)) (rw / (fw + aw + rw))
          (80/100) (60/100) (40/100)).
Proof.
  intros H. unfold init. rewrite !Py_truediv_ok by assumption. reflexivity.
Qed.

Lemma init_zero_total (fw aw rw : R) :
  fw + aw + rw = 0 -> init fw aw rw = inl Py.ZeroDivisionError.
Proof.
  intros H. unfold init. rewrite H, Py_truediv_zero. reflexivity.
Qed.

Lemma init_inv (fw aw rw : R) (self : t) :
  init fw aw rw = inr self ->
  fw + aw + rw <> 0 /\
  self = mk (fw / (fw + aw + rw)) (aw / (fw + aw + rw)) (rw / (fw + aw + rw))
            (80/100) (60/100) (40/100).
Proof.
  intros H. destruct (Req_dec_T (fw + aw + rw) 0) as [E | E].
  - rewrite init_zero_total in H by assumption. discriminate.
  - split; [assumption |]. rewrite init_ok in H by assumption.
    now injection H.
Qed.

Lemma logistic_open_unit (c : R) : 0 < logistic c < 1.
Proof.
  unfold logistic. pose proof (exp_pos (- 5 * (c - 5/10))) as He.
  split.
  - apply Rdiv_lt_0_compat; lra.
  - apply Rmult_lt_reg_r with (1 + exp (- 5 * (c - 5 / 10))); [lra |].
    unfold Rdiv. rewrite Rmult_assoc, Rinv_l by lra. lra.
Qed.

Lemma logistic_increasing (c d : R) : c <= d -> logistic c <= logistic d.
Proof.
  intros H. unfold logistic, Rdiv. rewrite !Rmult_1_l.
  pose proof (exp_pos (- 5 * (c - 5/10))).
  pose proof (exp_pos (- 5 * (d - 5/10))).
  apply Rinv_le_contravar; [lra |].
  apply Rplus_le_compat_l.
  destruct H as [H | ->]; [| lra].
  left. apply exp_increasing. lra.
Qed.


End RiskFacts.

Section RiskClaims.
Import RiskProbabilityModel.

Lemma risk_probability_logistic (self : t) (b : string) (f a q : R) (n : Z) :
  risk_probability (calculate_building_risk self b f a q n) =
  logistic (composite_score (calculate_building_risk self b f a q n)).
Proof.
  unfold calculate_building_risk, logistic.
  repeat match goal with |- context [if ?c then _ else _] => destruct c end;
    reflexivity.
Qed.

Lemma risk_level_cases (self : t) (b : string) (f a q : R) (n : Z) :
  let r := calculate_building_risk self b f a q n in
  let p := risk_probability r in
  (p >= risk_threshold_critical self /\ risk_level r = CRITICAL) \/
  (p < risk_threshold_critical self /\ p >= risk_threshold_high self /\
   risk_level r = HIGH) \/
  (p < risk_threshold_critical self /\ p < risk_threshold_high self /\
   p >= risk_threshold_medium self /\ risk_level r = MEDIUM) \/
  (p < risk_threshold_critical self /\ p < risk_threshold_high self /\
   p < risk_threshold_medium self /\ risk_level r = LOW).
Proof.
  unfold calculate_building_risk.
  set (p := 1 / (1 + exp _)).
  destruct (Py.geb p (risk_threshold_critical self)) eqn:E1.
  { apply Py_geb_spec in E1. left. cbn. split; [exact E1 | reflexivity]. }
  apply Py_geb_false in E1. right.
  destruct (Py.geb p (risk_threshold_high self)) eqn:E2.
  { apply Py_geb_spec in E2. left. cbn. repeat split; assumption. }
  apply Py_geb_false in E2. right.
  destruct (Py.geb p (risk_threshold_medium self)) eqn:E3.
  { apply Py_geb_spec in E3. left. cbn. repeat split; assumption. }
  apply Py_geb_false in E3. right. cbn. repeat split; assumption.
Qed.

Lemma action_follows_level (self : t) (b : string) (f a q : R) (n : Z) :
  action (calculate_building_risk self b f a q n) =
  action_of (risk_level (calculate_building_risk self b f a q n)).
Proof.
  unfold calculate_building_risk.
  repeat match goal with |- context [if ?c then _ else _] => destruct c end;
    reflexivity.
Qed.

Lemma risk_level_iff (fw aw rw : R) (self : t) (b : string) (f a q : R)
    (n : Z) :
  init fw aw rw = inr self ->
  let r := calculate_building_risk self b f a q n in
  (risk_level r = CRITICAL <-> risk_probability r >= 8/10) /\
  (risk_level r = HIGH <-> 6/10 <= risk_probability r < 8/10) /\
  (risk_level r = MEDIUM <-> 4/10 <= risk_probability r < 6/10) /\
  (risk_level r = LOW <-> risk_probability r < 4/10).
Proof.
  intros Hinit r.
  destruct (init_inv _ _ _ _ Hinit) as [Htot Hself].
  pose proof (risk_level_cases self b f a q n) as Hcases.
  fold r in Hcases. cbv zeta in Hcases.
  assert (Hc : risk_threshold_critical self = 8/10) by (subst self; cbn; lra).
  assert (Hh : risk_threshold_high self = 6/10) by (subst self; cbn; lra).
  assert (Hm : risk_threshold_medium self = 4/10) by (subst self; cbn; lra).
  rewrite Hc, Hh, Hm in Hcases.
  assert (Hcrit : risk_level r = CRITICAL <-> risk_probability r >= 8/10).
  { split; intros E.
    - rewrite E in Hcases.
      destruct Hcases as [[H _] | [(_ & _ & H) | [(_ & _ & _ & H) | (_ & _ & _ & H)]]];
        [assumption | discriminate ..].
    - destruct Hcases as [[_ H] | [(H & _) | [(H & _) | (H & _)]]];
        [assumption | lra ..]. }
  assert (Hhigh : risk_level r = HIGH <-> 6/10 <= risk_probability r < 8/10).
  { split; intros E.
    - rewrite E in Hcases.
      destruct Hcases as [[_ H] | [(H1 & H2 & _) | [(_ & _ & _ & H) | (_ & _ & _ & H)]]];
        [discriminate | lra | discriminate ..].
    - destruct Hcases as [[H _] | [(_ & _ & H) | [(_ & H & _) | (_ & H & _)]]];
        [lra | assumption | lra ..]. }
  assert (Hmed : risk_level r = MEDIUM <-> 4/10 <= risk_probability r < 6/10).
  { split; intros E.
    - rewrite E in Hcases.
      destruct Hcases as [[_ H] | [(_ & _ & H) | [(_ & H1 & H2 & _) | (_ & _ & _ & H)]]];
        [discriminate | discriminate | lra | discriminate].
    - destruct Hcases as [[H _] | [(_ & H & _) | [(_ & _ & _ & H) | (_ & _ & H & _)]]];
        [lra | lra | assumption | lra]. }
  assert (Hlow : risk_level r = LOW <-> risk_probability r < 4/10).
  { split; intros E.
    - rewrite E in Hcases.
      destruct Hcases as [[_ H] | [(_ & _ & H) | [(_ & _ & _ & H) | (_ & _ & H & _)]]];
        [discriminate | discriminate | discriminate | lra].
    - destruct Hcases as [[H _] | [(_ & H & _) | [(_ & _ & H & _) | (_ & _ & _ & H)]]];
        [lra | lra | lra | assumption]. }
  exact (conj Hcrit (conj Hhigh (conj Hmed Hlow))).
Qed.

(** C1.  On a model built by the constructor, [calculate_building_risk]
    clamps the three component scores to [0,1], blends them with the
    normalised weights into the composite score, returns the logistic
    rescaling [1/(1+exp(-5*(composite-0.5)))] of the composite as the risk
    probability, which lies in [0,1], and assigns the level CRITICAL exactly
    from 0.80 on, HIGH exactly on [0.60,0.80), MEDIUM exactly on [0.40,0.60)
    and LOW exactly below 0.40, each with its fixed action label. *)
Theorem calculate_building_risk_spec
    (fw aw rw : R) (self : t) (b : string) (f a q : R) (n : Z) :
  init fw aw rw = inr self ->
  let r := calculate_building_risk self b f a q n in
  (failure_component r = Rmax 0 (Rmin 1 f) /\
   anomaly_component r = Rmax 0 (Rmin 1 a) /\
   recency_component r = Rmax 0 (Rmin 1 q)) /\
  (0 <= failure_component r <= 1 /\
   0 <= anomaly_component r <= 1 /\
   0 <= recency_component r <= 1) /\
  composite_score r =
    fw / (fw + aw + rw) * failure_component r +
    aw / (fw + aw + rw) * anomaly_component r +
    rw / (fw + aw + rw) * recency_component r /\
  risk_probability r = 1 / (1 + exp (- 5 * (composite_score r - 5/10))) /\
  0 <= risk_probability r <= 1 /\
  (risk_level r = CRITICAL <-> risk_probability r >= 8/10) /\
  (risk_level r = HIGH <-> 6/10 <= risk_probability r < 8/10) /\
  (risk_level r = MEDIUM <-> 4/10 <= risk_probability r < 6/10) /\
  (risk_level r = LOW <-> risk_probability r < 4/10) /\
  action r = action_of (risk_level r) /\
  building_id r = b.
Proof.
  intros Hinit r.
  destruct (init_inv _ _ _ _ Hinit) as [Htot Hself].
  pose proof (risk_probability_logistic self b f a q n) as Hlog.
  pose proof (action_follows_level self b f a q n) as Hact.
  fold r in Hlog, Hact.
  assert (Hcomp : failure_component r = Py.max 0 (Py.min 1 f) /\
                  anomaly_component r = Py.max 0 (Py.min 1 a) /\
                  recency_component r = Py.max 0 (Py.min 1 q) /\
                  composite_score r =
                    failure_weight self * failure_component r +
                    anomaly_weight self * anomaly_component r +
                    recency_weight self * recency_component r /\
                  building_id r = b).
  { unfold r, calculate_building_risk.
    repeat match goal with |- context [if ?c then _ else _] => destruct c end;
      cbn; auto. }
  destruct Hcomp as (Hf & Ha & Hq & Hco & Hb).
  pose proof (logistic_open_unit (composite_score r)) as Hunit.
  rewrite <- Hlog in Hunit.
  destruct (risk_level_iff _ _ _ _ b f a q n Hinit) as (Hcrit & Hhigh & Hmed & Hlow).
  fold r in Hcrit, Hhigh, Hmed, Hlow.
  refine (conj (conj _ (conj _ _)) (conj (conj _ (conj _ _))
           (conj _ (conj Hlog (conj _ (conj Hcrit (conj Hhigh (conj Hmed
           (conj Hlow (conj Hact Hb)))))))))).
  - rewrite Hf, Py_max_Rmax, Py_min_Rmin. reflexivity.
  - rewrite Ha, Py_max_Rmax, Py_min_Rmin. reflexivity.
  - rewrite Hq, Py_max_Rmax, Py_min_Rmin. reflexivity.
  - rewrite Hf. apply Py_clamp_bounds.
  - rewrite Ha. apply Py_clamp_bounds.
  - rewrite Hq. apply Py_clamp_bounds.
  - rewrite Hco. subst self. reflexivity.
  - lra.
Qed.

Lemma default_model_init : init (4/10) (3/10) (3/10) = inr default_model.
Proof. apply init_ok. lra. Defined.

Lemma calculate_building_risk_spec_witness :
  init (4/10) (3/10) (3/10) = inr default_model /\
  0 <= risk_probability
         (calculate_building_risk default_model "b1" (9/10) (5/10) (7/10) 2)
    <= 1.
Proof.
  split; [exact default_model_init |].
  exact (proj1 (proj2 (proj2 (proj2 (proj2
           (calculate_building_risk_spec (4/10) (3/10) (3/10) default_model
              "b1" (9/10) (5/10) (7/10) 2 default_model_init)))))).
Defined.

(** C2 fails as stated: weights that sum to zero make the constructor raise
    [ZeroDivisionError], so no normalised weights are stored. *)
Lemma init_zero_weights_raises :
  init 0 0 0 = inl Py.ZeroDivisionError /\
  ~ (exists self, init 0 0 0 = inr self /\
       failure_weight self + anomaly_weight self + recency_weight self = 1).
Proof.
  assert (H : init 0 0 0 = inl Py.ZeroDivisionError)
    by (apply init_zero_total; lra).
  split; [exact H |].
  intros (self & Hs & _). rewrite H in Hs. discriminate.
Qed.

(** With exact arithmetic the rounded constructor is [init]. *)
Lemma rounded_init_exact (fl : R -> R) (fw aw rw : R) :
  (forall x, fl x = x) -> Rounded.init fl fw aw rw = init fw aw rw.
Proof.
  intros Hfl. unfold Rounded.init, init, Rounded.truediv, Py.truediv.
  now rewrite !Hfl.
Qed.

(** An accurate rounding stores zero as zero, so the rounded constructor
    raises on the weights 0, 0, 0 as well. *)
Lemma rounded_init_zero_raises (u : R) (fl : R -> R) :
  Rounded.accurate u fl ->
  Rounded.init fl 0 0 0 = inl Py.ZeroDivisionError.
Proof.
  intros Hfl.
  assert (H0 : fl 0 = 0).
  { specialize (Hfl 0). rewrite Rabs_R0, Rmult_0_r, Rminus_0_r in Hfl.
    pose proof (Rabs_pos (fl 0)) as Hp.
    destruct (Req_dec_T (fl 0) 0) as [E | E]; [exact E |].
    apply Rabs_pos_lt in E. lra. }
  unfold Rounded.init, Rounded.truediv.
  replace (0 + 0) with 0 by lra. rewrite H0.
  replace (0 + 0) with 0 by lra. rewrite H0.
  replace (Py.eqb 0 0) with true; [reflexivity |].
  symmetry. now apply Py_eqb_spec.
Qed.

Lemma accurate_nonneg (u : R) (fl : R -> R) (x : R) :
  Rounded.accurate u fl -> 0 <= x ->
  x * (1 - u) <= fl x <= x * (1 + u).
Proof.
  intros Hfl Hx. specialize (Hfl x).
  rewrite (Rabs_right x) in Hfl by lra.
  unfold Rabs in Hfl. destruct (Rcase_abs (fl x - x)); lra.
Qed.

(** Without the sign condition the rounding errors are not bounded by the
    sum: for the weights 1, -1, 1/100 and a rounding accurate to 1/100 that
    stores 100 as 101, the stored weights sum to 2. *)
Lemma mixed_signs_leave_the_tolerance :
  exists fl self,
    Rounded.accurate (1/100) fl /\
    Rounded.init fl 1 (-1) (1/100) = inr self /\
    failure_weight self + anomaly_weight self + recency_weight self = 2.
Proof.
  set (fl := fun x : R => if Py.eqb x 100 then 101 else x).
  assert (H100 : fl 100 = 101).
  { unfold fl. replace (Py.eqb 100 100) with true; [reflexivity |].
    symmetry. now apply Py_eqb_spec. }
  assert (Hother : forall x, x <> 100 -> fl x = x).
  { intros x Hx. unfold fl. replace (Py.eqb x 100) with false; [reflexivity |].
    symmetry. now apply Py_eqb_false. }
  exists fl. eexists. split; [| split].
  - intros x. destruct (Req_dec_T x 100) as [-> | Hx].
    + rewrite H100. rewrite !Rabs_right by lra. lra.
    + rewrite (Hother x Hx). replace (x - x) with 0 by lra.
      rewrite Rabs_R0. pose proof (Rabs_pos x). lra.
  - unfold Rounded.init, Rounded.truediv.
    replace (1 + -1) with 0 by lra.
    rewrite (Hother 0) by lra. rewrite Rplus_0_l.
    rewrite (Hother (1/100)) by lra.
    replace (Py.eqb (1/100) 0) with false
      by (symmetry; apply Py_eqb_false; lra).
    cbn. reflexivity.
  - cbn.
    replace (1 / (1/100)) with 100 by (field; lra).
    replace (-1 / (1/100)) with (-100) by (field; lra).
    replace (1/100 / (1/100)) with 1 by (field; lra).
    rewrite H100, (Hother (-100)), (Hother 1) by lra. lra.
Qed.

(** C2, amended.  For every choice of three non-negative constructor
    weights that are not all zero, whatever their scale, the constructor
    succeeds and stores each weight divided by the rounded sum, and the
    stored weights sum to 1 within floating tolerance: when every
    operation is accurate to [u] (at most 1/8), the sum of the stored
    weights differs from 1 by at most [4 u].  With exact arithmetic the
    constructor is [init] and the sum is 1. *)
Theorem init_normalises_weights (u : R) (fl : R -> R) (fw aw rw : R) :
  0 <= u <= 1/8 -> Rounded.accurate u fl ->
  0 <= fw -> 0 <= aw -> 0 <= rw -> fw + aw + rw <> 0 ->
  let total := fl (fl (fw + aw) + rw) in
  0 < total /\
  (exists self,
     Rounded.init fl fw aw rw = inr self /\
     failure_weight self = fl (fw / total) /\
     anomaly_weight self = fl (aw / total) /\
     recency_weight self = fl (rw / total) /\
     Rabs (failure_weight self + anomaly_weight self + recency_weight self
           - 1) <= 4 * u) /\
  ((forall x, fl x = x) ->
   exists self,
     init fw aw rw = inr self /\ Rounded.init fl fw aw rw = inr self /\
     failure_weight self + anomaly_weight self + recency_weight self = 1).
Proof.
  intros Hu Hfl Hfw Haw Hrw Hne total.
  assert (HS : 0 < fw + aw + rw) by lra.
  set (S := fw + aw + rw) in *.
  pose proof (accurate_nonneg u fl (fw + aw) Hfl ltac:(lra)) as Hs1.
  set (s1 := fl (fw + aw)) in *.
  assert (Hs1pos : 0 <= s1) by nra.
  pose proof (accurate_nonneg u fl (s1 + rw) Hfl ltac:(lra)) as HT.
  fold total in HT.
  assert (Hru : 0 <= rw * u) by (apply Rmult_le_pos; lra).
  assert (Hin1 : S * (1 - u) <= s1 + rw) by (unfold S; lra).
  assert (Hin2 : s1 + rw <= S * (1 + u)) by (unfold S; lra).
  assert (Hlow : S * ((1 - u) * (1 - u)) <= total).
  { apply Rle_trans with ((s1 + rw) * (1 - u)); [| lra].
    rewrite <- Rmult_assoc. apply Rmult_le_compat_r; lra. }
  assert (Hhigh : total <= S * ((1 + u) * (1 + u))).
  { apply Rle_trans with ((s1 + rw) * (1 + u)); [lra |].
    rewrite <- Rmult_assoc. apply Rmult_le_compat_r; lra. }
  assert (Hpos : 0 < total).
  { assert (0 < S * ((1 - u) * (1 - u))); [| lra].
    apply Rmult_lt_0_compat; [exact HS |]. apply Rmult_lt_0_compat; lra. }
  split; [exact Hpos |].
  assert (Hq : 0 < / total) by now apply Rinv_0_lt_compat.
  set (q := / total) in *.
  assert (Htq : total * q = 1) by (unfold q; apply Rinv_r; lra).
  assert (Hrun : Rounded.init fl fw aw rw
                 = inr (mk (fl (fw / total)) (fl (aw / total))
                           (fl (rw / total)) (80/100) (60/100) (40/100))).
  { unfold Rounded.init, Rounded.truediv. fold s1. fold total.
    replace (Py.eqb total 0) with false
      by (symmetry; apply Py_eqb_false; lra).
    reflexivity. }
  split.
  - eexists. split; [exact Hrun |]. cbn.
    split; [reflexivity |]. split; [reflexivity |]. split; [reflexivity |].
    unfold Rdiv. fold q.
    assert (Hfq : 0 <= fw * q) by (apply Rmult_le_pos; lra).
    assert (Haq : 0 <= aw * q) by (apply Rmult_le_pos; lra).
    assert (Hrq : 0 <= rw * q) by (apply Rmult_le_pos; lra).
    pose proof (accurate_nonneg u fl _ Hfl Hfq) as Wf.
    pose proof (accurate_nonneg u fl _ Hfl Haq) as Wa.
    pose proof (accurate_nonneg u fl _ Hfl Hrq) as Wr.
    set (wf := fl (fw * q)) in *. set (wa := fl (aw * q)) in *.
    set (wr := fl (rw * q)) in *.
    set (y := S * q).
    assert (Hy : 0 < y) by (unfold y; now apply Rmult_lt_0_compat).
    assert (Hsum : y * (1 - u) <= wf + wa + wr <= y * (1 + u))
      by (unfold y, S; split; nra).
    assert (Hy1 : y * ((1 - u) * (1 - u)) <= 1).
    { assert (H : S * ((1 - u) * (1 - u)) * q <= total * q)
        by (apply Rmult_le_compat_r; lra).
      replace (y * ((1 - u) * (1 - u)))
        with (S * ((1 - u) * (1 - u)) * q) by (unfold y; ring).
      lra. }
    assert (Hy2 : 1 <= y * ((1 + u) * (1 + u))).
    { assert (H : total * q <= S * ((1 + u) * (1 + u)) * q)
        by (apply Rmult_le_compat_r; lra).
      replace (y * ((1 + u) * (1 + u)))
        with (S * ((1 + u) * (1 + u)) * q) by (unfold y; ring).
      lra. }
    assert (Hup : y * (1 + u) <= 1 + 4 * u).
    { apply Rmult_le_reg_r with ((1 - u) * (1 - u));
        [apply Rmult_lt_0_compat; lra |].
      assert (Hpoly : 1 + u <= (1 + 4 * u) * ((1 - u) * (1 - u))) by nra.
      assert (Hstep : y * (1 + u) * ((1 - u) * (1 - u)) <= 1 + u).
      { replace (y * (1 + u) * ((1 - u) * (1 - u)))
          with (y * ((1 - u) * (1 - u)) * (1 + u)) by ring.
        replace (1 + u) with (1 * (1 + u)) at 2 by ring.
        apply Rmult_le_compat_r; lra. }
      lra. }
    assert (Hdown : 1 - 4 * u <= y * (1 - u)).
    { apply Rmult_le_reg_r with ((1 + u) * (1 + u));
        [apply Rmult_lt_0_compat; lra |].
      assert (Hpoly : (1 - 4 * u) * ((1 + u) * (1 + u)) <= 1 - u) by nra.
      assert (Hstep : 1 - u <= y * (1 - u) * ((1 + u) * (1 + u))).
      { replace (y * (1 - u) * ((1 + u) * (1 + u)))
          with (y * ((1 + u) * (1 + u)) * (1 - u)) by ring.
        replace (1 - u) with (1 * (1 - u)) at 1 by ring.
        apply Rmult_le_compat_r; lra. }
      lra. }
    apply Rabs_le. lra.
  - intros Hexact. eexists.
    split; [rewrite <- (rounded_init_exact fl) by exact Hexact; exact Hrun |].
    split; [exact Hrun |]. cbn. rewrite !Hexact.
    unfold total, s1. rewrite !Hexact. field. exact Hne.
Qed.

Lemma init_normalises_weights_witness :
  let fl := fun x : R => x * (1 + 1/1024) in
  0 <= 1/1024 <= 1/8 /\ Rounded.accurate (1/1024) fl /\
  0 <= 40 /\ 0 <= 30 /\ 40 + 30 + 30 <> 0 /\
  exists self,
    Rounded.init fl 40 30 30 = inr self /\
    Rabs (failure_weight self + anomaly_weight self + recency_weight self
          - 1) <= 4 * (1/1024).
Proof.
  intros fl.
  assert (Hu : 0 <= 1/1024 <= 1/8) by lra.
  assert (Hfl : Rounded.accurate (1/1024) fl).
  { intros x. unfold fl.
    replace (x * (1 + 1/1024) - x) with (1/1024 * x) by lra.
    rewrite Rabs_mult, (Rabs_right (1/1024)) by lra. lra. }
  assert (H40 : 0 <= 40) by lra. assert (H30 : 0 <= 30) by lra.
  assert (H : 40 + 30 + 30 <> 0) by lra.
  split; [exact Hu |]. split; [exact Hfl |]. split; [exact H40 |].
  split; [exact H30 |]. split; [exact H |].
  destruct (proj1 (proj2
              (init_normalises_weights (1/1024) fl 40 30 30 Hu Hfl
                 H40 H30 H30 H)))
    as (self & Hs & _ & _ & _ & Hsum).
  exists self. split; assumption.
Defined.

Lemma composite_score_eq (self : t) (b : string) (f a q : R) (n : Z) :
  composite_score (calculate_building_risk self b f a q n) =
  failure_weight self * Py.max 0 (Py.min 1 f) +
  anomaly_weight self * Py.max 0 (Py.min 1 a) +
  recency_weight self * Py.max 0 (Py.min 1 q).
Proof.
  unfold calculate_building_risk.
  repeat match goal with |- context [if ?c then _ else _] => destruct c end;
    reflexivity.
Qed.

Lemma clamp_one : Py.max 0 (Py.min 1 1) = 1.
Proof.
  rewrite Py_max_Rmax, Py_min_Rmin. unfold Rmax, Rmin.
  destruct (Rle_dec 1 1); destruct (Rle_dec 0 _); lra.
Qed.

Lemma clamp_zero : Py.max 0 (Py.min 1 0) = 0.
Proof.
  rewrite Py_max_Rmax, Py_min_Rmin. unfold Rmax, Rmin.
  destruct (Rle_dec 1 0); destruct (Rle_dec 0 _); lra.
Qed.

Lemma logistic_zero : logistic 0 = 1 / (1 + exp (5/2)).
Proof. unfold logistic. do 3 f_equal. lra. Qed.

Lemma logistic_one : logistic 1 = 1 / (1 + exp (- (5/2))).
Proof. unfold logistic. do 3 f_equal. lra. Qed.

(** The band depends on the documented range of the weights (0.0-1.0): the
    constructor does not check it, and with the weights 2, -1/2, -1/2 a
    failure probability of 1 gives the composite score 2 and a risk
    probability above [1/(1+exp(-2.5))]. *)
Lemma negative_weights_leave_the_band :
  exists self,
    init 2 (-1/2) (-1/2) = inr self /\
    composite_score (calculate_building_risk self "b1" 1 0 0 0) = 2 /\
    ~ (1 / (1 + exp (5/2))
       <= risk_probability (calculate_building_risk self "b1" 1 0 0 0)
       <= 1 / (1 + exp (- (5/2)))).
Proof.
  eexists. split; [apply init_ok; lra |].
  set (self := mk _ _ _ _ _ _).
  assert (Hc : composite_score (calculate_building_risk self "b1" 1 0 0 0) = 2).
  { rewrite composite_score_eq, clamp_one, clamp_zero.
    unfold self; cbn. field. }
  split; [exact Hc |].
  rewrite risk_probability_logistic, Hc. intros [_ H].
  unfold logistic in H.
  assert (He : exp (- 5 * (2 - 5/10)) < exp (- (5/2)))
    by (apply exp_increasing; lra).
  pose proof (exp_pos (- 5 * (2 - 5/10))) as Hp.
  apply Rmult_le_compat_r with (r := 1 + exp (- 5 * (2 - 5/10))) in H;
    [| lra].
  replace (1 / (1 + exp (- 5 * (2 - 5 / 10))) * (1 + exp (- 5 * (2 - 5 / 10))))
    with 1 in H by (field; lra).
  apply Rmult_le_compat_r with (r := 1 + exp (- (5/2))) in H; [| lra].
  replace (1 / (1 + exp (- (5 / 2))) * (1 + exp (- 5 * (2 - 5 / 10))) *
           (1 + exp (- (5 / 2))))
    with (1 + exp (- 5 * (2 - 5 / 10))) in H by (field; lra).
  lra.
Qed.



End RiskClaims.

(** ** The frequency score of the risk endpoint *)

Section FrequencyScore.
Import Data RiskEndpoint.

(** Case analysis on the innermost comparisons of nested [Rmin] / [Rmax]. *)
Ltac case_rmin :=
  unfold Rmin, Rmax;
  repeat match goal with
         | |- context [Rle_dec ?x ?y] =>
             lazymatch x with
             | context [Rle_dec] => fail
             | _ => lazymatch y with
                    | context [Rle_dec] => fail
                    | _ => destruct (Rle_dec x y)
                    end
             end
         end;
  lra.

Lemma sqrt_100 : sqrt 100 = 10.
Proof.
  replace 100 with (10 * 10) by lra. apply sqrt_square. lra.
Qed.

Lemma sqrt_50_bounds : 707/100 < sqrt 50 < 708/100.
Proof.
  split.
  - rewrite <- (sqrt_square (707/100)) by lra. apply sqrt_lt_1_alt. lra.
  - rewrite <- (sqrt_square (708/100)) by lra. apply sqrt_lt_1_alt. lra.
Qed.

Lemma frequency_score_formula (issues_df : list Issue) (b : string) :
  fst (frequency_score issues_df b) =
  Rmin 1 (Rmin 1 (sqrt (INR (num_issues issues_df b)) / sqrt 100) +
          Rmin (2/10)
               (INR (num_critical issues_df b) / INR (num_issues issues_df b)
                * (4/10))).
Proof.
  unfold frequency_score, num_issues, num_critical.
  set (n := length (issues_of issues_df b)).
  set (c := length (filter _ (issues_of issues_df b))).
  assert (Hc : (c <= n)%nat) by apply filter_length_le.
  cbn [fst]. destruct n as [| n'].
  - assert (c = 0%nat) as -> by lia. cbn.
    rewrite sqrt_0. unfold Rdiv. rewrite !Rmult_0_l.
    unfold Rmin.
    case_rmin.
  - cbn [Nat.eqb Nat.ltb Nat.leb]. rewrite !Py_min_Rmin. reflexivity.
Qed.

(** C3.  The issue-frequency score of a building with [n] issues, [c] of
    them critical, is [min(1, min(1, sqrt n / sqrt 100) + min(0.2, c/n * 0.4))]
    (0 for a building without issues); with 50 issues and none critical it
    is [sqrt 50 / sqrt 100], between 0.707 and 0.708, and with 100 issues,
    all critical, it is exactly 1. *)
Theorem frequency_score_spec (issues_df : list Issue) (b : string) :
  let n := num_issues issues_df b in
  let c := num_critical issues_df b in
  let score := fst (frequency_score issues_df b) in
  score = Rmin 1 (Rmin 1 (sqrt (INR n) / sqrt 100) +
                  Rmin (2/10) (INR c / INR n * (4/10))) /\
  snd (frequency_score issues_df b) = c /\
  (n = 0%nat -> score = 0) /\
  (n = 50%nat -> c = 0%nat ->
   score = sqrt 50 / sqrt 100 /\ 707/1000 < score < 708/1000) /\
  (n = 100%nat -> c = 100%nat -> score = 1).
Proof.
  intros n c score.
  pose proof (frequency_score_formula issues_df b) as H.
  fold n c score in H.
  split; [exact H |]. split; [reflexivity |].
  pose proof sqrt_50_bounds as H50. pose proof sqrt_100 as H100.
  split; [| split].
  - intros Hn. rewrite H, Hn. cbn [INR]. rewrite sqrt_0.
    assert (Hc : (c <= n)%nat) by apply filter_length_le.
    assert (c = 0%nat) as -> by lia. cbn [INR].
    unfold Rdiv. rewrite !Rmult_0_l. unfold Rmin.
    case_rmin.
  - intros Hn Hc. rewrite H, Hn, Hc.
    replace (INR 50) with 50 by (rewrite INR_IZR_INZ; reflexivity).
    cbn [INR]. rewrite H100.
    replace (0 / 50 * (4 / 10)) with 0 by lra.
    unfold Rmin.
    case_rmin.
  - intros Hn Hc. rewrite H, Hn, Hc.
    replace (INR 100) with 100 by (rewrite INR_IZR_INZ; reflexivity).
    rewrite H100.
    replace (100 / 100 * (4 / 10)) with (4/10) by lra.
    unfold Rmin.
    case_rmin.
Qed.

Lemma frequency_score_spec_witness :
  let issues_df := repeat (mkIssue "issue" "b1" 1 0) 50 in
  num_issues issues_df "b1" = 50%nat /\
  num_critical issues_df "b1" = 0%nat /\
  fst (frequency_score issues_df "b1") = sqrt 50 / sqrt 100.
Proof.
  intros issues_df.
  assert (Hn : num_issues issues_df "b1" = 50%nat) by reflexivity.
  assert (Hc : num_critical issues_df "b1" = 0%nat) by reflexivity.
  split; [exact Hn |]. split; [exact Hc |].
  exact (proj1 (proj1 (proj2 (proj2 (proj2
           (frequency_score_spec issues_df "b1")))) Hn Hc)).
Defined.

End FrequencyScore.

(** ** Minimum and maximum of a batch of scores *)

Lemma fold_Rmin_le_init (xs : list R) (x : R) : fold_left Rmin xs x <= x.
Proof.
  revert x. induction xs as [| y ys IH]; intros x; cbn; [lra |].
  apply Rle_trans with (Rmin x y); [apply IH | apply Rmin_l].
Qed.

Lemma fold_Rmin_lower (xs : list R) (x y : R) :
  In y (x :: xs) -> fold_left Rmin xs x <= y.
Proof.
  revert x. induction xs as [| z zs IH]; intros x Hin.
  - destruct Hin as [<- | []]. cbn. lra.
  - cbn. destruct Hin as [<- | [<- | Hin]].
    + apply Rle_trans with (Rmin x z); [apply fold_Rmin_le_init | apply Rmin_l].
    + apply Rle_trans with (Rmin x z); [apply fold_Rmin_le_init | apply Rmin_r].
    + apply IH. right. exact Hin.
Qed.

Lemma fold_Rmin_In (xs : list R) (x : R) : In (fold_left Rmin xs x) (x :: xs).
Proof.
  revert x. induction xs as [| z zs IH]; intros x; cbn; [auto |].
  destruct (IH (Rmin x z)) as [H | H].
  - unfold Rmin in H at 1. destruct (Rle_dec x z); auto.
  - auto.
Qed.

Lemma fold_Rmax_ge_init (xs : list R) (x : R) : x <= fold_left Rmax xs x.
Proof.
  revert x. induction xs as [| y ys IH]; intros x; cbn; [lra |].
  apply Rle_trans with (Rmax x y); [apply Rmax_l | apply IH].
Qed.

Lemma fold_Rmax_upper (xs : list R) (x y : R) :
  In y (x :: xs) -> y <= fold_left Rmax xs x.
Proof.
  revert x. induction xs as [| z zs IH]; intros x Hin.
  - destruct Hin as [<- | []]. cbn. lra.
  - cbn. destruct Hin as [<- | [<- | Hin]].
    + apply Rle_trans with (Rmax x z); [apply Rmax_l | apply fold_Rmax_ge_init].
    + apply Rle_trans with (Rmax x z); [apply Rmax_r | apply fold_Rmax_ge_init].
    + apply IH. right. exact Hin.
Qed.

Lemma fold_Rmax_In (xs : list R) (x : R) : In (fold_left Rmax xs x) (x :: xs).
Proof.
  revert x. induction xs as [| z zs IH]; intros x; cbn; [auto |].
  destruct (IH (Rmax x z)) as [H | H].
  - unfold Rmax in H at 1. destruct (Rle_dec x z); auto.
  - auto.
Qed.

Lemma np_min_spec (l : list R) :
  l <> [] ->
  exists lo, Stats.np_min l = inr lo /\ In lo l /\
             forall s, In s l -> lo <= s.
Proof.
  destruct l as [| x xs]; [easy |]. intros _.
  exists (fold_left Rmin xs x). split; [reflexivity |].
  split; [apply fold_Rmin_In | apply fold_Rmin_lower].
Qed.

Lemma np_max_spec (l : list R) :
  l <> [] ->
  exists hi, Stats.np_max l = inr hi /\ In hi l /\
             forall s, In s l -> s <= hi.
Proof.
  destruct l as [| x xs]; [easy |]. intros _.
  exists (fold_left Rmax xs x). split; [reflexivity |].
  split; [apply fold_Rmax_In | apply fold_Rmax_upper].
Qed.

(** ** AnomalyDetectionModel.detect_anomalies *)

Lemma rescaled_unit (lo hi s : R) :
  lo <= s <= hi -> lo < hi -> 0 <= 1 - (s - lo) / (hi - lo) <= 1.
Proof.
  intros Hs Hlt.
  assert (Hd : 0 < / (hi - lo)) by (apply Rinv_0_lt_compat; lra).
  assert (H1 : (hi - lo) * / (hi - lo) = 1) by (apply Rinv_r; lra).
  unfold Rdiv. split; nra.
Qed.

Lemma rescaled_decreasing (lo hi s s' : R) :
  lo < hi -> s < s' ->
  1 - (s' - lo) / (hi - lo) < 1 - (s - lo) / (hi - lo).
Proof.
  intros Hlt Hs.
  assert (Hd : 0 < / (hi - lo)) by (apply Rinv_0_lt_compat; lra).
  unfold Rdiv. nra.
Qed.

Section DetectAnomalies.
Import Sklearn AnomalyDetectionModel.
Context {sk : Backend}.

(** A model is ready for inference once its scaler and its detector have
    been fitted. *)
Lemma train_fits (self self' : t) (cols : list string) (X : Matrix) :
  train self cols X = inr self' ->
  exists p d f,
    scaler_state (scaler self') = Some p /\
    model self' = Some d /\ detector_state d = Some f.
Proof.
  unfold train, fit_transform, check_array.
  destruct X as [| row rows]; [discriminate |]. cbn.
  destruct (model self) as [d |]; [| discriminate].
  intros H. injection H as <-. cbn.
  exists (scaler_fit (row :: rows)). eexists. eexists.
  repeat split; reflexivity.
Qed.

(** C4.  On a fitted model and a batch with at least one raw score,
    [detect_anomalies] returns, next to the labels and the raw scores, one
    probability per score; with [lo] and [hi] the least and the greatest
    score of the batch, a score [s] gets [1 - (s - lo)/(hi - lo)] when
    [lo < hi], every probability lies in [0,1], a lower score gets a higher
    probability, and when all scores are equal every probability is 0. *)
Theorem detect_anomalies_probability
    (self : t) (X : Matrix) (p : ScalerParams) (d : Detector)
    (f : FittedDetector) :
  scaler_state (scaler self) = Some p ->
  model self = Some d ->
  detector_state d = Some f ->
  X <> [] ->
  let scores := detector_score_samples f (scaler_apply p X) in
  scores <> [] ->
  exists lo hi probs,
    detect_anomalies self X =
      inr (detector_predict f (scaler_apply p X), scores, probs) /\
    In lo scores /\ In hi scores /\
    (forall s, In s scores -> lo <= s <= hi) /\
    length probs = length scores /\
    (forall i s, nth_error scores i = Some s ->
       exists pr, nth_error probs i = Some pr /\
                  0 <= pr <= 1 /\
                  (lo < hi -> pr = 1 - (s - lo) / (hi - lo)) /\
                  (lo = hi -> pr = 0)) /\
    (forall i j si sj pi pj,
       nth_error scores i = Some si -> nth_error scores j = Some sj ->
       nth_error probs i = Some pi -> nth_error probs j = Some pj ->
       si < sj -> pj < pi) /\
    ((forall s, In s scores -> s = lo) -> forall pr, In pr probs -> pr = 0).
Proof.
  intros Hsc Hm Hd HX scores Hne.
  destruct (np_min_spec scores Hne) as (lo & Hmin & Hlo_in & Hlo).
  destruct (np_max_spec scores Hne) as (hi & Hmax & Hhi_in & Hhi).
  assert (Hrange : forall s, In s scores -> lo <= s <= hi)
    by (intros s Hs; split; auto).
  exists lo, hi.
  destruct (Py.gtb (hi - lo) 0) eqn:Hgap.
  - apply Py_gtb_spec in Hgap.
    exists (map (fun s => 1 - (s - lo) / (hi - lo)) scores).
    split.
    { unfold detect_anomalies, transform, check_array, predict, score_samples.
      rewrite Hm, Hsc, Hd. destruct X as [| row rows]; [easy |]. cbn.
      fold scores. rewrite Hmin, Hmax. cbn.
      apply Py_gtb_spec in Hgap. rewrite Hgap. reflexivity. }
    split; [exact Hlo_in |]. split; [exact Hhi_in |].
    split; [exact Hrange |]. split; [apply length_map |].
    split; [| split].
    + intros i s Hi. eexists. split; [apply map_nth_error; exact Hi |].
      split; [| split].
      * apply rescaled_unit; [| lra]. apply Hrange. eapply nth_error_In; eauto.
      * reflexivity.
      * lra.
    + intros i j si sj pi pj Hi Hj Hpi Hpj Hlt.
      rewrite (map_nth_error _ _ _ Hi) in Hpi.
      rewrite (map_nth_error _ _ _ Hj) in Hpj.
      injection Hpi as <-. injection Hpj as <-.
      apply rescaled_decreasing; lra.
    + intros Hall. specialize (Hall hi Hhi_in). lra.
  - apply Py_gtb_false in Hgap.
    assert (Heq : lo = hi) by (specialize (Hrange lo Hlo_in); lra).
    exists (map (fun _ => 0) scores).
    split.
    { unfold detect_anomalies, transform, check_array, predict, score_samples.
      rewrite Hm, Hsc, Hd. destruct X as [| row rows]; [easy |]. cbn.
      fold scores. rewrite Hmin, Hmax. cbn.
      apply Py_gtb_false in Hgap. rewrite Hgap. reflexivity. }
    split; [exact Hlo_in |]. split; [exact Hhi_in |].
    split; [exact Hrange |]. split; [apply length_map |].
    split; [| split].
    + intros i s Hi. exists 0.
      split; [apply (map_nth_error (fun _ => 0) _ _ Hi) |].
      split; [lra |]. split; [lra | reflexivity].
    + intros i j si sj pi pj Hi Hj Hpi Hpj Hlt.
      apply nth_error_In in Hi, Hj.
      apply Hrange in Hi, Hj. lra.
    + intros _ pr Hpr. apply in_map_iff in Hpr.
      destruct Hpr as (s & <- & _). reflexivity.
Qed.

End DetectAnomalies.

Lemma detect_anomalies_probability_witness :
  let sk := first_feature_backend in
  let d := Sklearn.mkDetector "isolation_forest" (1/10) (Some tt) in
  let self :=
    AnomalyDetectionModel.mk "isolation_forest" (1/10)
      (Sklearn.mkScaler (Some tt)) (Some d) [] in
  let X := [[1]; [3]; [2]] in
  X <> [] /\ map (fun row => hd 0 row) X <> [] /\
  exists probs,
    AnomalyDetectionModel.detect_anomalies self X =
      inr (map (fun _ => 1%Z) X, map (fun row => hd 0 row) X, probs) /\
    length probs = 3%nat.
Proof.
  intros sk d self X.
  assert (HX : X <> []) by discriminate.
  assert (Hs : map (fun row => hd 0 row) X <> []) by discriminate.
  split; [exact HX |]. split; [exact Hs |].
  destruct (detect_anomalies_probability (sk := sk) self X tt d tt
              eq_refl eq_refl eq_refl HX Hs)
    as (lo & hi & probs & Hrun & _ & _ & _ & Hlen & _).
  exists probs. split; [exact Hrun | exact Hlen].
Defined.

(** ** Inference on a model that was never fitted *)

Section NotReady.
Import Sklearn.
Context {sk : Backend}.

Lemma anomaly_init_unfitted (algorithm : string) (c : R)
    (self : AnomalyDetectionModel.t) :
  AnomalyDetectionModel.init algorithm c = inr self ->
  scaler_state (AnomalyDetectionModel.scaler self) = None /\
  exists d, AnomalyDetectionModel.model self = Some d /\
            detector_state d = None.
Proof.
  unfold AnomalyDetectionModel.init.
  destruct (String.eqb algorithm "isolation_forest");
    [| destruct (String.eqb algorithm "one_class_svm"); [| discriminate]];
    intros H; injection H as <-; cbn; eauto.
Qed.

Lemma failure_init_unfitted (model_type : string)
    (self : FailurePredictionModel.t) :
  FailurePredictionModel.init model_type = inr self ->
  scaler_state (FailurePredictionModel.scaler self) = None.
Proof.
  unfold FailurePredictionModel.init, FailurePredictionModel._initialize_model.
  cbn.
  destruct (String.eqb model_type "xgboost");
    [| destruct (String.eqb model_type "random_forest");
       [| destruct (String.eqb model_type "gradient_boosting");
          [| discriminate]]];
    intros H; injection H as <-; reflexivity.
Qed.

(** C8.  On a model that was constructed and neither trained nor loaded,
    [AnomalyDetectionModel.detect_anomalies] and
    [FailurePredictionModel.predict_failure_risk] raise: the call ends in
    the not-fitted error of the unfitted scaler, for every input, and never
    returns a result. *)
Theorem inference_before_training_raises
    (algorithm model_type : string) (contamination : R)
    (anomaly_model : AnomalyDetectionModel.t)
    (failure_model : FailurePredictionModel.t) (X : Matrix) :
  AnomalyDetectionModel.init algorithm contamination = inr anomaly_model ->
  FailurePredictionModel.init model_type = inr failure_model ->
  AnomalyDetectionModel.detect_anomalies anomaly_model X
    = inl Py.NotFittedError /\
  FailurePredictionModel.predict_failure_risk failure_model X
    = inl Py.NotFittedError /\
  (forall out, AnomalyDetectionModel.detect_anomalies anomaly_model X
               <> inr out) /\
  (forall out, FailurePredictionModel.predict_failure_risk failure_model X
               <> inr out).
Proof.
  intros Ha Hf.
  destruct (anomaly_init_unfitted _ _ _ Ha) as (Hsc & d & Hm & _).
  pose proof (failure_init_unfitted _ _ Hf) as Hfs.
  assert (H1 : AnomalyDetectionModel.detect_anomalies anomaly_model X
               = inl Py.NotFittedError).
  { unfold AnomalyDetectionModel.detect_anomalies, transform.
    rewrite Hm, Hsc. reflexivity. }
  assert (H2 : FailurePredictionModel.predict_failure_risk failure_model X
               = inl Py.NotFittedError).
  { unfold FailurePredictionModel.predict_failure_risk, transform.
    rewrite Hfs. reflexivity. }
  split; [exact H1 |]. split; [exact H2 |].
  split; intros out; [rewrite H1 | rewrite H2]; discriminate.
Qed.

End NotReady.

Lemma inference_before_training_raises_witness :
  let sk := first_feature_backend in
  let anomaly_model :=
    AnomalyDetectionModel.mk "isolation_forest" (1/10)
      (Sklearn.mkScaler None)
      (Some (Sklearn.mkDetector "isolation_forest" (1/10) None)) [] in
  let failure_model :=
    FailurePredictionModel.mk "xgboost"
      (Some (Sklearn.mkClassifier "xgboost" None)) (Sklearn.mkScaler None) [] in
  AnomalyDetectionModel.init "isolation_forest" (1/10) = inr anomaly_model /\
  FailurePredictionModel.init "xgboost" = inr failure_model /\
  AnomalyDetectionModel.detect_anomalies anomaly_model [[1]; [2]]
    = inl Py.NotFittedError /\
  FailurePredictionModel.predict_failure_risk failure_model [[1]; [2]]
    = inl Py.NotFittedError.
Proof.
  intros sk anomaly_model failure_model.
  assert (Ha : AnomalyDetectionModel.init "isolation_forest" (1/10)
               = inr anomaly_model) by reflexivity.
  assert (Hf : FailurePredictionModel.init "xgboost" = inr failure_model)
    by reflexivity.
  split; [exact Ha |]. split; [exact Hf |].
  destruct (inference_before_training_raises (sk := sk)
              "isolation_forest" "xgboost" (1/10) anomaly_model failure_model
              [[1]; [2]] Ha Hf) as (H1 & H2 & _).
  split; [exact H1 | exact H2].
Defined.

(** ** The ensemble of the two detectors *)

Section Ensemble.
Import Sklearn AnomalyEndpoint.

Lemma ensemble_inv (a b e : list R) :
  ensemble a b = inr e ->
  length a = length b /\
  e = map (fun '(p, q) => (p + q) / 2) (combine a b).
Proof.
  unfold ensemble. destruct (length a =? length b)%nat eqn:E; [| discriminate].
  apply Nat.eqb_eq in E. intros H. injection H as <-. auto.
Qed.

Lemma combine_nth_error (a b : list R) (i : nat) (p q : R) :
  nth_error a i = Some p -> nth_error b i = Some q ->
  nth_error (combine a b) i = Some (p, q).
Proof.
  revert b i. induction a as [| x xs IH]; intros [| y ys] [| i] Ha Hb;
    cbn in *; try discriminate.
  - injection Ha as <-. injection Hb as <-. reflexivity.
  - apply IH; assumption.
Qed.

Lemma ensemble_nth (a b e : list R) (i : nat) (p q v : R) :
  ensemble a b = inr e ->
  nth_error a i = Some p -> nth_error b i = Some q ->
  nth_error e i = Some v -> v = (p + q) / 2.
Proof.
  intros He Ha Hb Hv. apply ensemble_inv in He as [_ ->].
  rewrite (map_nth_error _ _ _ (combine_nth_error _ _ _ _ _ Ha Hb)) in Hv.
  injection Hv as <-. reflexivity.
Qed.

Lemma item_inv (a : list R) (i : nat) (x : R) :
  item a i = inr x -> nth_error a i = Some x.
Proof.
  unfold item. destruct (nth_error a i); [| discriminate].
  intros H. injection H as <-. reflexivity.
Qed.

Lemma anomalies_from_mean (a b e : list R) (ids : list string) :
  ensemble a b = inr e ->
  forall (i : nat) (out : list Anomaly),
    anomalies_from e a b i ids = inr out ->
    forall x, In x out ->
      anomaly_probability x = (if_probability x + svm_probability x) / 2 /\
      anomaly_probability x > 4/10.
Proof.
  intros He. induction ids as [| id0 rest IH]; intros i out Hrun x Hx.
  - cbn in Hrun. injection Hrun as <-. destruct Hx.
  - cbn in Hrun.
    destruct (item e i) as [err | v] eqn:Ev; [discriminate |].
    cbn in Hrun.
    destruct (Py.gtb v (4/10)) eqn:Hgt.
    + destruct (item a i) as [err | p] eqn:Ep; [discriminate |].
      cbn in Hrun.
      destruct (item b i) as [err | q] eqn:Eq; [discriminate |].
      cbn in Hrun.
      destruct (anomalies_from e a b (S i) rest) as [err | found] eqn:Ef;
        [discriminate |].
      cbn in Hrun. injection Hrun as <-.
      destruct Hx as [<- | Hx].
      * cbn. split.
        -- apply item_inv in Ev, Ep, Eq. eapply ensemble_nth; eauto.
        -- apply Py_gtb_spec in Hgt. exact Hgt.
      * eapply IH; eauto.
    + eapply IH; eauto.
Qed.

(** C7.  The ensemble of two probability arrays of one length holds, at
    every index, the arithmetic mean of the two detectors' probabilities;
    0.9 and 0.3 give 0.6; and every building-level anomaly the endpoint
    reports carries the mean of its two detector probabilities. *)
Theorem ensemble_is_arithmetic_mean (if_probs svm_probs : list R) :
  length if_probs = length svm_probs ->
  (exists ensemble_probs,
     ensemble if_probs svm_probs = inr ensemble_probs /\
     length ensemble_probs = length if_probs /\
     forall i p q,
       nth_error if_probs i = Some p -> nth_error svm_probs i = Some q ->
       nth_error ensemble_probs i = Some ((p + q) / 2)) /\
  ensemble [9/10] [3/10] = inr [6/10] /\
  (forall ensemble_probs ids out,
     ensemble if_probs svm_probs = inr ensemble_probs ->
     anomalies_from ensemble_probs if_probs svm_probs 0 ids = inr out ->
     forall x, In x out ->
       anomaly_probability x = (if_probability x + svm_probability x) / 2).
Proof.
  intros Hlen. split; [| split].
  - exists (map (fun '(p, q) => (p + q) / 2) (combine if_probs svm_probs)).
    split; [| split].
    + unfold ensemble. rewrite Hlen, Nat.eqb_refl. reflexivity.
    + rewrite length_map, length_combine, <- Hlen. apply Nat.min_id.
    + intros i p q Hp Hq.
      rewrite (map_nth_error _ _ _ (combine_nth_error _ _ _ _ _ Hp Hq)).
      reflexivity.
  - replace (6/10) with ((9/10 + 3/10) / 2) by lra. reflexivity.
  - intros e ids out He Hrun x Hx.
    apply (anomalies_from_mean _ _ _ _ He _ _ Hrun x Hx).
Qed.

Lemma ensemble_is_arithmetic_mean_witness :
  length [9/10; 2/10] = length [3/10; 4/10] /\
  exists ensemble_probs,
    ensemble [9/10; 2/10] [3/10; 4/10] = inr ensemble_probs /\
    nth_error ensemble_probs 0 = Some ((9/10 + 3/10) / 2).
Proof.
  assert (Hlen : length [9/10; 2/10] = length [3/10; 4/10]) by reflexivity.
  split; [exact Hlen |].
  destruct (proj1 (ensemble_is_arithmetic_mean _ _ Hlen))
    as (e & He & _ & Hnth).
  exists e. split; [exact He |].
  apply (Hnth 0%nat); reflexivity.
Defined.

End Ensemble.

Section EnsembleEndpoint.
Import Sklearn AnomalyEndpoint.
Context {sk : Backend}.

(** Every anomaly [get_anomalies] returns carries the mean of the two
    detectors' probabilities for its building. *)
Lemma get_anomalies_mean
    (anomaly_if anomaly_svm : AnomalyDetectionModel.t) (ids : list string)
    (X : Matrix) (out : list Anomaly) :
  get_anomalies anomaly_if anomaly_svm ids X = inr out ->
  forall x, In x out ->
    anomaly_probability x = (if_probability x + svm_probability x) / 2.
Proof.
  unfold get_anomalies. intros Hrun x Hx.
  destruct (AnomalyDetectionModel.detect_anomalies anomaly_if X)
    as [err | [[pa sa] a]]; [discriminate |].
  cbn in Hrun.
  destruct (AnomalyDetectionModel.detect_anomalies anomaly_svm X)
    as [err | [[pb sb] b]]; [discriminate |].
  cbn in Hrun.
  destruct (ensemble a b) as [err | e] eqn:He; [discriminate |].
  cbn in Hrun.
  apply (anomalies_from_mean _ _ _ _ He _ _ Hrun x Hx).
Qed.

End EnsembleEndpoint.

(** ** Sorting, differences and the statistics of a constant sequence *)

Lemma insert_length (x : Z) (l : list Z) :
  length (Stats.insert x l) = S (length l).
Proof.
  induction l as [| y tl IH]; cbn; [reflexivity |].
  destruct (x <=? y)%Z; cbn; [reflexivity | now rewrite IH].
Qed.

Lemma sort_length (l : list Z) : length (Stats.sort l) = length l.
Proof.
  unfold Stats.sort. induction l as [| x tl IH]; cbn; [reflexivity |].
  now rewrite insert_length, IH.
Qed.

Lemma diff_length (l : list Z) : length (Stats.diff l) = (length l - 1)%nat.
Proof.
  induction l as [| x [| y tl] IH]; cbn in *; try reflexivity.
  rewrite IH. lia.
Qed.

Lemma inter_arrival_length (l : list Z) :
  length (Detectors.inter_arrival l) = (length l - 1)%nat.
Proof. unfold Detectors.inter_arrival. now rewrite length_map, diff_length. Qed.





(** ** detect_temporal_anomalies *)

Section Temporal.
Import Data Detectors.

Lemma temporal_scan_zero_std (b : string) (mean_time : R) (gaps : list R)
    (i : nat) :
  temporal_scan b mean_time 0 i gaps = Finite [].
Proof.
  revert i. induction gaps as [| g rest IH]; intros i; cbn; [reflexivity |].
  destruct (Py.eqb 0 0) eqn:E; [apply IH |].
  apply Py_eqb_false in E. easy.
Qed.

Lemma temporal_scan_nonzero (b : string) (mean_time std_time : R) :
  std_time <> 0 ->
  forall (gaps : list R) (i : nat),
  exists out,
    temporal_scan b mean_time std_time i gaps = Finite out /\
    forall a, In a out <->
      exists k gap,
        nth_error gaps k = Some gap /\
        (gap - mean_time) / std_time < -2 /\
        a = mkTemporal b (i + k) gap mean_time
              ((gap - mean_time) / std_time)
              (if Py.ltb ((gap - mean_time) / std_time) (-3)
               then HIGH else MEDIUM).
Proof.
  intros Hstd. induction gaps as [| g rest IH]; intros i.
  - exists []. split; [reflexivity |].
    intros a. split; [intros [] |].
    intros (k & gap & Hk & _). destruct k; discriminate.
  - destruct (IH (S i)) as (found & Hrun & Hfound).
    assert (E0 : Py.eqb std_time 0 = false) by now apply Py_eqb_false.
    cbn. unfold np_divide. rewrite E0, Hrun.
    destruct (Py.ltb ((g - mean_time) / std_time) (-2)) eqn:Hz.
    + eexists. split; [reflexivity |].
      apply Py_ltb_spec in Hz.
      intros a. split.
      * intros [<- | Ha].
        -- exists 0%nat, g. rewrite Nat.add_0_r. auto.
        -- apply Hfound in Ha. destruct Ha as (k & gap & Hk & Hlt & ->).
           exists (S k), gap. rewrite Nat.add_succ_r. auto.
      * intros (k & gap & Hk & Hlt & ->). destruct k as [| k].
        -- cbn in Hk. injection Hk as <-. rewrite Nat.add_0_r. now left.
        -- right. apply Hfound. exists k, gap.
           rewrite Nat.add_succ_r. auto.
    + exists found. split; [reflexivity |].
      apply Py_ltb_false in Hz.
      intros a. split.
      * intros Ha. apply Hfound in Ha.
        destruct Ha as (k & gap & Hk & Hlt & ->).
        exists (S k), gap. rewrite Nat.add_succ_r. auto.
      * intros (k & gap & Hk & Hlt & ->). destruct k as [| k].
        -- cbn in Hk. injection Hk as <-. lra.
        -- apply Hfound. exists k, gap. rewrite Nat.add_succ_r. auto.
Qed.


Lemma temporal_scan_finite (b : string) (mean_time std_time : R)
    (gaps : list R) (i : nat) :
  exists out, temporal_scan b mean_time std_time i gaps = Finite out.
Proof.
  destruct (Req_dec_T std_time 0) as [-> | Hnz].
  - exists []. apply temporal_scan_zero_std.
  - destruct (temporal_scan_nonzero b mean_time std_time Hnz gaps i)
      as (out & Hrun & _).
    now exists out.
Qed.

Lemma temporal_of_building_finite (issues_df : list Issue) (b : string) :
  exists out, temporal_of_building issues_df b = Finite out.
Proof.
  unfold temporal_of_building.
  destruct (_ <? 5)%nat; [now exists [] |].
  destruct (_ <? 2)%nat; [now exists [] |].
  apply temporal_scan_finite.
Qed.

Lemma detect_temporal_anomalies_finite (issues_df : list Issue)
    (buildings_df : list Building) :
  exists out, detect_temporal_anomalies issues_df buildings_df = Finite out.
Proof.
  unfold detect_temporal_anomalies.
  induction (map id buildings_df) as [| b rest [ys IH]]; cbn.
  - now exists [].
  - destruct (temporal_of_building_finite issues_df b) as (xs & Hxs).
    rewrite Hxs, IH. now exists (xs ++ ys).
Qed.

End Temporal.


(** ** AnomalyFeatureEngineer.engineer_anomaly_features *)

Section AnomalyFeatures.
Import Data AnomalyFeatureEngineer.

Lemma std_over_mean_plus_one_two (s : list R) :
  (2 <= length s)%nat ->
  std_over_mean_plus_one s =
  Some (sqrt (Stats.sq_dev s / INR (length s - 1)) / (Stats.mean s + 1)).
Proof.
  intros H. unfold std_over_mean_plus_one, Stats.pd_std, Stats.pd_mean.
  destruct (length s <? 2)%nat eqn:E; [apply Nat.ltb_lt in E; lia |].
  destruct s; [cbn in H; lia | reflexivity].
Qed.

Lemma std_over_mean_plus_one_short (s : list R) :
  (length s < 2)%nat -> std_over_mean_plus_one s = None.
Proof.
  intros H. unfold std_over_mean_plus_one, Stats.pd_std.
  destruct (length s <? 2)%nat eqn:E; [reflexivity |].
  apply Nat.ltb_ge in E. lia.
Qed.

Lemma two_day_counts :
  map INR (Stats.group_sizes
             (map (fun i => date (created_at i))
                  (issues_of two_day_issues "b1"))) = [1; 3].
Proof.
  replace (Stats.group_sizes _) with [1; 3]%nat by (vm_compute; reflexivity).
  cbn. f_equal. f_equal. lra.
Qed.

Lemma two_day_statistics :
  Stats.mean [1; 3] = 2 /\ Stats.sq_dev [1; 3] = 2.
Proof.
  assert (Hm : Stats.mean [1; 3] = 2) by (unfold Stats.mean; cbn; lra).
  split; [exact Hm |].
  unfold Stats.sq_dev. rewrite Hm. cbn. lra.
Qed.

Lemma sqrt_2_pos : 0 < sqrt 2.
Proof. apply sqrt_lt_R0. lra. Qed.

(** C9 fails as stated: for a building with one issue on one day and three
    on the next, the daily counts 1 and 3 have standard deviation [sqrt 2]
    and mean 2; the feature is [sqrt 2 / 3], not the coefficient of
    variation [sqrt 2 / 2]. *)
Lemma frequency_variance_is_not_std_over_mean :
  let daily_counts :=
    map INR (Stats.group_sizes
               (map (fun i => date (created_at i))
                    (issues_of two_day_issues "b1"))) in
  issue_frequency_variance
    (features_of_building week_from_epoch two_day_issues "b1")
    = Some (sqrt 2 / 3) /\
  spec_coefficient_of_variation daily_counts = Some (sqrt 2 / 2) /\
  issue_frequency_variance
    (features_of_building week_from_epoch two_day_issues "b1")
    <> spec_coefficient_of_variation daily_counts.
Proof.
  intros daily_counts.
  destruct two_day_statistics as [Hm Hs].
  assert (Hcode : issue_frequency_variance
                    (features_of_building week_from_epoch two_day_issues "b1")
                  = Some (sqrt 2 / 3)).
  { unfold features_of_building.
    replace (length (issues_of two_day_issues "b1") =? 0)%nat with false
      by reflexivity.
    cbn [issue_frequency_variance]. rewrite two_day_counts.
    rewrite std_over_mean_plus_one_two by (cbn; lia).
    rewrite Hm, Hs. cbn [length Nat.sub INR].
    do 2 f_equal; [f_equal |]; lra. }
  assert (Hspec : spec_coefficient_of_variation daily_counts
                  = Some (sqrt 2 / 2)).
  { unfold daily_counts. rewrite two_day_counts.
    unfold spec_coefficient_of_variation, Stats.pd_std, Stats.pd_mean.
    cbn [length Nat.ltb Nat.leb Nat.sub INR]. rewrite Hm, Hs.
    do 3 f_equal. lra. }
  split; [exact Hcode |]. split; [exact Hspec |].
  rewrite Hcode, Hspec. intros H. injection H as H.
  pose proof sqrt_2_pos. lra.
Qed.

End AnomalyFeatures.

Section AnomalyFeaturesSpec.
Import Data AnomalyFeatureEngineer.
Variable isocalendar_week : Z -> Z.

(** C9, amended.  For a building with at least one issue,
    [issue_frequency_variance] is the sample standard deviation of the
    building's daily issue counts (over the days that have issues) divided
    by their mean plus one, and NaN when all its issues fall on one day;
    [issue_severity_variance] is the same statistic over the severities of
    its issues, and NaN for a single issue.  A building without issues gets
    0 for all five features. *)
Theorem engineer_anomaly_features_spec (issues_df : list Issue) (b : string) :
  let building_issues := issues_of issues_df b in
  let daily_counts :=
    map INR (Stats.group_sizes
               (map (fun i => date (created_at i)) building_issues)) in
  let severities := map (fun i => IZR (severity i)) building_issues in
  let ft := features_of_building isocalendar_week issues_df b in
  (building_issues = [] ->
   ft = mkFeatures (Some 0) (Some 0) (Some 0) (Some 0) (Some 0)) /\
  (building_issues <> [] ->
   ((2 <= length daily_counts)%nat ->
    issue_frequency_variance ft =
    Some (sqrt (Stats.sq_dev daily_counts / INR (length daily_counts - 1))
          / (Stats.mean daily_counts + 1))) /\
   ((length daily_counts < 2)%nat -> issue_frequency_variance ft = None) /\
   ((2 <= length severities)%nat ->
    issue_severity_variance ft =
    Some (sqrt (Stats.sq_dev severities / INR (length severities - 1))
          / (Stats.mean severities + 1))) /\
   ((length severities < 2)%nat -> issue_severity_variance ft = None)).
Proof.
  intros building_issues daily_counts severities ft.
  unfold ft, features_of_building. fold building_issues.
  split.
  - intros ->. reflexivity.
  - intros Hne.
    destruct (length building_issues =? 0)%nat eqn:E.
    { apply Nat.eqb_eq in E. destruct building_issues; [easy | discriminate]. }
    cbn [issue_frequency_variance issue_severity_variance].
    fold daily_counts severities.
    split; [apply std_over_mean_plus_one_two |].
    split; [apply std_over_mean_plus_one_short |].
    split; [apply std_over_mean_plus_one_two
           | apply std_over_mean_plus_one_short].
Qed.

(** Every row of the feature table is a building with the features of its
    own issues. *)
Lemma engineer_anomaly_features_rows (issues_df : list Issue)
    (buildings_df : list Building) (row : Building * Features) :
  In row (engineer_anomaly_features isocalendar_week issues_df buildings_df)
  <-> exists bld, In bld buildings_df /\
        row = (bld, features_of_building isocalendar_week issues_df (id bld)).
Proof.
  unfold engineer_anomaly_features. rewrite in_map_iff.
  split; intros (bld & H1 & H2); exists bld; auto.
Qed.

End AnomalyFeaturesSpec.

Lemma engineer_anomaly_features_spec_witness :
  Data.issues_of AnomalyFeatureEngineer.two_day_issues "b1" <> [] /\
  AnomalyFeatureEngineer.issue_severity_variance
    (AnomalyFeatureEngineer.features_of_building
       AnomalyFeatureEngineer.week_from_epoch
       AnomalyFeatureEngineer.two_day_issues "b1")
  <> None.
Proof.
  assert (Hne : Data.issues_of AnomalyFeatureEngineer.two_day_issues "b1"
                <> []) by discriminate.
  split; [exact Hne |].
  destruct (proj2 (engineer_anomaly_features_spec
                     AnomalyFeatureEngineer.week_from_epoch
                     AnomalyFeatureEngineer.two_day_issues "b1") Hne)
    as (_ & _ & Hsev & _).
  rewrite Hsev by (vm_compute; lia). discriminate.
Defined.

(** ** The sorted column of arrival times *)

Lemma insert_In (x y : Z) (l : list Z) :
  In y (Stats.insert x l) <-> y = x \/ In y l.
Proof.
  induction l as [| z tl IH]; cbn.
  - intuition.
  - destruct (x <=? z)%Z; cbn; [intuition |]. rewrite IH. intuition.
Qed.

Lemma sort_In (y : Z) (l : list Z) : In y (Stats.sort l) <-> In y l.
Proof.
  unfold Stats.sort. induction l as [| x tl IH]; cbn; [reflexivity |].
  rewrite insert_In, IH. intuition.
Qed.

Lemma insert_sorted (x : Z) (l : list Z) :
  StronglySorted Z.le l -> StronglySorted Z.le (Stats.insert x l).
Proof.
  induction 1 as [| z tl Hs IH Hall]; cbn.
  - constructor; constructor.
  - destruct (x <=? z)%Z eqn:E.
    + apply Z.leb_le in E. constructor.
      * constructor; assumption.
      * constructor; [exact E |].
        eapply Forall_impl; [| exact Hall]. cbn. intros; lia.
    + apply Z.leb_gt in E. constructor; [exact IH |].
      apply Forall_forall. intros y Hy. apply insert_In in Hy.
      destruct Hy as [-> | Hy]; [lia |].
      rewrite Forall_forall in Hall. now apply Hall.
Qed.

Lemma sort_sorted (l : list Z) : StronglySorted Z.le (Stats.sort l).
Proof.
  unfold Stats.sort. induction l as [| x tl IH]; cbn.
  - constructor.
  - now apply insert_sorted.
Qed.

Lemma sorted_last_max (l : list Z) (d y : Z) :
  StronglySorted Z.le l -> In y l -> (y <= last l d)%Z.
Proof.
  intros Hsorted. revert y.
  induction Hsorted as [| x tl Hs IH Hall]; intros y Hin; [destruct Hin |].
  destruct tl as [| x' tl'].
  - destruct Hin as [<- | []]. cbn. lia.
  - change (last (x :: x' :: tl') d) with (last (x' :: tl') d).
    destruct Hin as [<- | Hin]; [| now apply IH].
    apply Z.le_trans with x'.
    + now inversion Hall.
    + apply IH. now left.
Qed.

Lemma last_In (l : list Z) (d : Z) : l <> [] -> In (last l d) l.
Proof.
  induction l as [| x [| y tl] IH]; intros H; [easy | now left |].
  right. apply IH. discriminate.
Qed.

(** The first row of the sorted column is the earliest arrival and the last
    row the latest. *)
Lemma sort_first_last (l : list Z) :
  l <> [] ->
  exists first rest,
    Stats.sort l = first :: rest /\
    In first l /\ In (last (first :: rest) first) l /\
    forall t, In t l -> (first <= t <= last (first :: rest) first)%Z.
Proof.
  intros Hne.
  destruct (Stats.sort l) as [| first rest] eqn:E.
  - destruct l as [| x tl]; [easy |].
    assert (H : In x (Stats.sort (x :: tl))) by (apply sort_In; now left).
    rewrite E in H. destruct H.
  - exists first, rest. split; [reflexivity |].
    pose proof (sort_sorted l) as Hs. rewrite E in Hs.
    split; [apply sort_In; rewrite E; now left |].
    split.
    + apply sort_In. rewrite E. apply last_In. discriminate.
    + intros t Ht. apply sort_In in Ht. rewrite E in Ht. split.
      * destruct Ht as [<- | Ht]; [lia |].
        inversion Hs as [| ? ? _ Hall]. subst.
        rewrite Forall_forall in Hall. now apply Hall.
      * now apply sorted_last_max.
Qed.

(** ** detect_spike_anomalies *)

Section Spikes.
Import Data Detectors.

Lemma nth_map_in {A B : Type} (f : A -> B) (l : list A) (k : nat)
    (dA : A) (dB : B) :
  (k < length l)%nat -> nth k (map f l) dB = f (nth k l dA).
Proof.
  revert k. induction l as [| x tl IH]; intros [| k] H; cbn in *;
    try lia; [reflexivity |].
  apply IH. lia.
Qed.

Lemma ns_per_day_pos : (0 < ns_per_day)%Z.
Proof. reflexivity. Qed.

Lemma date_range_length (start stop : Z) :
  length (date_range start stop)
  = (Z.to_nat ((stop - start) / ns_per_day) + 1)%nat.
Proof. unfold date_range. now rewrite length_map, length_seq. Qed.

Lemma date_range_nth (start stop : Z) (k : nat) :
  (k < length (date_range start stop))%nat ->
  nth k (date_range start stop) 0%Z = (start + Z.of_nat k * ns_per_day)%Z.
Proof.
  intros Hk. rewrite date_range_length in Hk. unfold date_range.
  rewrite (nth_map_in _ _ _ 0%nat) by (rewrite length_seq; exact Hk).
  rewrite seq_nth by exact Hk. reflexivity.
Qed.

Lemma date_shift (start : Z) (k : nat) :
  date (start + Z.of_nat k * ns_per_day) = (date start + Z.of_nat k)%Z.
Proof.
  unfold date. apply Z.div_add. pose proof ns_per_day_pos. lia.
Qed.

Lemma daily_counts_length (building_issues : list Issue) (dr : list Z) :
  length (daily_counts_of building_issues dr) = length dr.
Proof. unfold daily_counts_of. apply length_map. Qed.

(** Row [k] of the series counts the issues created on the [k]-th day after
    the day of the earliest issue; a day without issues counts 0. *)
Lemma daily_counts_nth (building_issues : list Issue) (start stop : Z)
    (k : nat) :
  (k < length (date_range start stop))%nat ->
  nth k (daily_counts_of building_issues (date_range start stop)) 0%nat
  = length (filter (fun i => (date (created_at i) =? date start + Z.of_nat k)%Z)
                   building_issues).
Proof.
  intros Hk. unfold daily_counts_of.
  rewrite (nth_map_in _ _ _ 0%Z) by exact Hk.
  rewrite date_range_nth by exact Hk. rewrite date_shift. reflexivity.
Qed.

Lemma half_window (w : nat) :
  (1 <= w)%nat -> (w - 1 - (w - 1) / 2 = w / 2)%nat.
Proof.
  intros Hw.
  pose proof (Nat.div_mod_eq (w - 1) 2) as H1.
  pose proof (Nat.mod_upper_bound (w - 1) 2 ltac:(lia)) as H2.
  pose proof (Nat.div_mod_eq w 2) as H3.
  pose proof (Nat.mod_upper_bound w 2 ltac:(lia)) as H4.
  lia.
Qed.

(** On an interior day the centred window is full: it holds the [w] rows
    from [i - w/2] on. *)
Lemma rolling_window_interior (w : nat) (l : list R) (i : nat) :
  (1 <= w)%nat -> (w <= i)%nat -> (i + w <= length l)%nat ->
  rolling_window w l i = firstn w (skipn (i - w / 2) l) /\
  length (rolling_window w l i) = w.
Proof.
  intros Hw Hi Hn. unfold rolling_window.
  pose proof (half_window w Hw) as Hh.
  pose proof (Nat.div_mod_eq (w - 1) 2) as H1.
  pose proof (Nat.mod_upper_bound (w - 1) 2 ltac:(lia)) as H2.
  set (offset := ((w - 1) / 2)%nat) in *.
  assert (Hstop : Nat.min (i + 1 + offset) (length l) = (i + 1 + offset)%nat)
    by lia.
  assert (Hstart : Nat.min (i + 1 + offset - w) (length l) = (i - w / 2)%nat)
    by lia.
  rewrite Hstop, Hstart.
  replace (i + 1 + offset - (i - w / 2))%nat with w by lia.
  split; [reflexivity |].
  rewrite length_firstn, length_skipn. lia.
Qed.

Lemma rolling_interior (w : nat) (l : list R) (i : nat) :
  (1 <= w)%nat -> (w <= i)%nat -> (i + w <= length l)%nat ->
  let win := firstn w (skipn (i - w / 2) l) in
  rolling_mean w l i = Some (Stats.mean win) /\
  ((2 <= w)%nat ->
   rolling_std w l i = Some (sqrt (Stats.sq_dev win / INR (w - 1)))) /\
  (w = 1%nat -> rolling_std w l i = None).
Proof.
  intros Hw Hi Hn win.
  destruct (rolling_window_interior w l i Hw Hi Hn) as [Hwin Hlen].
  unfold rolling_mean, rolling_std. rewrite Hlen, Nat.ltb_irrefl.
  rewrite Hwin in *. fold win in Hlen |- *.
  split; [| split].
  - unfold Stats.pd_mean. destruct win; [cbn in Hlen; lia | reflexivity].
  - intros H2. unfold Stats.pd_std. rewrite Hlen.
    destruct (w <? 2)%nat eqn:E; [apply Nat.ltb_lt in E; lia | reflexivity].
  - intros ->. unfold Stats.pd_std. rewrite Hlen. reflexivity.
Qed.

Lemma spike_at_spec (b : string) (dr : list Z) (counts : list nat)
    (w : nat) (threshold : R) (i : nat) (a : SpikeAnomaly) :
  In a (spike_at b dr counts w threshold i) <->
  exists m sd,
    rolling_mean w (map INR counts) i = Some m /\
    rolling_std w (map INR counts) i = Some sd /\
    sd <> 0 /\
    Rabs ((INR (nth i counts 0%nat) - m) / sd) > threshold /\
    a = mkSpike b (nth i dr 0%Z) (nth i counts 0%nat) m
          ((INR (nth i counts 0%nat) - m) / sd)
          (if Py.gtb (Rabs ((INR (nth i counts 0%nat) - m) / sd)) 3
           then CRITICAL else HIGH).
Proof.
  unfold spike_at.
  destruct (rolling_std w (map INR counts) i) as [sd |].
  2: { split; [intros [] | intros (m & sd & _ & H & _); discriminate]. }
  destruct (Py.eqb sd 0) eqn:E0.
  { apply Py_eqb_spec in E0. split; [intros [] |].
    intros (m & sd' & _ & H & Hne & _). injection H as <-. easy. }
  apply Py_eqb_false in E0.
  destruct (rolling_mean w (map INR counts) i) as [m |].
  2: { split; [intros [] | intros (m & sd' & H & _); discriminate]. }
  destruct (Py.gtb (Rabs ((INR (nth i counts 0%nat) - m) / sd)) threshold)
    eqn:Ez.
  - apply Py_gtb_spec in Ez. split.
    + intros [<- | []]. exists m, sd. auto.
    + intros (m' & sd' & Hm & Hsd & _ & _ & ->).
      injection Hm as <-. injection Hsd as <-. now left.
  - apply Py_gtb_false in Ez. split; [intros [] |].
    intros (m' & sd' & Hm & Hsd & _ & Hgt & _).
    injection Hm as <-. injection Hsd as <-. lra.
Qed.

End Spikes.

Section SpikeClaim.
Import Data Detectors.

Lemma spikes_of_building_total (issues_df : list Issue) (window_days : nat)
    (threshold : R) (b : string) :
  (1 <= window_days)%nat ->
  exists out, spikes_of_building issues_df window_days threshold b = inr out.
Proof.
  intros Hw. unfold spikes_of_building.
  destruct (_ <? window_days)%nat eqn:Hlen; [now eexists |].
  apply Nat.ltb_ge in Hlen.
  destruct (Stats.sort _) as [| first rest] eqn:E.
  - assert (H : length (Stats.sort (map created_at (issues_of issues_df b)))
                = 0%nat) by now rewrite E.
    rewrite sort_length, length_map in H. lia.
  - destruct (_ <? window_days * 2)%nat; now eexists.
Qed.

(** With a window of at least one day the detector returns for every
    table, and reports the anomalies of each listed building. *)
Lemma detect_spike_anomalies_total (issues_df : list Issue)
    (buildings_df : list Building) (window_days : nat) (threshold : R) :
  (1 <= window_days)%nat ->
  exists out,
    detect_spike_anomalies issues_df buildings_df window_days threshold
      = inr out /\
    forall a, In a out <->
      exists bld found,
        In bld buildings_df /\
        spikes_of_building issues_df window_days threshold (id bld)
          = inr found /\
        In a found.
Proof.
  intros Hw. unfold detect_spike_anomalies.
  induction buildings_df as [| bld rest (ys & Hys & IH)]; cbn.
  - exists []. split; [reflexivity |].
    intros a. split; [intros [] | intros (? & ? & [] & _)].
  - destruct (spikes_of_building_total issues_df window_days threshold
                (id bld) Hw) as (xs & Hxs).
    rewrite Hxs, Hys. cbn. exists (xs ++ ys). split; [reflexivity |].
    intros a. rewrite in_app_iff, IH. split.
    + intros [Ha | (bld' & found & Hin & Hrun & Ha)].
      * exists bld, xs. auto.
      * exists bld', found. auto.
    + intros (bld' & found & [<- | Hin] & Hrun & Ha).
      * left. rewrite Hxs in Hrun. now injection Hrun as <-.
      * right. exists bld', found. auto.
Qed.

(** C5, amended.  For a window of at least one day,
    [detect_spike_anomalies] always returns, and reports for each listed
    building the anomalies of that building.  A building with fewer issues
    than [window_days] is excluded.  Otherwise the daily series starts at
    the earliest issue and has one row per 24 hours for as long as the
    latest issue is not passed, row [k] counting the issues created on the
    [k]-th calendar day after the first (0 when there are none); a series
    of fewer than [2 * window_days] rows yields nothing.  For a longer
    series the anomalies are exactly the interior days [i]
    ([window_days <= i < rows - window_days]) whose centred rolling standard
    deviation is defined and not 0 and whose
    [z = (count - rolling_mean) / rolling_std] has [|z| > threshold], each
    with severity CRITICAL when [|z| > 3] and HIGH otherwise.  On an
    interior day the rolling window holds the [window_days] rows from
    [i - window_days / 2] on, and the deviation is undefined only for a
    window of one day. *)
Theorem spikes_of_building_spec (issues_df : list Issue) (window_days : nat)
    (threshold : R) (b : string) :
  (1 <= window_days)%nat ->
  let building_issues := issues_of issues_df b in
  (forall buildings_df,
     exists found,
       detect_spike_anomalies issues_df buildings_df window_days threshold
         = inr found /\
       forall a, In a found <->
         exists bld out,
           In bld buildings_df /\
           spikes_of_building issues_df window_days threshold (id bld)
             = inr out /\
           In a out) /\
  exists out,
    spikes_of_building issues_df window_days threshold b = inr out /\
    ((length building_issues < window_days)%nat -> out = []) /\
    ((window_days <= length building_issues)%nat ->
     exists first latest,
       In first (map created_at building_issues) /\
       In latest (map created_at building_issues) /\
       (forall t, In t (map created_at building_issues) ->
                  (first <= t <= latest)%Z) /\
       let days := date_range first latest in
       let counts := daily_counts_of building_issues days in
       let series := map INR counts in
       length counts = (Z.to_nat ((latest - first) / ns_per_day) + 1)%nat /\
       (forall k, (k < length counts)%nat ->
          nth k counts 0%nat =
          length (filter (fun i => (date (created_at i)
                                    =? date first + Z.of_nat k)%Z)
                         building_issues)) /\
       ((length counts < 2 * window_days)%nat -> out = []) /\
       ((2 * window_days <= length counts)%nat ->
        forall a, In a out <->
          exists i m sd,
            (window_days <= i < length counts - window_days)%nat /\
            rolling_mean window_days series i = Some m /\
            rolling_std window_days series i = Some sd /\
            sd <> 0 /\
            Rabs ((INR (nth i counts 0%nat) - m) / sd) > threshold /\
            spike_building_id a = b /\
            anomaly_date a = (first + Z.of_nat i * ns_per_day)%Z /\
            daily_count a = nth i counts 0%nat /\
            expected_count a = m /\
            spike_z_score a = (INR (nth i counts 0%nat) - m) / sd /\
            (Rabs ((INR (nth i counts 0%nat) - m) / sd) > 3 ->
             spike_severity a = CRITICAL) /\
            (Rabs ((INR (nth i counts 0%nat) - m) / sd) <= 3 ->
             spike_severity a = HIGH)) /\
       (forall i, (window_days <= i < length counts - window_days)%nat ->
          let win := firstn window_days (skipn (i - window_days / 2) series) in
          rolling_mean window_days series i = Some (Stats.mean win) /\
          ((2 <= window_days)%nat ->
           rolling_std window_days series i =
           Some (sqrt (Stats.sq_dev win / INR (window_days - 1)))) /\
          (window_days = 1%nat ->
           rolling_std window_days series i = None))).
Proof.
  intros Hw building_issues.
  split; [intros buildings_df; now apply detect_spike_anomalies_total |].
  unfold spikes_of_building. fold building_issues.
  destruct (length building_issues <? window_days)%nat eqn:Hlen.
  { apply Nat.ltb_lt in Hlen. exists []. split; [reflexivity |].
    split; [reflexivity | lia]. }
  apply Nat.ltb_ge in Hlen.
  assert (Hne : map created_at building_issues <> []).
  { destruct building_issues; [cbn in Hlen; lia | discriminate]. }
  destruct (sort_first_last _ Hne) as (first & rest & Hsort & Hf & Hl & Hrange).
  rewrite Hsort. cbv beta iota zeta.
  set (latest := last (first :: rest) first) in *.
  set (days := date_range first latest).
  set (counts := daily_counts_of building_issues days).
  assert (Hn : length counts
               = (Z.to_nat ((latest - first) / ns_per_day) + 1)%nat).
  { unfold counts. rewrite daily_counts_length. apply date_range_length. }
  assert (Hnth : forall k, (k < length counts)%nat ->
            nth k counts 0%nat =
            length (filter (fun i => (date (created_at i)
                                      =? date first + Z.of_nat k)%Z)
                           building_issues)).
  { intros k Hk. apply daily_counts_nth. unfold counts in Hk.
    now rewrite daily_counts_length in Hk. }
  assert (Hroll : forall i,
            (window_days <= i < length counts - window_days)%nat ->
            let win := firstn window_days
                         (skipn (i - window_days / 2) (map INR counts)) in
            rolling_mean window_days (map INR counts) i
              = Some (Stats.mean win) /\
            ((2 <= window_days)%nat ->
             rolling_std window_days (map INR counts) i =
             Some (sqrt (Stats.sq_dev win / INR (window_days - 1)))) /\
            (window_days = 1%nat ->
             rolling_std window_days (map INR counts) i = None)).
  { intros i Hi. apply rolling_interior; [lia | lia |].
    rewrite length_map. lia. }
  destruct (length counts <? window_days * 2)%nat eqn:Hshort.
  - apply Nat.ltb_lt in Hshort. exists []. split; [reflexivity |].
    split; [lia |]. intros _. exists first, latest.
    split; [exact Hf |]. split; [exact Hl |]. split; [exact Hrange |].
    cbv zeta. fold days counts.
    split; [exact Hn |]. split; [exact Hnth |].
    split; [reflexivity |]. split; [lia | exact Hroll].
  - apply Nat.ltb_ge in Hshort. eexists. split; [reflexivity |].
    split; [lia |]. intros _. exists first, latest.
    split; [exact Hf |]. split; [exact Hl |]. split; [exact Hrange |].
    cbv zeta. fold days counts.
    split; [exact Hn |]. split; [exact Hnth |].
    split; [lia |]. split; [| exact Hroll].
    intros _ a. rewrite in_flat_map. split.
    + intros (i & Hi & Ha). apply in_seq in Hi.
      apply spike_at_spec in Ha.
      destruct Ha as (m & sd & Hm & Hsd & Hnz & Hz & ->).
      exists i, m, sd. cbn.
      split; [lia |]. split; [exact Hm |]. split; [exact Hsd |].
      split; [exact Hnz |]. split; [exact Hz |]. split; [reflexivity |].
      split.
      { apply date_range_nth. fold days. unfold counts in Hn, Hi.
        rewrite daily_counts_length in Hi. lia. }
      split; [reflexivity |]. split; [reflexivity |].
      split; [reflexivity |]. split; intros Hs.
      * apply Py_gtb_spec in Hs. now rewrite Hs.
      * apply Py_gtb_false in Hs. now rewrite Hs.
    + intros (i & m & sd & Hi & Hm & Hsd & Hnz & Hz & Hb & Hd & Hc & He
              & Hzs & Hcrit & Hhigh).
      exists i. split; [apply in_seq; lia |].
      apply spike_at_spec. exists m, sd.
      split; [exact Hm |]. split; [exact Hsd |]. split; [exact Hnz |].
      split; [exact Hz |].
      destruct a as [ab ad ac ae az asv]. cbn in *. subst.
      f_equal.
      * symmetry. apply date_range_nth. fold days. unfold counts in Hi.
        rewrite daily_counts_length in Hi. lia.
      * match goal with
        | |- _ = if Py.gtb ?z 3 then _ else _ =>
            destruct (Py.gtb z 3) eqn:Hs
        end.
        -- apply Hcrit. now apply Py_gtb_spec.
        -- apply Hhigh. now apply Py_gtb_false.
Qed.

End SpikeClaim.

Section SpikeExample.
Import Data Detectors.

Lemma spike_issues_series :
  issues_of spike_issues "b1" = spike_issues /\
  Stats.sort (map created_at spike_issues)
  = [0; 3 * ns_per_day; 3 * ns_per_day + ns_per_hour;
     3 * ns_per_day + 2 * ns_per_hour; 6 * ns_per_day]%Z /\
  daily_counts_of spike_issues (date_range 0 (6 * ns_per_day))
  = [1; 0; 0; 3; 0; 0; 1]%nat.
Proof. repeat split; vm_compute; reflexivity. Qed.

Lemma sqrt_3_bounds : 17/10 < sqrt 3 < 18/10.
Proof.
  split.
  - rewrite <- (sqrt_square (17/10)) by lra. apply sqrt_lt_1_alt. lra.
  - rewrite <- (sqrt_square (18/10)) by lra. apply sqrt_lt_1_alt. lra.
Qed.

(** On the sample table, with a window of 3 days and threshold 1, day 3
    (three issues between empty days) is reported: the rolling mean is 1,
    the rolling deviation [sqrt 3], [z = 2 / sqrt 3] and the severity HIGH. *)
Lemma spike_issues_detected :
  exists out,
    spikes_of_building spike_issues 3 1 "b1" = inr out /\
    In (mkSpike "b1" (3 * ns_per_day) 3 1 ((3 - 1) / sqrt 3) HIGH) out.
Proof.
  destruct spike_issues_series as (Hb & Hsort & Hcounts).
  unfold spikes_of_building. rewrite Hb.
  replace (length spike_issues <? 3)%nat with false by reflexivity.
  rewrite Hsort. cbv beta iota zeta.
  replace (last _ 0%Z) with (6 * ns_per_day)%Z by reflexivity.
  rewrite Hcounts.
  replace (length [1; 0; 0; 3; 0; 0; 1]%nat <? 3 * 2)%nat with false
    by reflexivity.
  eexists. split; [reflexivity |].
  apply in_flat_map. exists 3%nat. split; [cbn; auto |].
  apply spike_at_spec.
  pose proof sqrt_3_bounds as H3.
  assert (Hwin : rolling_window 3 (map INR [1; 0; 0; 3; 0; 0; 1]%nat) 3
                 = [0; 3; 0]).
  { unfold rolling_window. cbn. repeat f_equal; lra. }
  assert (Hmean : Stats.mean [0; 3; 0] = 1) by (unfold Stats.mean; cbn; lra).
  assert (Hdev : Stats.sq_dev [0; 3; 0] / INR (3 - 1) = 3).
  { unfold Stats.sq_dev. rewrite Hmean. cbn. lra. }
  exists 1, (sqrt 3).
  split; [unfold rolling_mean; rewrite Hwin; cbn [length Nat.ltb Nat.leb];
          unfold Stats.pd_mean; now rewrite Hmean |].
  split; [unfold rolling_std; rewrite Hwin; cbn [length Nat.ltb Nat.leb];
          unfold Stats.pd_std; cbn [length Nat.ltb Nat.leb];
          now rewrite Hdev |].
  split; [lra |].
  replace (INR (nth 3 [1; 0; 0; 3; 0; 0; 1]%nat 0%nat)) with 3
    by (cbn; lra).
  assert (Hz : 1 < (3 - 1) / sqrt 3 < 3).
  { split.
    - apply Rmult_lt_reg_r with (sqrt 3); [lra |].
      unfold Rdiv. rewrite Rmult_assoc, Rinv_l by lra. lra.
    - apply Rmult_lt_reg_r with (sqrt 3); [lra |].
      unfold Rdiv. rewrite Rmult_assoc, Rinv_l by lra. lra. }
  rewrite Rabs_right by lra.
  split; [lra |].
  replace (Py.gtb ((3 - 1) / sqrt 3) 3) with false
    by (symmetry; apply Py_gtb_false; lra).
  reflexivity.
Qed.

End SpikeExample.

Section SpikeCounterexample.
Import Data Detectors.

Lemma sparse_issues_series :
  issues_of sparse_issues "b1" = sparse_issues /\
  Stats.sort (map created_at sparse_issues)
  = [0; 10 * ns_per_day; 20 * ns_per_day]%Z /\
  daily_counts_of sparse_issues (spec_date_range 0 (20 * ns_per_day))
  = [1; 0; 0; 0; 0; 0; 0; 0; 0; 0; 1; 0; 0; 0; 0; 0; 0; 0; 0; 0; 1]%nat /\
  nth 10 (spec_date_range 0 (20 * ns_per_day)) 0%Z = (10 * ns_per_day)%Z.
Proof. repeat split; vm_compute; reflexivity. Qed.

Lemma sqrt_seventh_bounds : 2/7 < sqrt (1/7) < 3/7.
Proof.
  split.
  - rewrite <- (sqrt_square (2/7)) by lra. apply sqrt_lt_1_alt. lra.
  - rewrite <- (sqrt_square (3/7)) by lra. apply sqrt_lt_1_alt. lra.
Qed.

(** C5 fails as stated.  A building with three issues, on days 0, 10 and
    20, has a series of 21 days, and with the default window of 7 days and
    threshold 2.0 the specification's detector reports day 10 (one issue
    among six empty days, [z = (6/7) / sqrt (1/7)], about 2.27) with
    severity HIGH; the code skips the building, which has fewer issues
    than [window_days], and reports nothing.  The series of the code is
    also not the range of dates: between an issue at 23:00 and one at 01:00
    four days later lie five dates, and the code's series has four rows. *)
Lemma issue_count_guard_hides_a_spike :
  spikes_of_building sparse_issues 7 2 "b1" = inr [] /\
  (exists a,
     In a (spec_spikes_of_building sparse_issues 7 2 "b1") /\
     anomaly_date a = (10 * ns_per_day)%Z /\
     daily_count a = 1%nat /\
     spike_severity a = HIGH) /\
  length (date_range (23 * ns_per_hour) (4 * ns_per_day + ns_per_hour))
  = 4%nat /\
  length (spec_date_range (23 * ns_per_hour) (4 * ns_per_day + ns_per_hour))
  = 5%nat.
Proof.
  destruct sparse_issues_series as (Hb & Hsort & Hcounts & Hdate).
  split; [| split; [| split; vm_compute; reflexivity]].
  - unfold spikes_of_building. rewrite Hb. reflexivity.
  - unfold spec_spikes_of_building. rewrite Hb, Hsort.
    cbv beta iota zeta.
    replace (last _ 0%Z) with (20 * ns_per_day)%Z by reflexivity.
    rewrite Hcounts.
    set (counts := [1; 0; 0; 0; 0; 0; 0; 0; 0; 0; 1;
                    0; 0; 0; 0; 0; 0; 0; 0; 0; 1]%nat).
    replace (length counts <? 7 * 2)%nat with false by reflexivity.
    pose proof sqrt_seventh_bounds as Hs.
    assert (Hwin : rolling_window 7 (map INR counts) 10
                   = [0; 0; 0; 1; 0; 0; 0]).
    { unfold rolling_window, counts. cbn. repeat f_equal; lra. }
    assert (Hmean : Stats.mean [0; 0; 0; 1; 0; 0; 0] = 1/7)
      by (unfold Stats.mean; cbn; lra).
    assert (Hdev : Stats.sq_dev [0; 0; 0; 1; 0; 0; 0] / INR (7 - 1) = 1/7).
    { unfold Stats.sq_dev. rewrite Hmean. cbn. lra. }
    assert (Hz : 2 < (1 - 1/7) / sqrt (1/7) < 3).
    { split.
      - apply Rmult_lt_reg_r with (sqrt (1/7)); [lra |].
        unfold Rdiv at 2. rewrite Rmult_assoc, Rinv_l by lra. lra.
      - apply Rmult_lt_reg_r with (sqrt (1/7)); [lra |].
        unfold Rdiv at 1. rewrite Rmult_assoc, Rinv_l by lra. lra. }
    exists (mkSpike "b1" (10 * ns_per_day) 1 (1/7)
              ((1 - 1/7) / sqrt (1/7)) HIGH).
    split; [| repeat split].
    apply in_flat_map. exists 10%nat. split; [cbn; auto 12 |].
    apply spike_at_spec. exists (1/7), (sqrt (1/7)).
    split; [unfold rolling_mean; rewrite Hwin; cbn [length Nat.ltb Nat.leb];
            unfold Stats.pd_mean; now rewrite Hmean |].
    split; [unfold rolling_std; rewrite Hwin; cbn [length Nat.ltb Nat.leb];
            unfold Stats.pd_std; cbn [length Nat.ltb Nat.leb];
            now rewrite Hdev |].
    split; [lra |].
    replace (INR (nth 10 counts 0%nat)) with 1 by (cbn; lra).
    rewrite Rabs_right by lra.
    split; [lra |].
    replace (Py.gtb ((1 - 1/7) / sqrt (1/7)) 3) with false
      by (symmetry; apply Py_gtb_false; lra).
    rewrite Hdate. reflexivity.
Qed.

End SpikeCounterexample.

Lemma spikes_of_building_spec_witness :
  (1 <= 3)%nat /\
  exists out,
    Detectors.spikes_of_building Detectors.spike_issues 3 1 "b1" = inr out.
Proof.
  assert (Hw : (1 <= 3)%nat) by lia.
  split; [exact Hw |].
  destruct (proj2 (spikes_of_building_spec Detectors.spike_issues 3 1 "b1"
                     Hw))
    as (out & Hrun & _).
  exists out. exact Hrun.
Defined.

(** * Further properties of the code *)

(** ** Risk scores at the ends of the scale *)

Lemma exp_5_2_lower : 4 < exp (5/2).
Proof.
  replace (5/2) with (5/4 + 5/4) by lra. rewrite exp_plus.
  pose proof (exp_ineq1_le (5/4)) as H. nra.
Qed.

(** Case analysis on the innermost comparisons of nested minima and
    maxima, closed by linear arithmetic. *)
Ltac case_minmax :=
  unfold Rmin, Rmax;
  repeat match goal with
         | |- context [Rle_dec ?x ?y] =>
             lazymatch x with
             | context [Rle_dec] => fail
             | _ => lazymatch y with
                    | context [Rle_dec] => fail
                    | _ => destruct (Rle_dec x y)
                    end
             end
         end;
  lra.

Section RiskEnds.
Import Data RiskProbabilityModel RiskEndpoint.

Lemma score_fields (self : t) (b : string) (f a q : R) (n : Z) :
  let r := calculate_building_risk self b f a q n in
  building_id r = b /\ recent_critical_issues r = n /\
  failure_component r = Py.max 0 (Py.min 1 f) /\
  anomaly_component r = Py.max 0 (Py.min 1 a) /\
  recency_component r = Py.max 0 (Py.min 1 q).
Proof.
  unfold calculate_building_risk.
  repeat match goal with |- context [if Py.geb ?x ?y then _ else _] =>
           destruct (Py.geb x y)
         end; cbn; auto.
Qed.

Lemma clamp_above_one (x : R) : 1 <= x -> Py.max 0 (Py.min 1 x) = 1.
Proof.
  intros H. rewrite Py_max_Rmax, Py_min_Rmin. case_minmax.
Qed.

Lemma clamp_monotone (x y : R) :
  x <= y -> Py.max 0 (Py.min 1 x) <= Py.max 0 (Py.min 1 y).
Proof.
  intros H. rewrite !Py_max_Rmax, !Py_min_Rmin. case_minmax.
Qed.

Lemma frequency_score_unit (issues_df : list Issue) (b : string) :
  0 <= fst (frequency_score issues_df b) <= 1.
Proof.
  rewrite frequency_score_formula.
  set (n := num_issues issues_df b). set (c := num_critical issues_df b).
  assert (Hs : 0 <= sqrt (INR n) / sqrt 100).
  { rewrite sqrt_100. pose proof (sqrt_pos (INR n)). lra. }
  assert (Hb : 0 <= INR c / INR n * (4/10)).
  { pose proof (pos_INR c). pose proof (pos_INR n).
    destruct (Req_dec_T (INR n) 0) as [-> | Hn].
    - unfold Rdiv. rewrite Rinv_0. lra.
    - assert (0 < / INR n) by (apply Rinv_0_lt_compat; lra).
      unfold Rdiv. nra. }
  case_minmax.
Qed.

(** X1.  A building without issues that is in neither the failure map nor
    the anomaly map gets composite score 0, risk probability
    [1/(1+e^2.5)], level LOW and the routine action, whatever the weights
    the model was built with. *)
Theorem building_without_issues_is_low
    (fw aw rw : R) (self : t) (failure_map anomaly_map : string -> option R)
    (issues_df : list Issue) (b : string) :
  init fw aw rw = inr self ->
  issues_of issues_df b = [] ->
  failure_map b = None ->
  anomaly_map b = None ->
  let r := building_risk self failure_map anomaly_map issues_df b in
  composite_score r = 0 /\
  risk_probability r = 1 / (1 + exp (5/2)) /\
  risk_level r = LOW /\
  action r = ROUTINE_MAINTENANCE /\
  recent_critical_issues r = 0%Z.
Proof.
  intros Hinit Hb Hf Ha r.
  assert (Hr : r = calculate_building_risk self b 0 0 0 0).
  { unfold r, building_risk, frequency_score. rewrite Hb, Hf, Ha. reflexivity. }
  rewrite Hr.
  assert (Hc : composite_score (calculate_building_risk self b 0 0 0 0) = 0).
  { rewrite composite_score_eq, clamp_zero. lra. }
  assert (Hp : risk_probability (calculate_building_risk self b 0 0 0 0)
               = 1 / (1 + exp (5/2))).
  { rewrite risk_probability_logistic, Hc. apply logistic_zero. }
  destruct (risk_level_iff _ _ _ _ b 0 0 0 0%Z Hinit) as (_ & _ & _ & Hlow).
  assert (Hl : risk_level (calculate_building_risk self b 0 0 0 0) = LOW).
  { apply Hlow. rewrite Hp. pose proof exp_5_2_lower as He.
    apply Rmult_lt_reg_r with (1 + exp (5/2)); [lra |].
    unfold Rdiv. rewrite Rmult_assoc, Rinv_l by lra. lra. }
  split; [exact Hc |]. split; [exact Hp |]. split; [exact Hl |].
  split; [rewrite action_follows_level, Hl; reflexivity |].
  apply (score_fields self b 0 0 0 0).
Qed.

Lemma building_without_issues_is_low_witness :
  init (4/10) (3/10) (3/10) = inr default_model /\
  risk_level (building_risk default_model (fun _ => None) (fun _ => None)
                [mkIssue "issue_0" "b2" 5 0] "b1") = LOW.
Proof.
  split; [exact default_model_init |].
  exact (proj1 (proj2 (proj2
           (building_without_issues_is_low (4/10) (3/10) (3/10) default_model
              (fun _ => None) (fun _ => None) [mkIssue "issue_0" "b2" 5 0]
              "b1" default_model_init eq_refl eq_refl eq_refl)))).
Defined.

(** X2.  On a model built from non-negative weights, when the failure
    probability, the anomaly probability and the frequency score are all 1
    or more, each is clamped to 1, the composite score is the sum of the
    three stored weights, and the level is CRITICAL with the
    immediate-intervention action. *)
Theorem saturated_inputs_are_critical
    (fw aw rw : R) (self : t) (b : string) (f a q : R) (n : Z) :
  0 <= fw -> 0 <= aw -> 0 <= rw ->
  init fw aw rw = inr self ->
  1 <= f -> 1 <= a -> 1 <= q ->
  let r := calculate_building_risk self b f a q n in
  failure_component r = 1 /\ anomaly_component r = 1 /\
  recency_component r = 1 /\
  composite_score r
  = failure_weight self + anomaly_weight self + recency_weight self /\
  risk_level r = CRITICAL /\
  action r = IMMEDIATE_INTERVENTION_REQUIRED.
Proof.
  intros Hfw Haw Hrw Hinit Hf Ha Hq r.
  destruct (init_inv _ _ _ _ Hinit) as [Htot Hself].
  assert (Hsum : composite_score r
                 = failure_weight self + anomaly_weight self
                   + recency_weight self).
  { unfold r. rewrite composite_score_eq, !clamp_above_one by assumption.
    ring. }
  assert (Hc : composite_score r = 1).
  { rewrite Hsum. rewrite Hself. cbn. field. exact Htot. }
  destruct (risk_level_iff _ _ _ _ b f a q n Hinit) as (Hcrit & _).
  fold r in Hcrit.
  assert (Hl : risk_level r = CRITICAL).
  { apply Hcrit. unfold r. rewrite risk_probability_logistic. fold r.
    rewrite Hc, logistic_one.
    pose proof exp_5_2_lower as He. pose proof (exp_pos (- (5/2))) as Hp.
    assert (Hinv : exp (- (5/2)) < 1/4).
    { rewrite exp_Ropp. apply Rmult_lt_reg_r with (exp (5/2)); [lra |].
      rewrite Rinv_l by lra. lra. }
    apply Rle_ge. apply Rmult_le_reg_r with (1 + exp (- (5/2))); [lra |].
    replace (1 / (1 + exp (- (5 / 2))) * (1 + exp (- (5 / 2)))) with 1
      by (field; lra).
    lra. }
  destruct (score_fields self b f a q n) as (_ & _ & Hcf & Hca & Hcq).
  fold r in Hcf, Hca, Hcq.
  split; [rewrite Hcf; now apply clamp_above_one |].
  split; [rewrite Hca; now apply clamp_above_one |].
  split; [rewrite Hcq; now apply clamp_above_one |].
  split; [exact Hsum |]. split; [exact Hl |].
  unfold r. rewrite action_follows_level. fold r. rewrite Hl. reflexivity.
Qed.

Lemma saturated_inputs_are_critical_witness :
  0 <= 4/10 /\ 0 <= 3/10 /\
  init (4/10) (3/10) (3/10) = inr default_model /\ 1 <= 1 /\ 1 <= 2 /\
  risk_level (calculate_building_risk default_model "b1" 1 2 1 0) = CRITICAL.
Proof.
  assert (H4 : 0 <= 4/10) by lra. assert (H3 : 0 <= 3/10) by lra.
  assert (H1 : 1 <= 1) by lra. assert (H2 : 1 <= 2) by lra.
  split; [exact H4 |]. split; [exact H3 |].
  split; [exact default_model_init |]. split; [exact H1 |].
  split; [exact H2 |].
  exact (proj1 (proj2 (proj2 (proj2 (proj2
           (saturated_inputs_are_critical (4/10) (3/10) (3/10) default_model
              "b1" 1 2 1 0 H4 H3 H3 default_model_init H1 H2 H1)))))).
Defined.

(** X3.  With non-negative weights the risk probability is monotone: raising
    any of the three inputs never lowers it. *)
Theorem risk_probability_monotone
    (fw aw rw : R) (self : t) (b : string) (f a q f' a' q' : R) (n n' : Z) :
  0 <= fw -> 0 <= aw -> 0 <= rw ->
  init fw aw rw = inr self ->
  f <= f' -> a <= a' -> q <= q' ->
  risk_probability (calculate_building_risk self b f a q n)
  <= risk_probability (calculate_building_risk self b f' a' q' n').
Proof.
  intros Hfw Haw Hrw Hinit Hf Ha Hq.
  destruct (init_inv _ _ _ _ Hinit) as [Htot Hself].
  assert (Hpos : 0 < fw + aw + rw) by lra.
  assert (Hwf : 0 <= failure_weight self)
    by (subst self; cbn; apply Rle_mult_inv_pos; lra).
  assert (Hwa : 0 <= anomaly_weight self)
    by (subst self; cbn; apply Rle_mult_inv_pos; lra).
  assert (Hwr : 0 <= recency_weight self)
    by (subst self; cbn; apply Rle_mult_inv_pos; lra).
  rewrite !risk_probability_logistic. apply logistic_increasing.
  rewrite !composite_score_eq.
  pose proof (clamp_monotone f f' Hf). pose proof (clamp_monotone a a' Ha).
  pose proof (clamp_monotone q q' Hq). nra.
Qed.

Lemma risk_probability_monotone_witness :
  0 <= 4/10 /\ 0 <= 3/10 /\
  init (4/10) (3/10) (3/10) = inr default_model /\ 2/10 <= 5/10 /\
  risk_probability (calculate_building_risk default_model "b1"
                      (2/10) (2/10) (2/10) 0)
  <= risk_probability (calculate_building_risk default_model "b1"
                         (5/10) (5/10) (5/10) 0).
Proof.
  assert (H4 : 0 <= 4/10) by lra. assert (H3 : 0 <= 3/10) by lra.
  assert (H25 : 2/10 <= 5/10) by lra.
  split; [exact H4 |]. split; [exact H3 |].
  split; [exact default_model_init |]. split; [exact H25 |].
  exact (risk_probability_monotone (4/10) (3/10) (3/10) default_model "b1"
           (2/10) (2/10) (2/10) (5/10) (5/10) (5/10) 0 0
           H4 H3 H3 default_model_init H25 H25 H25).
Defined.

(** X4.  The frequency score of the risk endpoint always lies in [0,1], so
    the clamp of [calculate_building_risk] leaves it unchanged: the recency
    component of a building's risk score is its frequency score, and the
    recorded count is its number of issues of severity 4 or more. *)
Theorem frequency_score_feeds_recency
    (self : t) (failure_map anomaly_map : string -> option R)
    (issues_df : list Issue) (b : string) :
  let r := building_risk self failure_map anomaly_map issues_df b in
  0 <= fst (frequency_score issues_df b) <= 1 /\
  recency_component r = fst (frequency_score issues_df b) /\
  recent_critical_issues r = Z.of_nat (num_critical issues_df b) /\
  building_id r = b.
Proof.
  intros r. pose proof (frequency_score_unit issues_df b) as Hu.
  split; [exact Hu |].
  unfold r, building_risk.
  destruct (frequency_score issues_df b) as [fs rc] eqn:E.
  cbn [fst] in Hu |- *.
  assert (Hrc : rc = num_critical issues_df b).
  { change rc with (snd (fs, rc)). rewrite <- E. reflexivity. }
  destruct (score_fields self b
              (match failure_map b with Some p => p | None => 0 end)
              (match anomaly_map b with Some p => p | None => 0 end)
              fs (Z.of_nat rc)) as (Hid & Hn & _ & _ & Hq).
  split; [| split; [now rewrite Hn, Hrc | exact Hid]].
  rewrite Hq, Py_max_Rmax, Py_min_Rmin. case_minmax.
Qed.

End RiskEnds.

Section CategorizeRisk.
Import RiskProbabilityModel.

(** X5.  The failure model's [_categorize_risk] and the risk model's level
    assignment are one table: on a model built by the constructor, the risk
    level of a risk score is [_categorize_risk] of its risk probability. *)
Theorem categorize_risk_agrees
    (fw aw rw : R) (self : t) (b : string) (f a q : R) (n : Z) :
  init fw aw rw = inr self ->
  risk_level (calculate_building_risk self b f a q n)
  = FailurePredictionModel._categorize_risk
      (risk_probability (calculate_building_risk self b f a q n)).
Proof.
  intros Hinit.
  destruct (risk_level_iff _ _ _ _ b f a q n Hinit)
    as (Hcrit & Hhigh & Hmed & Hlow).
  cbv zeta in Hcrit, Hhigh, Hmed, Hlow.
  unfold FailurePredictionModel._categorize_risk.
  set (p := risk_probability _) in *.
  destruct (Py.geb p (8/10)) eqn:E1.
  { apply Hcrit. now apply Py_geb_spec. }
  apply Py_geb_false in E1.
  destruct (Py.geb p (6/10)) eqn:E2.
  { apply Hhigh. apply Py_geb_spec in E2. lra. }
  apply Py_geb_false in E2.
  destruct (Py.geb p (4/10)) eqn:E3.
  { apply Hmed. apply Py_geb_spec in E3. lra. }
  apply Py_geb_false in E3. now apply Hlow.
Qed.

Lemma categorize_risk_agrees_witness :
  init (4/10) (3/10) (3/10) = inr default_model /\
  risk_level (calculate_building_risk default_model "b1" 1 1 1 0)
  = FailurePredictionModel._categorize_risk
      (risk_probability (calculate_building_risk default_model "b1" 1 1 1 0)).
Proof.
  split; [exact default_model_init |].
  exact (categorize_risk_agrees (4/10) (3/10) (3/10) default_model "b1"
           1 1 1 0 default_model_init).
Defined.

End CategorizeRisk.

(** ** How far one observation can lie from the mean *)

Lemma sum_app (l1 l2 : list R) :
  Stats.sum (l1 ++ l2) = Stats.sum l1 + Stats.sum l2.
Proof.
  unfold Stats.sum. induction l1 as [| x tl IH]; cbn; [lra |].
  rewrite IH. lra.
Qed.

Lemma sum_sq_nonneg (l : list R) : 0 <= Stats.sum_sq l.
Proof.
  unfold Stats.sum_sq, Stats.sum. induction l as [| x tl IH]; cbn; [lra | nra].
Qed.

(** Cauchy-Schwarz against the constant sequence. *)
Lemma sum_square_le (l : list R) :
  Stats.sum l * Stats.sum l <= INR (length l) * Stats.sum_sq l.
Proof.
  induction l as [| a tl IH].
  - cbn. lra.
  - change (Stats.sum (a :: tl)) with (a + Stats.sum tl).
    change (Stats.sum_sq (a :: tl)) with (a * a + Stats.sum_sq tl).
    change (length (a :: tl)) with (S (length tl)). rewrite S_INR.
    set (s := Stats.sum tl) in *. set (q := Stats.sum_sq tl) in *.
    set (n := INR (length tl)) in *.
    assert (Hn : 0 <= n) by apply pos_INR.
    assert (Hq : 0 <= q) by apply sum_sq_nonneg.
    destruct (Req_dec_T n 0) as [Hz | Hnz].
    + assert (Hs : s * s <= 0) by (rewrite Hz in IH; lra).
      assert (s = 0) by nra. subst s. nra.
    + assert (Hpos : 0 < n) by lra.
      assert (Hkey : 0 <= n * (n * (a * a) + q - 2 * a * s)).
      { pose proof (Rle_0_sqr (n * a - s)) as Hsq. unfold Rsqr in Hsq. nra. }
      assert (0 <= n * (a * a) + q - 2 * a * s).
      { destruct (Rle_dec 0 (n * (a * a) + q - 2 * a * s)); [assumption |].
        exfalso. nra. }
      nra.
Qed.

(** In a sequence of [n] deviations that sum to zero, [n] times the square
    of one of them is at most [n - 1] times the sum of all squares. *)
Lemma one_deviation_bound (l1 l2 : list R) (d : R) :
  Stats.sum (l1 ++ d :: l2) = 0 ->
  INR (length (l1 ++ d :: l2)) * (d * d)
  <= (INR (length (l1 ++ d :: l2)) - 1) * Stats.sum_sq (l1 ++ d :: l2).
Proof.
  intros Hsum.
  pose proof (sum_square_le (l1 ++ l2)) as Hcs.
  rewrite sum_app in Hsum.
  change (Stats.sum (d :: l2)) with (d + Stats.sum l2) in Hsum.
  rewrite sum_app in Hcs.
  assert (Hlen : INR (length (l1 ++ d :: l2)) = INR (length (l1 ++ l2)) + 1).
  { rewrite !length_app. cbn [length]. rewrite Nat.add_succ_r, S_INR. reflexivity. }
  assert (Hsq : Stats.sum_sq (l1 ++ d :: l2) = Stats.sum_sq (l1 ++ l2) + d * d).
  { unfold Stats.sum_sq. rewrite !map_app, !sum_app. cbn [map].
    change (Stats.sum (d * d :: map (fun x => x * x) l2))
      with (d * d + Stats.sum (map (fun x => x * x) l2)). lra. }
  rewrite Hlen, Hsq.
  assert (Hd : Stats.sum l1 + Stats.sum l2 = - d) by lra.
  rewrite Hd in Hcs.
  pose proof (pos_INR (length (l1 ++ l2))).
  pose proof (sum_sq_nonneg (l1 ++ l2)). nra.
Qed.

Lemma sum_map_minus (l : list R) (m : R) :
  Stats.sum (map (fun x => x - m) l) = Stats.sum l - INR (length l) * m.
Proof.
  induction l as [| x tl IH].
  - cbn. lra.
  - change (Stats.sum (map (fun x => x - m) (x :: tl)))
      with (x - m + Stats.sum (map (fun x => x - m) tl)).
    change (Stats.sum (x :: tl)) with (x + Stats.sum tl).
    change (length (x :: tl)) with (S (length tl)).
    rewrite IH, S_INR. lra.
Qed.

Lemma sq_dev_sum_sq (l : list R) :
  Stats.sq_dev l = Stats.sum_sq (map (fun x => x - Stats.mean l) l).
Proof.
  unfold Stats.sq_dev, Stats.sum_sq. now rewrite map_map.
Qed.

(** Samuelson's inequality: with [n] observations, [n] times the squared
    deviation of one observation from the mean is at most [n - 1] times the
    sum of squared deviations. *)
Lemma deviation_bound (l : list R) (x : R) :
  In x l ->
  INR (length l) * ((x - Stats.mean l) * (x - Stats.mean l))
  <= (INR (length l) - 1) * Stats.sq_dev l.
Proof.
  intros Hin.
  destruct (in_split x l Hin) as (l1 & l2 & Hl).
  set (m := Stats.mean l).
  assert (Hne : INR (length l) <> 0).
  { apply not_0_INR. rewrite Hl, length_app. cbn. lia. }
  assert (Hzero : Stats.sum (map (fun y => y - m) l) = 0).
  { rewrite sum_map_minus. unfold m, Stats.mean. field. exact Hne. }
  rewrite sq_dev_sum_sq. fold m.
  assert (Hmap : map (fun y => y - m) l
                 = map (fun y => y - m) l1 ++ (x - m) :: map (fun y => y - m) l2).
  { rewrite Hl at 1. now rewrite map_app. }
  rewrite Hmap in Hzero |- *.
  replace (length l)
    with (length (map (fun y => y - m) l1 ++ (x - m) :: map (fun y => y - m) l2))
    by (rewrite <- Hmap; apply length_map).
  now apply one_deviation_bound.
Qed.

Lemma sq_dev_nonneg (l : list R) : 0 <= Stats.sq_dev l.
Proof. rewrite sq_dev_sum_sq. apply sum_sq_nonneg. Qed.

(** A z-score against the population deviation of [n] observations has a
    square of at most [n - 1]. *)
Lemma population_z_bound (l : list R) (x : R) :
  In x l -> Stats.np_std l <> 0 ->
  (x - Stats.mean l) / Stats.np_std l * ((x - Stats.mean l) / Stats.np_std l)
  <= INR (length l) - 1.
Proof.
  intros Hin Hstd.
  pose proof (deviation_bound l x Hin) as Hdev.
  pose proof (sq_dev_nonneg l) as HS.
  assert (Hn : 0 < INR (length l)).
  { apply lt_0_INR. destruct l; [destruct Hin | cbn; lia]. }
  set (n := INR (length l)) in *. set (S := Stats.sq_dev l) in *.
  set (d := x - Stats.mean l) in *.
  assert (Hq : 0 <= S / n).
  { unfold Rdiv. apply Rmult_le_pos; [exact HS |].
    left. now apply Rinv_0_lt_compat. }
  assert (Hsq : Stats.np_std l * Stats.np_std l = S / n)
    by (unfold Stats.np_std; fold S n; now apply sqrt_sqrt).
  set (sd := Stats.np_std l) in *.
  assert (Hsd2 : 0 < sd * sd) by nra.
  assert (HSpos : 0 < S).
  { assert (Hm : S = sd * sd * n) by (rewrite Hsq; field; lra). nra. }
  replace (d / sd * (d / sd)) with (d * d / (sd * sd)) by (field; exact Hstd).
  rewrite Hsq.
  replace (d * d / (S / n)) with (n * (d * d) / S) by (field; lra).
  apply Rmult_le_reg_r with S; [exact HSpos |].
  replace (n * (d * d) / S * S) with (n * (d * d)) by (field; lra).
  exact Hdev.
Qed.

(** A z-score against the sample deviation of [n >= 2] observations
    satisfies [n * z^2 <= (n - 1)^2]. *)
Lemma sample_z_bound (l : list R) (x sd : R) :
  In x l -> (2 <= length l)%nat ->
  sd = sqrt (Stats.sq_dev l / INR (length l - 1)) -> sd <> 0 ->
  INR (length l) * ((x - Stats.mean l) / sd * ((x - Stats.mean l) / sd))
  <= (INR (length l) - 1) * (INR (length l) - 1).
Proof.
  intros Hin Hlen Hsd Hnz.
  pose proof (deviation_bound l x Hin) as Hdev.
  pose proof (sq_dev_nonneg l) as HS.
  rewrite minus_INR in Hsd by lia. change (INR 1) with 1 in Hsd.
  assert (Hn : 2 <= INR (length l)).
  { change 2 with (INR 2). now apply le_INR. }
  set (n := INR (length l)) in *. set (S := Stats.sq_dev l) in *.
  set (d := x - Stats.mean l) in *.
  assert (Hq : 0 <= S / (n - 1)).
  { unfold Rdiv. apply Rmult_le_pos; [exact HS |].
    left. apply Rinv_0_lt_compat. lra. }
  assert (Hsq : sd * sd = S / (n - 1)) by (rewrite Hsd; now apply sqrt_sqrt).
  assert (Hsd2 : 0 < sd * sd) by nra.
  assert (HSpos : 0 < S).
  { assert (Hm : S = sd * sd * (n - 1)) by (rewrite Hsq; field; lra). nra. }
  replace (d / sd * (d / sd)) with (d * d / (sd * sd)) by (field; exact Hnz).
  rewrite Hsq.
  replace (n * (d * d / (S / (n - 1))))
    with (n * (d * d) * (n - 1) / S) by (field; lra).
  apply Rmult_le_reg_r with S; [exact HSpos |].
  replace (n * (d * d) * (n - 1) / S * S) with (n * (d * d) * (n - 1))
    by (field; lra).
  nra.
Qed.

(** ** What the two time-series detectors can never report *)

Section DetectorLimits.
Import Data Detectors.

(** X6.  The detector examines a building from 5 issues on, but a
    building with exactly 5 issues never yields a temporal anomaly: among
    its four gaps the population z-score of a gap has a square of at most 3,
    well inside the threshold of -2.  So nothing is reported for a building
    with fewer than 6 issues. *)
Theorem temporal_needs_six_issues (issues_df : list Issue) (b : string) :
  (length (issues_of issues_df b) < 6)%nat ->
  temporal_of_building issues_df b = Finite [].
Proof.
  intros Hlen. unfold temporal_of_building.
  destruct (_ <? 5)%nat; [reflexivity |].
  fold (gaps_of issues_df b). set (gaps := gaps_of issues_df b).
  destruct (_ <? 2)%nat; [reflexivity |].
  assert (Hn : (length gaps <= 4)%nat).
  { unfold gaps, gaps_of.
    rewrite inter_arrival_length, sort_length, length_map. lia. }
  destruct (Req_dec_T (Stats.np_std gaps) 0) as [Hz | Hnz].
  { rewrite Hz. apply temporal_scan_zero_std. }
  destruct (temporal_scan_nonzero b (Stats.mean gaps) (Stats.np_std gaps)
              Hnz gaps 0) as (out & Hrun & Hout).
  rewrite Hrun. f_equal.
  destruct out as [| a rest]; [reflexivity | exfalso].
  destruct (proj1 (Hout a) (or_introl eq_refl)) as (k & gap & Hk & Hlt & _).
  apply nth_error_In in Hk.
  pose proof (population_z_bound gaps gap Hk Hnz) as Hb.
  assert (Hn' : INR (length gaps) <= 4)
    by (apply le_INR in Hn; cbn in Hn; lra).
  nra.
Qed.

Lemma temporal_needs_six_issues_witness :
  (length (issues_of spike_issues "b1") < 6)%nat /\
  (5 <= length (issues_of spike_issues "b1"))%nat /\
  temporal_of_building spike_issues "b1" = Finite [].
Proof.
  assert (H6 : (length (issues_of spike_issues "b1") < 6)%nat)
    by (vm_compute; lia).
  split; [exact H6 |]. split; [vm_compute; lia |].
  exact (temporal_needs_six_issues spike_issues "b1" H6).
Defined.

(** The anomalies of one building, read off the loop over its days. *)
Lemma spikes_members (issues_df : list Issue) (window_days : nat)
    (threshold : R) (b : string) (out : list SpikeAnomaly)
    (a : SpikeAnomaly) :
  spikes_of_building issues_df window_days threshold b = inr out ->
  In a out ->
  exists (counts : list nat) (i : nat) (m sd : R),
    (window_days <= i)%nat /\
    (i + window_days < length counts)%nat /\
    rolling_mean window_days (map INR counts) i = Some m /\
    rolling_std window_days (map INR counts) i = Some sd /\
    sd <> 0 /\
    Rabs ((INR (nth i counts 0%nat) - m) / sd) > threshold /\
    spike_z_score a = (INR (nth i counts 0%nat) - m) / sd /\
    spike_severity a =
      (if Py.gtb (Rabs ((INR (nth i counts 0%nat) - m) / sd)) 3
       then CRITICAL else HIGH).
Proof.
  unfold spikes_of_building.
  destruct (_ <? window_days)%nat.
  { intros H. injection H as <-. intros []. }
  destruct (Stats.sort _) as [| first rest]; [discriminate |].
  cbv beta iota zeta.
  set (counts := daily_counts_of _ _).
  destruct (_ <? window_days * 2)%nat.
  { intros H. injection H as <-. intros []. }
  intros H. injection H as <-. intros Ha.
  apply in_flat_map in Ha. destruct Ha as (i & Hi & Ha).
  apply in_seq in Hi. apply spike_at_spec in Ha.
  destruct Ha as (m & sd & Hm & Hsd & Hnz & Hz & ->).
  exists counts, i, m, sd. cbn.
  repeat (split; [assumption || lia || reflexivity |]). reflexivity.
Qed.

Lemma window_holds_the_day (w : nat) (counts : list nat) (i : nat) :
  (1 <= w)%nat -> (w <= i)%nat -> (i + w < length counts)%nat ->
  In (INR (nth i counts 0%nat))
     (firstn w (skipn (i - w / 2) (map INR counts))).
Proof.
  intros Hw Hi Hn.
  pose proof (Nat.div_mod_eq w 2) as H1.
  pose proof (Nat.mod_upper_bound w 2 ltac:(lia)) as H2.
  set (h := (w / 2)%nat) in *.
  assert (Hnth : nth h (firstn w (skipn (i - h) (map INR counts))) 0
                 = INR (nth i counts 0%nat)).
  { rewrite nth_firstn.
    replace (h <? w)%nat with true by (symmetry; apply Nat.ltb_lt; lia).
    rewrite nth_skipn. replace (i - h + h)%nat with i by lia.
    apply nth_map_in. lia. }
  rewrite <- Hnth. apply nth_In.
  rewrite length_firstn, length_skipn, length_map. lia.
Qed.

(** Every reported spike exceeds the threshold, and its z-score is bounded
    by the window. *)
Lemma spikes_bound (issues_df : list Issue) (window_days : nat)
    (threshold : R) (b : string) (out : list SpikeAnomaly) :
  (1 <= window_days)%nat ->
  spikes_of_building issues_df window_days threshold b = inr out ->
  forall a, In a out ->
    INR window_days * (spike_z_score a * spike_z_score a)
    <= (INR window_days - 1) * (INR window_days - 1) /\
    Rabs (spike_z_score a) > threshold /\
    spike_severity a =
      (if Py.gtb (Rabs (spike_z_score a)) 3 then CRITICAL else HIGH).
Proof.
  intros Hw Hrun a Ha.
  destruct (spikes_members _ _ _ _ _ a Hrun Ha)
    as (counts & i & m & sd & Hi & Hn & Hm & Hsd & Hnz & Hz & Hzs & Hsev).
  destruct (rolling_interior window_days (map INR counts) i Hw Hi)
    as (Hmean & Hstd2 & Hstd1); [rewrite length_map; lia |].
  destruct (Nat.eq_dec window_days 1) as [H1 | H1].
  { rewrite (Hstd1 H1) in Hsd. discriminate. }
  rewrite Hstd2 in Hsd by lia. rewrite Hmean in Hm.
  injection Hm as <-. injection Hsd as Hsd. symmetry in Hsd.
  set (win := firstn window_days
                (skipn (i - window_days / 2) (map INR counts))) in *.
  assert (Hlen : length win = window_days).
  { unfold win. rewrite length_firstn, length_skipn, length_map. lia. }
  assert (Hsd' : sd = sqrt (Stats.sq_dev win / INR (length win - 1)))
    by (rewrite Hlen; exact Hsd).
  pose proof (sample_z_bound win (INR (nth i counts 0%nat)) sd
                (window_holds_the_day _ _ _ Hw Hi Hn) ltac:(lia) Hsd' Hnz)
    as Hb.
  rewrite Hlen in Hb. rewrite Hzs.
  split; [exact Hb |]. split; [exact Hz | exact Hsev].
Qed.

(** With a window of at most 10 days every reported spike is HIGH. *)
Lemma spikes_high_only (issues_df : list Issue) (window_days : nat)
    (threshold : R) (b : string) (out : list SpikeAnomaly) :
  (1 <= window_days <= 10)%nat ->
  spikes_of_building issues_df window_days threshold b = inr out ->
  forall a, In a out -> spike_severity a = HIGH.
Proof.
  intros [Hw H10] Hrun a Ha.
  destruct (spikes_bound _ _ _ _ _ Hw Hrun a Ha) as (Hb & _ & Hsev).
  rewrite Hsev.
  replace (Py.gtb (Rabs (spike_z_score a)) 3) with false; [reflexivity |].
  symmetry. apply Py_gtb_false.
  assert (Hw1 : 1 <= INR window_days)
    by (change 1 with (INR 1); now apply le_INR).
  assert (Hw10 : INR window_days <= 10)
    by (apply le_INR in H10; cbn in H10; lra).
  set (z := spike_z_score a) in *. set (n := INR window_days) in *.
  assert (Hz9 : z * z <= 9) by nra.
  unfold Rabs. destruct (Rcase_abs z); nra.
Qed.

(** X7.  With a window of at most 10 days, the default 7 among them,
    every reported spike has severity HIGH and CRITICAL is never assigned:
    a day's z-score within a window of [w] days cannot reach 3.  With a
    window of at most 5 days and a threshold of 2 or more nothing is ever
    reported. *)
Theorem spike_z_score_is_bounded (issues_df : list Issue) (window_days : nat)
    (threshold : R) (b : string) (out : list SpikeAnomaly) :
  (1 <= window_days)%nat ->
  spikes_of_building issues_df window_days threshold b = inr out ->
  ((window_days <= 10)%nat ->
   forall a, In a out ->
     spike_severity a = HIGH /\ Rabs (spike_z_score a) > threshold) /\
  ((window_days <= 5)%nat -> 2 <= threshold -> out = []).
Proof.
  intros Hw Hrun.
  split.
  - intros H10 a Ha. split.
    + apply (spikes_high_only _ _ _ _ _ (conj Hw H10) Hrun a Ha).
    + apply (spikes_bound _ _ _ _ _ Hw Hrun a Ha).
  - intros H5 Hthr. destruct out as [| a rest]; [reflexivity | exfalso].
    destruct (spikes_bound _ _ _ _ _ Hw Hrun a (or_introl eq_refl))
      as (Hb & Hz & _).
    assert (Hw1 : 1 <= INR window_days)
      by (change 1 with (INR 1); now apply le_INR).
    assert (Hw5 : INR window_days <= 5)
      by (apply le_INR in H5; cbn in H5; lra).
    set (z := spike_z_score a) in *. set (n := INR window_days) in *.
    assert (Hz4 : z * z < 4) by nra.
    unfold Rabs in Hz. destruct (Rcase_abs z); nra.
Qed.

End DetectorLimits.

Lemma spike_z_score_is_bounded_witness :
  (1 <= 3)%nat /\
  exists out,
    Detectors.spikes_of_building Detectors.spike_issues 3 1 "b1" = inr out /\
    out <> [] /\
    forall a, In a out -> Detectors.spike_severity a = Detectors.HIGH.
Proof.
  assert (Hw : (1 <= 3)%nat) by lia.
  split; [exact Hw |].
  destruct spike_issues_detected as (out & Hrun & Hin).
  exists out. split; [exact Hrun |].
  split; [intros ->; destruct Hin |].
  intros a Ha.
  exact (proj1 (proj1 (spike_z_score_is_bounded Detectors.spike_issues 3 1
                         "b1" out Hw Hrun) ltac:(lia) a Ha)).
Defined.

(** ** Construction and training of the two models *)

Section Construction.
Import Sklearn.
Context {sk : Backend}.
Local Open Scope string_scope.

(** X8.  [AnomalyDetectionModel] is built exactly for the algorithms
    "isolation_forest" and "one_class_svm", and [FailurePredictionModel]
    exactly for the model types "xgboost", "random_forest" and
    "gradient_boosting"; any other selector raises a [ValueError] that names
    it.  A model that is built holds an unfitted estimator of the selected
    kind. *)
Theorem constructors_check_their_selector (selector : string) (c : R) :
  ((selector = "isolation_forest" \/ selector = "one_class_svm") ->
   AnomalyDetectionModel.init selector c =
   inr (AnomalyDetectionModel.mk selector c (mkScaler None)
          (Some (mkDetector selector c None)) [])) /\
  (selector <> "isolation_forest" -> selector <> "one_class_svm" ->
   AnomalyDetectionModel.init selector c =
   inl (Py.ValueError ("Unknown algorithm: " ++ selector))) /\
  ((selector = "xgboost" \/ selector = "random_forest" \/
    selector = "gradient_boosting") ->
   FailurePredictionModel.init selector =
   inr (FailurePredictionModel.mk selector
          (Some (mkClassifier selector None)) (mkScaler None) [])) /\
  (selector <> "xgboost" -> selector <> "random_forest" ->
   selector <> "gradient_boosting" ->
   FailurePredictionModel.init selector =
   inl (Py.ValueError ("Unknown model type: " ++ selector))).
Proof.
  unfold AnomalyDetectionModel.init, FailurePredictionModel.init,
    FailurePredictionModel._initialize_model. cbn.
  repeat split.
  - intros [-> | ->]; reflexivity.
  - intros H1 H2.
    apply String.eqb_neq in H1, H2. now rewrite H1, H2.
  - intros [-> | [-> | ->]]; reflexivity.
  - intros H1 H2 H3.
    apply String.eqb_neq in H1, H2, H3. now rewrite H1, H2, H3.
Qed.

(** The classifier [_initialize_model] builds. *)
Lemma failure_init_classifier (model_type : string)
    (self : FailurePredictionModel.t) :
  FailurePredictionModel.init model_type = inr self ->
  FailurePredictionModel.classifier self
  = Some (mkClassifier model_type None).
Proof.
  unfold FailurePredictionModel.init, FailurePredictionModel._initialize_model.
  cbn.
  destruct (String.eqb model_type "xgboost");
    [| destruct (String.eqb model_type "random_forest");
       [| destruct (String.eqb model_type "gradient_boosting");
          [| discriminate]]];
    intros H; injection H as <-; reflexivity.
Qed.

(** X9.  Training makes a model ready.  A [train] that returns was given
    a table with at least one row and leaves the scaler and the estimator
    fitted on it: [detect_anomalies] then never raises the not-fitted
    error, and [predict_failure_risk] on the training table returns the
    labels and probabilities that [train] itself computed.
    [FailurePredictionModel.train] computes those probabilities before it
    returns, outside its [try] block: when the fitted classifier has no
    class-1 probabilities for the training table, [train] raises that
    error; an undefined area under the curve is reported as 0.  Training
    on a table without rows raises a [ValueError]. *)
Theorem training_makes_models_ready
    (algorithm model_type : string) (c : R)
    (anomaly_model : AnomalyDetectionModel.t)
    (failure_model : FailurePredictionModel.t)
    (cols : list string) (X : Matrix) (y : list Z) :
  AnomalyDetectionModel.init algorithm c = inr anomaly_model ->
  FailurePredictionModel.init model_type = inr failure_model ->
  let X_scaled := scaler_apply (scaler_fit X) X in
  (forall anomaly_trained,
     AnomalyDetectionModel.train anomaly_model cols X = inr anomaly_trained ->
     X <> [] /\
     scaler_state (AnomalyDetectionModel.scaler anomaly_trained)
       = Some (scaler_fit X) /\
     (exists d f,
        AnomalyDetectionModel.model anomaly_trained = Some d /\
        detector_state d = Some f) /\
     forall X',
       AnomalyDetectionModel.detect_anomalies anomaly_trained X'
       <> inl Py.NotFittedError) /\
  (forall failure_trained metrics,
     FailurePredictionModel.train failure_model X y
       = inr (failure_trained, metrics) ->
     X <> [] /\
     scaler_state (FailurePredictionModel.scaler failure_trained)
       = Some (scaler_fit X) /\
     exists f probs,
       classifier_fit model_type X_scaled y = inr f /\
       classifier_predict_proba f X_scaled = inr probs /\
       FailurePredictionModel.classifier failure_trained
         = Some (mkClassifier model_type (Some f)) /\
       FailurePredictionModel.predict_failure_risk failure_trained X
         = inr (classifier_predict f X_scaled, probs) /\
       (forall msg, roc_auc_score y probs = inl (Py.ValueError msg) ->
                    FailurePredictionModel.train_auc metrics = 0)) /\
  (forall f e,
     X <> [] ->
     classifier_fit model_type X_scaled y = inr f ->
     classifier_predict_proba f X_scaled = inl e ->
     FailurePredictionModel.train failure_model X y = inl e) /\
  (exists msg,
     AnomalyDetectionModel.train anomaly_model cols [] =
       inl (Py.ValueError msg) /\
     FailurePredictionModel.train failure_model [] y =
       inl (Py.ValueError msg)).
Proof.
  intros Ha Hf X_scaled.
  destruct (anomaly_init_unfitted _ _ _ Ha) as (_ & d & Hd & _).
  pose proof (failure_init_classifier _ _ Hf) as Hc.
  split; [| split; [| split]].
  - intros anomaly_trained Hta.
    destruct X as [| row rows]; [discriminate |].
    unfold AnomalyDetectionModel.train, fit_transform, check_array in Hta.
    cbn in Hta. rewrite Hd in Hta. injection Hta as <-.
    split; [discriminate |]. split; [reflexivity |].
    split; [eexists; eexists; split; reflexivity |].
    intros X'.
    unfold AnomalyDetectionModel.detect_anomalies, transform, check_array,
      predict, score_samples. cbn.
    destruct X' as [| row' rows']; [discriminate |]. cbn.
    destruct (Stats.np_min _) as [e | lo] eqn:Emin.
    { unfold Stats.np_min in Emin.
      destruct (detector_score_samples _ _); [| discriminate].
      injection Emin as <-. discriminate. }
    cbn.
    destruct (Stats.np_max _) as [e | hi] eqn:Emax.
    { unfold Stats.np_max in Emax.
      destruct (detector_score_samples _ _); [| discriminate].
      injection Emax as <-. discriminate. }
    discriminate.
  - intros failure_trained metrics Htf.
    destruct X as [| row rows]; [discriminate |].
    unfold FailurePredictionModel.train, fit_transform, check_array in Htf.
    cbn in Htf. rewrite Hc in Htf.
    unfold classifier_fitted in Htf. cbn in Htf.
    fold X_scaled in Htf.
    destruct (classifier_fit model_type X_scaled y) as [e | f] eqn:Efit;
      [discriminate |].
    cbn in Htf. unfold clf_predict_proba in Htf. cbn in Htf.
    destruct (classifier_predict_proba f X_scaled) as [e | probs] eqn:Eproba;
      [discriminate |].
    cbn in Htf.
    destruct (FailurePredictionModel.training_metrics y _ probs)
      as [e | m] eqn:Em; [discriminate |].
    cbn in Htf. injection Htf as <- <-.
    split; [discriminate |]. split; [reflexivity |].
    exists f, probs.
    split; [reflexivity |]. split; [exact Eproba |]. split; [reflexivity |].
    split.
    + unfold FailurePredictionModel.predict_failure_risk, transform,
        check_array, clf_predict, clf_predict_proba. cbn.
      fold X_scaled. rewrite Eproba. reflexivity.
    + intros msg Hauc.
      unfold FailurePredictionModel.training_metrics in Em.
      destruct (f1_score y _) as [e | f1]; [discriminate |].
      cbn in Em. rewrite Hauc in Em. injection Em as <-. reflexivity.
  - intros f e HX Hfit Hproba.
    destruct X as [| row rows]; [easy |].
    unfold FailurePredictionModel.train, fit_transform, check_array.
    cbn. rewrite Hc. unfold classifier_fitted. cbn.
    fold X_scaled. rewrite Hfit. cbn.
    unfold clf_predict_proba. cbn. rewrite Hproba. reflexivity.
  - eexists. split; reflexivity.
Qed.

End Construction.

Lemma training_makes_models_ready_witness :
  let sk := first_feature_backend in
  exists anomaly_model failure_model failure_trained metrics,
    AnomalyDetectionModel.init "one_class_svm" (1/10) = inr anomaly_model /\
    FailurePredictionModel.init "random_forest" = inr failure_model /\
    FailurePredictionModel.train failure_model [[1]; [2]] [0; 1]%Z
      = inr (failure_trained, metrics) /\
    FailurePredictionModel.predict_failure_risk failure_trained [[1]; [2]]
      = inr ([1%Z; 1%Z], [1; 2]) /\
    FailurePredictionModel.train failure_model [[1]; [2]] [0; 0]%Z
      = inl Py.IndexError.
Proof.
  intros sk.
  eexists. eexists. eexists. eexists.
  split; [reflexivity |]. split; [reflexivity |].
  assert (Htrain : FailurePredictionModel.train
                     (FailurePredictionModel.mk "random_forest"%string
                        (Some (Sklearn.mkClassifier "random_forest"%string None))
                        (Sklearn.mkScaler None) [])
                     [[1]; [2]] [0; 1]%Z
                   = inr (FailurePredictionModel.mk "random_forest"%string
                            (Some (Sklearn.mkClassifier "random_forest"%string
                                     (Some true)))
                            (Sklearn.mkScaler (Some tt)) [],
                          FailurePredictionModel.mkMetrics 0 (1/2)))
    by reflexivity.
  split; [exact Htrain |].
  pose proof (training_makes_models_ready (sk := sk)
                "one_class_svm" "random_forest" (1/10) _ _
                ["f"%string] [[1]; [2]] [0; 1]%Z eq_refl eq_refl)
    as (_ & Hready & _).
  destruct (Hready _ _ Htrain) as (_ & _ & f & probs & Hfit & Hproba & _ & Hrun & _).
  injection Hfit as <-. injection Hproba as <-.
  split; [exact Hrun |].
  pose proof (training_makes_models_ready (sk := sk)
                "one_class_svm" "random_forest" (1/10) _ _
                ["f"%string] [[1]; [2]] [0; 0]%Z eq_refl eq_refl)
    as (_ & _ & Hraise & _).
  apply (Hraise false Py.IndexError); [discriminate | reflexivity | reflexivity].
Defined.

Lemma constructors_check_their_selector_witness :
  let sk := first_feature_backend in
  ("kmeans" <> "isolation_forest" /\ "kmeans" <> "one_class_svm")%string /\
  AnomalyDetectionModel.init "kmeans" (1/10) =
  inl (Py.ValueError "Unknown algorithm: kmeans") /\
  exists self, FailurePredictionModel.init "xgboost" = inr self.
Proof.
  intros sk.
  assert (H1 : ("kmeans" <> "isolation_forest")%string) by discriminate.
  assert (H2 : ("kmeans" <> "one_class_svm")%string) by discriminate.
  split; [split; [exact H1 | exact H2] |].
  split.
  - exact (proj1 (proj2 (constructors_check_their_selector (sk := sk)
                           "kmeans" (1/10))) H1 H2).
  - eexists.
    exact (proj1 (proj2 (proj2 (constructors_check_their_selector (sk := sk)
                                  "xgboost" 0))) (or_introl eq_refl)).
Defined.

(** ** The responses of the anomaly endpoints *)

Section SortedDesc.
Import Endpoints.
Context {A : Type} (key : A -> R).

Lemma insert_desc_In (x y : A) (l : list A) :
  In y (insert_desc key x l) <-> y = x \/ In y l.
Proof.
  induction l as [| z tl IH]; cbn.
  - intuition.
  - destruct (Py.ltb (key x) (key z)); cbn; [rewrite IH |]; intuition.
Qed.

Lemma sorted_desc_In (y : A) (l : list A) :
  In y (sorted_desc key l) <-> In y l.
Proof.
  unfold sorted_desc. induction l as [| x tl IH]; cbn; [reflexivity |].
  rewrite insert_desc_In, IH. intuition.
Qed.

Lemma insert_desc_filter_length (f : A -> bool) (x : A) (l : list A) :
  length (filter f (insert_desc key x l)) = length (filter f (x :: l)).
Proof.
  induction l as [| z tl IH]; [reflexivity |].
  cbn [insert_desc]. destruct (Py.ltb (key x) (key z)); [| reflexivity].
  cbn [filter] in *. destruct (f z), (f x); cbn [length] in *; lia.
Qed.

Lemma sorted_desc_filter_length (f : A -> bool) (l : list A) :
  length (filter f (sorted_desc key l)) = length (filter f l).
Proof.
  unfold sorted_desc. induction l as [| x tl IH]; [reflexivity |].
  cbn [fold_right]. rewrite insert_desc_filter_length.
  cbn [filter]. destruct (f x); cbn [length]; now rewrite IH.
Qed.

Lemma insert_desc_length (x : A) (l : list A) :
  length (insert_desc key x l) = S (length l).
Proof.
  induction l as [| z tl IH]; cbn; [reflexivity |].
  destruct (Py.ltb (key x) (key z)); cbn; [now rewrite IH | reflexivity].
Qed.

Lemma sorted_desc_length (l : list A) :
  length (sorted_desc key l) = length l.
Proof.
  unfold sorted_desc. induction l as [| x tl IH]; cbn; [reflexivity |].
  now rewrite insert_desc_length, IH.
Qed.

Lemma insert_desc_sorted (x : A) (l : list A) :
  StronglySorted (fun a b => key b <= key a) l ->
  StronglySorted (fun a b => key b <= key a) (insert_desc key x l).
Proof.
  induction 1 as [| z tl Hs IH Hall]; cbn.
  - constructor; constructor.
  - destruct (Py.ltb (key x) (key z)) eqn:E.
    + apply Py_ltb_spec in E. constructor; [exact IH |].
      apply Forall_forall. intros y Hy. apply insert_desc_In in Hy.
      destruct Hy as [-> | Hy]; [lra |].
      rewrite Forall_forall in Hall. now apply Hall.
    + apply Py_ltb_false in E. constructor.
      * constructor; assumption.
      * constructor; [exact E |].
        eapply Forall_impl; [| exact Hall]. cbn. intros; lra.
Qed.

Lemma sorted_desc_sorted (l : list A) :
  StronglySorted (fun a b => key b <= key a) (sorted_desc key l).
Proof.
  unfold sorted_desc. induction l as [| x tl IH]; cbn.
  - constructor.
  - now apply insert_desc_sorted.
Qed.

End SortedDesc.

Section AnomalyResponses.
Import Sklearn Endpoints.

Lemma anomalies_from_bands (e a b : list R) (ids : list string) :
  forall (i : nat) (out : list AnomalyEndpoint.Anomaly),
    AnomalyEndpoint.anomalies_from e a b i ids = inr out ->
    (length out <= length ids)%nat /\
    forall x, In x out ->
      In (AnomalyEndpoint.building_id x) ids /\
      AnomalyEndpoint.anomaly_severity x =
        (if Py.geb (AnomalyEndpoint.anomaly_probability x) (8/10)
         then Detectors.CRITICAL
         else if Py.geb (AnomalyEndpoint.anomaly_probability x) (6/10)
              then Detectors.HIGH else Detectors.MEDIUM).
Proof.
  induction ids as [| id0 rest IH]; intros i out Hrun.
  - cbn in Hrun. injection Hrun as <-. split; [cbn; lia | intros x []].
  - cbn in Hrun.
    destruct (AnomalyEndpoint.item e i) as [err | v]; [discriminate |].
    cbn in Hrun.
    destruct (Py.gtb v (4/10)).
    + destruct (AnomalyEndpoint.item a i) as [err | p]; [discriminate |].
      cbn in Hrun.
      destruct (AnomalyEndpoint.item b i) as [err | q]; [discriminate |].
      cbn in Hrun.
      destruct (AnomalyEndpoint.anomalies_from e a b (S i) rest)
        as [err | found] eqn:Ef; [discriminate |].
      cbn in Hrun. injection Hrun as <-.
      destruct (IH _ _ Ef) as [Hlen Hall].
      split; [cbn; lia |].
      intros x [<- | Hx].
      * cbn. split; [now left | reflexivity].
      * destruct (Hall x Hx) as [Hin Hsev]. split; [now right | exact Hsev].
    + destruct (IH _ _ Hrun) as [Hlen Hall].
      split; [cbn; lia |].
      intros x Hx. destruct (Hall x Hx) as [Hin Hsev].
      split; [now right | exact Hsev].
Qed.

Lemma count_severity_three (l : list Detectors.Severity) :
  (forall s, In s l -> s <> Detectors.LOW) ->
  (count_severity Detectors.CRITICAL l + count_severity Detectors.HIGH l
   + count_severity Detectors.MEDIUM l = length l)%nat.
Proof.
  unfold count_severity. induction l as [| s tl IH]; intros H; [reflexivity |].
  assert (Hs : s <> Detectors.LOW) by (apply H; now left).
  specialize (IH (fun s' Hs' => H s' (or_intror Hs'))).
  destruct s; [easy | | |]; cbn [filter length] in *; lia.
Qed.

Lemma count_severity_absent (s : Detectors.Severity)
    (l : list Detectors.Severity) :
  (forall s', In s' l -> s' <> s) -> count_severity s l = 0%nat.
Proof.
  unfold count_severity. induction l as [| x tl IH]; intros H; [reflexivity |].
  assert (Hx : x <> s) by (apply H; now left).
  specialize (IH (fun s' Hs' => H s' (or_intror Hs'))).
  cbn [filter]. destruct x, s; try easy; exact IH.
Qed.

Lemma count_severity_all (s : Detectors.Severity)
    (l : list Detectors.Severity) :
  (forall s', In s' l -> s' = s) -> count_severity s l = length l.
Proof.
  unfold count_severity. induction l as [| x tl IH]; intros H; [reflexivity |].
  assert (Hx : x = s) by (apply H; now left).
  specialize (IH (fun s' Hs' => H s' (or_intror Hs'))).
  subst x. cbn [filter]. destruct s; cbn [length]; now rewrite IH.
Qed.

Context {sk : Backend}.

(** X10.  A successful [get_anomalies] response lists the anomalies by
    decreasing probability; each has a probability above 0.4 that is the
    mean of its two detector probabilities, belongs to a building of the
    feature table, and has severity CRITICAL from 0.8 on, HIGH on
    [0.6,0.8) and MEDIUM below 0.6, never LOW; [total_anomalies] is the
    length of the list, equals the sum of the three severity counts and is
    at most the number of buildings. *)
Theorem get_anomalies_response_spec
    (model_if model_svm : AnomalyDetectionModel.t) (ids : list string)
    (X : Matrix) (payload : AnomaliesPayload) :
  get_anomalies (Some model_if) (Some model_svm) ids X = Success payload ->
  StronglySorted
    (fun x y => AnomalyEndpoint.anomaly_probability y
                <= AnomalyEndpoint.anomaly_probability x)
    (anomalies payload) /\
  (forall x, In x (anomalies payload) ->
     let p := AnomalyEndpoint.anomaly_probability x in
     p > 4/10 /\
     p = (AnomalyEndpoint.if_probability x
          + AnomalyEndpoint.svm_probability x) / 2 /\
     In (AnomalyEndpoint.building_id x) ids /\
     (AnomalyEndpoint.anomaly_severity x = Detectors.CRITICAL <-> p >= 8/10) /\
     (AnomalyEndpoint.anomaly_severity x = Detectors.HIGH
      <-> 6/10 <= p < 8/10) /\
     (AnomalyEndpoint.anomaly_severity x = Detectors.MEDIUM <-> p < 6/10) /\
     AnomalyEndpoint.anomaly_severity x <> Detectors.LOW) /\
  total_anomalies payload = length (anomalies payload) /\
  (critical_count payload + high_count payload + medium_count payload
   = total_anomalies payload)%nat /\
  (total_anomalies payload <= length ids)%nat.
Proof.
  unfold get_anomalies. intros Hrun.
  destruct (AnomalyEndpoint.get_anomalies model_if model_svm ids X)
    as [err | found] eqn:Ef; [discriminate |].
  injection Hrun as <-. cbn.
  pose proof (get_anomalies_mean _ _ _ _ _ Ef) as Hmean.
  assert (Hfrom : (length found <= length ids)%nat /\
            forall x, In x found ->
              AnomalyEndpoint.anomaly_probability x > 4/10 /\
              In (AnomalyEndpoint.building_id x) ids /\
              AnomalyEndpoint.anomaly_severity x =
                (if Py.geb (AnomalyEndpoint.anomaly_probability x) (8/10)
                 then Detectors.CRITICAL
                 else if Py.geb (AnomalyEndpoint.anomaly_probability x) (6/10)
                      then Detectors.HIGH else Detectors.MEDIUM)).
  { unfold AnomalyEndpoint.get_anomalies in Ef.
    destruct (AnomalyDetectionModel.detect_anomalies model_if X)
      as [err | [[pa sa] a]]; [discriminate |].
    cbn in Ef.
    destruct (AnomalyDetectionModel.detect_anomalies model_svm X)
      as [err | [[pb sb] b]]; [discriminate |].
    cbn in Ef.
    destruct (AnomalyEndpoint.ensemble a b) as [err | e] eqn:He;
      [discriminate |].
    cbn in Ef.
    destruct (anomalies_from_bands _ _ _ _ _ _ Ef) as [Hlen Hall].
    split; [exact Hlen |]. intros x Hx.
    destruct (Hall x Hx) as [Hin Hsev].
    destruct (anomalies_from_mean _ _ _ _ He _ _ Ef x Hx) as [_ Hgt].
    auto. }
  destruct Hfrom as [Hlen Hall].
  assert (Hmember : forall x,
            In x (sorted_desc AnomalyEndpoint.anomaly_probability found) ->
            In x found) by (intros x; apply sorted_desc_In).
  split; [apply sorted_desc_sorted |].
  split; [| split; [reflexivity | split]].
  - intros x Hx. apply Hmember in Hx.
    destruct (Hall x Hx) as (Hgt & Hin & Hsev).
    split; [exact Hgt |]. split; [apply Hmean; exact Hx |].
    split; [exact Hin |]. rewrite Hsev.
    destruct (Py.geb (AnomalyEndpoint.anomaly_probability x) (8/10)) eqn:E1.
    { apply Py_geb_spec in E1.
      repeat split; try discriminate; try (intros; lra); auto. }
    apply Py_geb_false in E1.
    destruct (Py.geb (AnomalyEndpoint.anomaly_probability x) (6/10)) eqn:E2.
    { apply Py_geb_spec in E2.
      repeat split; try discriminate; try (intros; lra); auto. }
    apply Py_geb_false in E2.
    repeat split; try discriminate; try (intros; lra); auto.
  - rewrite <- (length_map AnomalyEndpoint.anomaly_severity
                  (sorted_desc AnomalyEndpoint.anomaly_probability found)).
    apply count_severity_three. intros s Hs.
    apply in_map_iff in Hs. destruct Hs as (x & <- & Hx).
    apply Hmember in Hx. destruct (Hall x Hx) as (_ & _ & Hsev).
    rewrite Hsev.
    destruct (Py.geb _ (8/10)); [discriminate |].
    destruct (Py.geb _ (6/10)); discriminate.
  - rewrite sorted_desc_length. exact Hlen.
Qed.

(** X11.  With a loaded model [get_spike_anomalies] always succeeds.  It
    calls the detector with a window of 7 days, for which no spike can be
    CRITICAL: [critical_spikes] is always 0 and [high_spikes] equals
    [total_spikes], the number of spikes listed. *)
Theorem get_spike_anomalies_response_spec
    (model_if : AnomalyDetectionModel.t) (issues_df : list Data.Issue)
    (buildings_df : list Data.Building) :
  exists payload,
    get_spike_anomalies (Some model_if) issues_df buildings_df
      = Success payload /\
    critical_spikes payload = 0%nat /\
    high_spikes payload = total_spikes payload /\
    total_spikes payload = length (spike_anomalies payload) /\
    forall a, In a (spike_anomalies payload) ->
      Detectors.spike_severity a = Detectors.HIGH /\
      Rabs (Detectors.spike_z_score a) > 2.
Proof.
  unfold get_spike_anomalies.
  assert (H7 : (1 <= 7)%nat) by (repeat constructor).
  assert (H710 : (1 <= 7 <= 10)%nat) by (split; repeat constructor).
  destruct (detect_spike_anomalies_total issues_df buildings_df 7 2 H7)
    as (out & Hrun & Hout).
  rewrite Hrun. eexists. split; [reflexivity |]. cbn.
  assert (Hhigh : forall a, In a out ->
            Detectors.spike_severity a = Detectors.HIGH /\
            Rabs (Detectors.spike_z_score a) > 2).
  { intros a Ha. apply Hout in Ha.
    destruct Ha as (bld & found & _ & Hfound & Ha).
    split.
    - apply (spikes_high_only _ _ _ _ _ H710 Hfound a Ha).
    - apply (spikes_bound _ _ _ _ _ H7 Hfound a Ha). }
  split; [| split; [| split; [reflexivity | exact Hhigh]]].
  - apply count_severity_absent. intros s Hs.
    apply in_map_iff in Hs. destruct Hs as (a & <- & Ha).
    rewrite (proj1 (Hhigh a Ha)). discriminate.
  - rewrite <- (length_map Detectors.spike_severity out).
    apply count_severity_all. intros s Hs.
    apply in_map_iff in Hs. destruct Hs as (a & <- & Ha).
    apply (proj1 (Hhigh a Ha)).
Qed.

End AnomalyResponses.

Section AnomalyResponseRuns.
Import Sklearn Endpoints.
Context {sk : Backend}.

Lemma detect_anomalies_returns (self : AnomalyDetectionModel.t) (X : Matrix)
    (p : ScalerParams) (d : Detector) (f : FittedDetector) :
  scaler_state (AnomalyDetectionModel.scaler self) = Some p ->
  AnomalyDetectionModel.model self = Some d ->
  detector_state d = Some f ->
  X <> [] ->
  detector_score_samples f (scaler_apply p X) <> [] ->
  exists probs,
    AnomalyDetectionModel.detect_anomalies self X =
    inr (detector_predict f (scaler_apply p X),
         detector_score_samples f (scaler_apply p X), probs) /\
    length probs = length (detector_score_samples f (scaler_apply p X)).
Proof.
  intros Hsc Hm Hd HX Hs.
  unfold AnomalyDetectionModel.detect_anomalies, transform, check_array,
    predict, score_samples.
  rewrite Hm, Hsc, Hd. destruct X as [| row rows]; [easy |]. cbn.
  destruct (np_min_spec _ Hs) as (lo & Hlo & _).
  destruct (np_max_spec _ Hs) as (hi & Hhi & _).
  rewrite Hlo, Hhi. cbn.
  destruct (Py.gtb (hi - lo) 0); eexists; (split; [reflexivity |]);
    apply length_map.
Qed.

Lemma anomalies_from_returns (e a b : list R) (ids : list string) :
  forall i,
    (i + length ids <= length e)%nat ->
    (i + length ids <= length a)%nat ->
    (i + length ids <= length b)%nat ->
    exists out, AnomalyEndpoint.anomalies_from e a b i ids = inr out.
Proof.
  assert (Hitem : forall (l : list R) (i : nat),
            (i < length l)%nat -> exists v, AnomalyEndpoint.item l i = inr v).
  { intros l i Hi. unfold AnomalyEndpoint.item.
    destruct (nth_error l i) eqn:E; [now eexists |].
    apply nth_error_None in E. lia. }
  induction ids as [| id0 rest IH]; intros i He Ha Hb; cbn in *.
  - now eexists.
  - destruct (Hitem e i ltac:(lia)) as (v & ->).
    destruct (Hitem a i ltac:(lia)) as (p & ->).
    destruct (Hitem b i ltac:(lia)) as (q & ->).
    destruct (IH (S i) ltac:(lia) ltac:(lia) ltac:(lia)) as (found & ->).
    cbn. destruct (Py.gtb v (4/10)); now eexists.
Qed.

(** With both models fitted, the endpoint succeeds on every feature table
    that has at least one row and for which each detector gives one score
    per building. *)
Lemma get_anomalies_succeeds
    (model_if model_svm : AnomalyDetectionModel.t) (ids : list string)
    (X : Matrix) (p p' : ScalerParams) (d d' : Detector)
    (f f' : FittedDetector) :
  scaler_state (AnomalyDetectionModel.scaler model_if) = Some p ->
  AnomalyDetectionModel.model model_if = Some d ->
  detector_state d = Some f ->
  scaler_state (AnomalyDetectionModel.scaler model_svm) = Some p' ->
  AnomalyDetectionModel.model model_svm = Some d' ->
  detector_state d' = Some f' ->
  X <> [] ->
  length (detector_score_samples f (scaler_apply p X)) = length X ->
  length (detector_score_samples f' (scaler_apply p' X)) = length X ->
  length ids = length X ->
  exists payload,
    get_anomalies (Some model_if) (Some model_svm) ids X = Success payload.
Proof.
  intros Hsc Hm Hd Hsc' Hm' Hd' HX Hl Hl' Hids.
  assert (Hpos : (0 < length X)%nat) by (destruct X; [easy | cbn; lia]).
  destruct (detect_anomalies_returns model_if X p d f Hsc Hm Hd HX)
    as (a & Ha & Hla).
  { intros E. rewrite E in Hl. cbn in Hl. lia. }
  destruct (detect_anomalies_returns model_svm X p' d' f' Hsc' Hm' Hd' HX)
    as (b & Hb & Hlb).
  { intros E. rewrite E in Hl'. cbn in Hl'. lia. }
  unfold get_anomalies, AnomalyEndpoint.get_anomalies.
  rewrite Ha, Hb. cbn.
  unfold AnomalyEndpoint.ensemble.
  replace (length a =? length b)%nat with true
    by (symmetry; apply Nat.eqb_eq; lia).
  cbn.
  destruct (anomalies_from_returns
              (map (fun '(p, q) => (p + q) / 2) (combine a b)) a b ids 0)
    as (found & ->); [| lia | lia |].
  - rewrite length_map, length_combine. lia.
  - now eexists.
Qed.

End AnomalyResponseRuns.

Lemma get_anomalies_response_spec_witness :
  let sk := first_feature_backend in
  let model :=
    AnomalyDetectionModel.mk "isolation_forest" (1/10)
      (Sklearn.mkScaler (Some tt))
      (Some (Sklearn.mkDetector "isolation_forest" (1/10) (Some tt))) [] in
  exists payload,
    Endpoints.get_anomalies (Some model) (Some model)
      ["b1"; "b2"; "b3"]%string [[1]; [3]; [2]] = Endpoints.Success payload /\
    (Endpoints.total_anomalies payload <= 3)%nat.
Proof.
  intros sk model.
  destruct (get_anomalies_succeeds (sk := sk) model model
              ["b1"; "b2"; "b3"]%string [[1]; [3]; [2]] tt tt _ _ tt tt
              eq_refl eq_refl eq_refl eq_refl eq_refl eq_refl
              ltac:(discriminate) eq_refl eq_refl eq_refl)
    as (payload & Hrun).
  exists payload. split; [exact Hrun |].
  exact (proj2 (proj2 (proj2 (proj2
           (get_anomalies_response_spec (sk := sk) model model _ _ payload
              Hrun))))).
Defined.

Section TemporalResponse.
Import Sklearn Endpoints Detectors.

Lemma temporal_members (issues_df : list Data.Issue) (b : string)
    (out : list TemporalAnomaly) (a : TemporalAnomaly) :
  temporal_of_building issues_df b = Finite out ->
  In a out ->
  temporal_z_score a < -2 /\
  temporal_severity a =
    (if Py.ltb (temporal_z_score a) (-3) then HIGH else MEDIUM).
Proof.
  unfold temporal_of_building.
  destruct (_ <? 5)%nat; [intros H; injection H as <-; intros [] |].
  destruct (_ <? 2)%nat; [intros H; injection H as <-; intros [] |].
  set (gaps := inter_arrival _).
  destruct (Req_dec_T (Stats.np_std gaps) 0) as [Hz | Hnz].
  { rewrite Hz, temporal_scan_zero_std. intros H; injection H as <-.
    intros []. }
  destruct (temporal_scan_nonzero b (Stats.mean gaps) (Stats.np_std gaps)
              Hnz gaps 0) as (out' & Hrun & Hout).
  rewrite Hrun. intros H. injection H as <-. intros Ha.
  apply Hout in Ha. destruct Ha as (k & gap & _ & Hlt & ->). cbn. auto.
Qed.

Lemma detect_temporal_members (issues_df : list Data.Issue)
    (ids : list string) (out : list TemporalAnomaly) (a : TemporalAnomaly) :
  detect_temporal_anomalies_ids issues_df ids = Finite out ->
  In a out ->
  exists b found,
    In b ids /\ temporal_of_building issues_df b = Finite found /\
    In a found.
Proof.
  revert out. induction ids as [| b rest IH]; intros out Hrun Ha; cbn in Hrun.
  - injection Hrun as <-. destruct Ha.
  - destruct (temporal_of_building issues_df b) as [xs |] eqn:Ex;
      [| discriminate].
    destruct (detect_temporal_anomalies_ids issues_df rest) as [ys |] eqn:Ey;
      [| discriminate].
    injection Hrun as <-. apply in_app_iff in Ha. destruct Ha as [Ha | Ha].
    + exists b, xs. split; [now left | auto].
    + destruct (IH ys eq_refl Ha) as (b' & found & Hin & Hf & Hm).
      exists b', found. split; [now right | auto].
Qed.

Context {sk : Backend}.

(** X12.  With a loaded model [get_temporal_anomalies] always succeeds.
    Every listed anomaly has a z-score below -2 and severity HIGH (exactly
    when the z-score is below -3) or MEDIUM: the [critical_anomalies] field
    of the response, which counts severity CRITICAL, is always 0, and
    [high_anomalies] never exceeds the total. *)
Theorem get_temporal_anomalies_response_spec
    (model_if : AnomalyDetectionModel.t) (issues_df : list Data.Issue)
    (buildings_df : list Data.Building) :
  exists payload,
    get_temporal_anomalies (Some model_if) issues_df buildings_df
      = Success payload /\
    detect_temporal_anomalies issues_df buildings_df
      = Finite (temporal_anomalies payload) /\
    critical_anomalies payload = 0%nat /\
    total_temporal payload = length (temporal_anomalies payload) /\
    (high_anomalies payload <= total_temporal payload)%nat /\
    forall a, In a (temporal_anomalies payload) ->
      temporal_z_score a < -2 /\
      (temporal_severity a = HIGH <-> temporal_z_score a < -3) /\
      (temporal_severity a = MEDIUM <-> -3 <= temporal_z_score a).
Proof.
  unfold get_temporal_anomalies.
  destruct (detect_temporal_anomalies_finite issues_df buildings_df)
    as (out & Hrun).
  rewrite Hrun. eexists. split; [reflexivity |]. cbn.
  assert (Hall : forall a, In a out ->
            temporal_z_score a < -2 /\
            temporal_severity a =
              (if Py.ltb (temporal_z_score a) (-3) then HIGH else MEDIUM)).
  { intros a Ha.
    destruct (detect_temporal_members _ _ _ a Hrun Ha)
      as (b & found & _ & Hf & Hm).
    apply (temporal_members _ _ _ _ Hf Hm). }
  split; [reflexivity |]. split; [| split; [reflexivity | split]].
  - apply count_severity_absent. intros s Hs.
    apply in_map_iff in Hs. destruct Hs as (a & <- & Ha).
    rewrite (proj2 (Hall a Ha)).
    destruct (Py.ltb _ _); discriminate.
  - rewrite <- (length_map temporal_severity out).
    unfold count_severity. apply filter_length_le.
  - intros a Ha. destruct (Hall a Ha) as [Hz Hsev].
    split; [exact Hz |]. rewrite Hsev.
    destruct (Py.ltb (temporal_z_score a) (-3)) eqn:E.
    + apply Py_ltb_spec in E.
      split; split; try discriminate; try (intros; lra); auto.
    + apply Py_ltb_false in E.
      split; split; try discriminate; try (intros; lra); auto.
Qed.

End TemporalResponse.

Section AnomalyMap.
Import Sklearn Endpoints RiskProbabilityModel.

Lemma anomaly_map_from_lookup (listed : list AnomalyEndpoint.Anomaly) :
  forall (m : string -> option R) (b : string) (p : R),
    anomaly_map_from listed m b = Some p ->
    m b = Some p \/
    exists a, In a listed /\ AnomalyEndpoint.anomaly_probability a = p.
Proof.
  induction listed as [| a rest IH]; intros m b p H; cbn in H; [now left |].
  destruct (negb (String.eqb (AnomalyEndpoint.building_id a) "")
            && negb (Py.eqb (AnomalyEndpoint.anomaly_probability a) 0)).
  - apply IH in H. destruct H as [H | (a' & Ha' & Hp)].
    + destruct (String.eqb b (AnomalyEndpoint.building_id a)).
      * injection H as <-. right. exists a. split; [now left | reflexivity].
      * now left.
    + right. exists a'. split; [now right | exact Hp].
  - apply IH in H. destruct H as [H | (a' & Ha' & Hp)]; [now left |].
    right. exists a'. split; [now right | exact Hp].
Qed.

Context {sk : Backend}.

Lemma listed_anomalies_above
    (anomaly_if anomaly_svm : option AnomalyDetectionModel.t)
    (ids : list string) (X : Matrix) (a : AnomalyEndpoint.Anomaly) :
  In a (listed_anomalies (get_anomalies anomaly_if anomaly_svm ids X)) ->
  AnomalyEndpoint.anomaly_probability a > 4/10.
Proof.
  unfold get_anomalies.
  destruct anomaly_if as [model_if |]; [| intros []].
  destruct anomaly_svm as [model_svm |].
  2: { destruct (AnomalyDetectionModel.detect_anomalies model_if X);
       intros []. }
  destruct (AnomalyEndpoint.get_anomalies model_if model_svm ids X)
    as [err | found] eqn:Ef; [intros [] |].
  cbn. intros Ha. apply sorted_desc_In in Ha.
  unfold AnomalyEndpoint.get_anomalies in Ef.
  destruct (AnomalyDetectionModel.detect_anomalies model_if X)
    as [err | [[pa sa] pr]]; [discriminate |].
  cbn in Ef.
  destruct (AnomalyDetectionModel.detect_anomalies model_svm X)
    as [err | [[pb sb] pr']]; [discriminate |].
  cbn in Ef.
  destruct (AnomalyEndpoint.ensemble pr pr') as [err | e] eqn:He;
    [discriminate |].
  cbn in Ef.
  apply (anomalies_from_mean _ _ _ _ He _ _ Ef a Ha).
Qed.

(** X13.  The risk endpoint takes a building's anomaly probability from the
    anomalies that [get_anomalies] lists, and these all lie above 0.4; a
    building that is not listed, or any building when that call fails, gets
    0.  So the anomaly component of a risk score is either 0 or in
    (0.4, 1]: it is never a value in (0, 0.4]. *)
Theorem anomaly_component_is_zero_or_above_threshold
    (risk_model : t) (failure_map : string -> option R)
    (anomaly_if anomaly_svm : option AnomalyDetectionModel.t)
    (ids : list string) (X : Matrix)
    (issues_df : list Data.Issue) (b : string) :
  let response := get_anomalies anomaly_if anomaly_svm ids X in
  let r := RiskEndpoint.building_risk risk_model failure_map
             (anomaly_map_of response) issues_df b in
  anomaly_component r = 0 \/ 4/10 < anomaly_component r <= 1.
Proof.
  intros response r. unfold r, RiskEndpoint.building_risk.
  destruct (RiskEndpoint.frequency_score issues_df b) as [fs rc].
  match goal with
  | |- context [calculate_building_risk ?m ?b ?f ?a ?q ?n] =>
      destruct (score_fields m b f a q n) as (_ & _ & _ & Ha & _);
      rewrite Ha
  end.
  destruct (anomaly_map_of response b) as [p |] eqn:E.
  - unfold anomaly_map_of in E. apply anomaly_map_from_lookup in E.
    destruct E as [E | (a & Hin & Hp)]; [discriminate |].
    apply listed_anomalies_above in Hin. rewrite Hp in Hin.
    right. rewrite Py_max_Rmax, Py_min_Rmin. case_minmax.
  - left. rewrite Py_max_Rmax, Py_min_Rmin. case_minmax.
Qed.

End AnomalyMap.

(** ** Prioritisation and the risk report *)

Section Prioritisation.
Import RiskProbabilityModel Reports.

Lemma priority_lt_false (x y : RiskScore) :
  priority_lt x y = false <-> priority_ge x y.
Proof.
  unfold priority_lt, priority_ge.
  destruct (Py.eqb (risk_probability x) (risk_probability y)) eqn:E.
  - apply Py_eqb_spec in E. rewrite Z.ltb_ge. split.
    + intros H. right. split; [now symmetry | exact H].
    + intros [H | [_ H]]; [lra | exact H].
  - apply Py_eqb_false in E. rewrite Py_ltb_false. split.
    + intros H. left. lra.
    + intros [H | [H _]]; [lra | now symmetry in H].
Qed.

Lemma priority_lt_true (x y : RiskScore) :
  priority_lt x y = true -> priority_ge y x.
Proof.
  unfold priority_lt, priority_ge.
  destruct (Py.eqb (risk_probability x) (risk_probability y)) eqn:E.
  - apply Py_eqb_spec in E. rewrite Z.ltb_lt. intros H. right. split; [exact E | lia].
  - rewrite Py_ltb_spec. intros H. now left.
Qed.

Lemma priority_ge_trans (x y z : RiskScore) :
  priority_ge x y -> priority_ge y z -> priority_ge x z.
Proof.
  unfold priority_ge. intros [H1 | [H1 H1']] [H2 | [H2 H2']].
  - left. lra.
  - left. lra.
  - left. lra.
  - right. split; [congruence | lia].
Qed.

Lemma insert_by_In {A : Type} (lt : A -> A -> bool) (x y : A) (l : list A) :
  In y (insert_by lt x l) <-> y = x \/ In y l.
Proof.
  induction l as [| z tl IH]; cbn.
  - intuition.
  - destruct (lt x z); cbn; [rewrite IH |]; intuition.
Qed.

Lemma insert_by_length {A : Type} (lt : A -> A -> bool) (x : A) (l : list A) :
  length (insert_by lt x l) = S (length l).
Proof.
  induction l as [| z tl IH]; cbn; [reflexivity |].
  destruct (lt x z); cbn; [now rewrite IH | reflexivity].
Qed.

Lemma sorted_reverse_In {A : Type} (lt : A -> A -> bool) (y : A) (l : list A) :
  In y (sorted_reverse lt l) <-> In y l.
Proof.
  unfold sorted_reverse. induction l as [| x tl IH]; cbn; [reflexivity |].
  rewrite insert_by_In, IH. intuition.
Qed.

Lemma sorted_reverse_length {A : Type} (lt : A -> A -> bool) (l : list A) :
  length (sorted_reverse lt l) = length l.
Proof.
  unfold sorted_reverse. induction l as [| x tl IH]; cbn; [reflexivity |].
  now rewrite insert_by_length, IH.
Qed.

Lemma insert_priority_sorted (x : RiskScore) (l : list RiskScore) :
  StronglySorted priority_ge l ->
  StronglySorted priority_ge (insert_by priority_lt x l).
Proof.
  induction 1 as [| z tl Hs IH Hall]; cbn.
  - constructor; constructor.
  - destruct (priority_lt x z) eqn:E.
    + apply priority_lt_true in E. constructor; [exact IH |].
      apply Forall_forall. intros y Hy. apply insert_by_In in Hy.
      destruct Hy as [-> | Hy]; [exact E |].
      rewrite Forall_forall in Hall. now apply Hall.
    + apply priority_lt_false in E. constructor.
      * constructor; assumption.
      * constructor; [exact E |].
        eapply Forall_impl; [| exact Hall]. cbn.
        intros y Hy. eapply priority_ge_trans; eauto.
Qed.

Lemma sorted_reverse_priority (l : list RiskScore) :
  StronglySorted priority_ge (sorted_reverse priority_lt l).
Proof.
  unfold sorted_reverse. induction l as [| x tl IH]; cbn.
  - constructor.
  - now apply insert_priority_sorted.
Qed.

Lemma sorted_prefix {A : Type} (R : A -> A -> Prop) (l1 l2 : list A) :
  StronglySorted R (l1 ++ l2) ->
  StronglySorted R l1 /\ forall x y, In x l1 -> In y l2 -> R x y.
Proof.
  induction l1 as [| a tl IH]; cbn; intros H.
  - split; [constructor | intros x y []].
  - inversion H as [| ? ? Hs Hall]. subst.
    destruct (IH Hs) as [Hs1 Hcross].
    rewrite Forall_forall in Hall. split.
    + constructor; [exact Hs1 |]. apply Forall_forall.
      intros y Hy. apply Hall. apply in_or_app. now left.
    + intros x y [<- | Hx] Hy.
      * apply Hall. apply in_or_app. now right.
      * now apply Hcross.
Qed.

(** X14.  For a non-negative [top_n], [prioritize_buildings] returns
    [min(top_n, len)] of the given scores, ordered by decreasing risk
    probability and, among equal probabilities, by decreasing count of
    recent critical issues; no score left out has a higher risk probability
    than a score returned. *)
Theorem prioritize_buildings_spec (building_risks : list RiskScore)
    (top_n : Z) :
  (0 <= top_n)%Z ->
  let out := prioritize_buildings building_risks top_n in
  length out = Nat.min (Z.to_nat top_n) (length building_risks) /\
  StronglySorted priority_ge out /\
  exists rest,
    (forall x, In x building_risks <-> In x out \/ In x rest) /\
    (length out + length rest = length building_risks)%nat /\
    forall x y, In x out -> In y rest ->
      risk_probability y <= risk_probability x.
Proof.
  intros Hn out. unfold out, prioritize_buildings, slice_to.
  replace (0 <=? top_n)%Z with true by (symmetry; now apply Z.leb_le).
  set (sorted := sorted_reverse priority_lt building_risks).
  set (n := Z.to_nat top_n).
  pose proof (sorted_reverse_priority building_risks) as Hs. fold sorted in Hs.
  rewrite <- (firstn_skipn n sorted) in Hs.
  destruct (sorted_prefix _ _ _ Hs) as [Hs1 Hcross].
  split; [rewrite length_firstn; unfold sorted;
          now rewrite sorted_reverse_length |].
  split; [exact Hs1 |].
  exists (skipn n sorted). split; [| split].
  - intros x. rewrite <- in_app_iff, firstn_skipn. unfold sorted.
    now rewrite sorted_reverse_In.
  - rewrite <- length_app, firstn_skipn. unfold sorted.
    apply sorted_reverse_length.
  - intros x y Hx Hy. destruct (Hcross x y Hx Hy) as [H | [H _]]; lra.
Qed.

End Prioritisation.

Lemma prioritize_buildings_spec_witness :
  let a := RiskProbabilityModel.mkScore "b1" (3/10) RiskProbabilityModel.LOW
             RiskProbabilityModel.ROUTINE_MAINTENANCE 0 0 0 0 1 in
  let b := RiskProbabilityModel.mkScore "b2" (9/10)
             RiskProbabilityModel.CRITICAL
             RiskProbabilityModel.IMMEDIATE_INTERVENTION_REQUIRED 1 1 1 1 4 in
  (0 <= 1)%Z /\
  length (Reports.prioritize_buildings [a; b] 1) = 1%nat.
Proof.
  intros a b. assert (H : (0 <= 1)%Z) by lia.
  split; [exact H |].
  exact (proj1 (prioritize_buildings_spec [a; b] 1 H)).
Defined.

Section RiskReport.
Import RiskProbabilityModel Reports.

Lemma level_partition (l : list RiskScore) :
  (length (with_level CRITICAL l) + length (with_level HIGH l)
   + length (with_level MEDIUM l) + length (with_level LOW l)
   = length l)%nat.
Proof.
  unfold with_level. induction l as [| r tl IH]; [reflexivity |].
  cbn [filter]. destruct (risk_level r); cbn [level_eqb length] in *; lia.
Qed.

Lemma sum_bounds (l : list R) (lo hi : R) :
  (forall x, In x l -> lo <= x <= hi) ->
  INR (length l) * lo <= Stats.sum l <= INR (length l) * hi.
Proof.
  induction l as [| x tl IH]; intros H.
  - cbn. lra.
  - change (Stats.sum (x :: tl)) with (x + Stats.sum tl).
    change (length (x :: tl)) with (S (length tl)). rewrite S_INR.
    specialize (IH (fun y Hy => H y (or_intror Hy))).
    specialize (H x (or_introl eq_refl)). lra.
Qed.

Lemma mean_bounds (l : list R) (lo hi : R) :
  l <> [] -> (forall x, In x l -> lo <= x <= hi) ->
  lo <= Stats.mean l <= hi.
Proof.
  intros Hne H. pose proof (sum_bounds l lo hi H) as Hs.
  assert (Hn : 0 < INR (length l)).
  { apply lt_0_INR. destruct l; [easy | cbn; lia]. }
  unfold Stats.mean.
  assert (Hi : 0 < / INR (length l)) by now apply Rinv_0_lt_compat.
  split.
  - apply Rmult_le_reg_r with (INR (length l)); [exact Hn |].
    unfold Rdiv. rewrite Rmult_assoc, Rinv_l by lra. lra.
  - apply Rmult_le_reg_r with (INR (length l)); [exact Hn |].
    unfold Rdiv. rewrite Rmult_assoc, Rinv_l by lra. lra.
Qed.

(** X15.  In the risk report the four counts of the risk distribution add
    up to [total_buildings], and the summary's critical and high counts are
    the distribution's.  [critical_percentage] lies between 0 and 100; for
    an empty list it and the average are 0, without a division.  The
    priority list holds at most five scores of the input. *)
Theorem generate_risk_report_spec (building_risks : list RiskScore) :
  let report := generate_risk_report building_risks in
  let s := summary report in
  let d := risk_distribution report in
  (dist_critical d + dist_high d + dist_medium d + dist_low d
   = total_buildings s)%nat /\
  total_buildings s = length building_risks /\
  critical_buildings s = dist_critical d /\
  high_risk_buildings s = dist_high d /\
  0 <= critical_percentage s <= 100 /\
  (building_risks = [] ->
   critical_percentage s = 0 /\ avg_risk_probability s = 0) /\
  (length (top_priority_buildings report) <= 5)%nat /\
  (forall r, In r (top_priority_buildings report) -> In r building_risks).
Proof.
  cbv zeta. unfold generate_risk_report. cbn.
  split; [apply level_partition |]. split; [reflexivity |].
  split; [reflexivity |]. split; [reflexivity |].
  split; [| split; [| split]].
  - destruct building_risks as [| r tl]; [lra |].
    set (l := r :: tl).
    assert (Hn : 0 < INR (length l)) by (apply lt_0_INR; cbn; lia).
    assert (Hc : 0 <= INR (length (with_level CRITICAL l)) <= INR (length l)).
    { split; [apply pos_INR |]. apply le_INR. apply filter_length_le. }
    assert (Hi : 0 < / INR (length l)) by now apply Rinv_0_lt_compat.
    split.
    + unfold Rdiv. apply Rmult_le_pos; [lra | lra].
    + apply Rmult_le_reg_r with (INR (length l)); [exact Hn |].
      unfold Rdiv. rewrite Rmult_assoc, Rinv_l by lra. lra.
  - intros ->. cbn. split; reflexivity.
  - unfold prioritize_buildings, slice_to. cbn.
    rewrite length_firstn. lia.
  - intros r Hr. unfold prioritize_buildings, slice_to in Hr. cbn in Hr.
    apply (sorted_reverse_In priority_lt).
    rewrite <- (firstn_skipn 5 (sorted_reverse priority_lt building_risks)).
    apply in_or_app. now left.
Qed.

End RiskReport.

Lemma generate_risk_report_spec_witness :
  @nil RiskProbabilityModel.RiskScore = [] /\
  Reports.critical_percentage
    (Reports.summary (Reports.generate_risk_report [])) = 0.
Proof.
  split; [reflexivity |].
  exact (proj1 (proj1 (proj2 (proj2 (proj2 (proj2 (proj2
           (generate_risk_report_spec [])))))) eq_refl)).
Defined.

Section ZoneRisk.
Import RiskProbabilityModel Reports.

Lemma unique_In (x : string) (l : list string) : In x (unique l) <-> In x l.
Proof.
  induction l as [| y tl IH]; cbn; [reflexivity |].
  rewrite filter_In, IH. split.
  - intros [-> | [H _]]; auto.
  - intros [-> | H]; [now left |].
    destruct (String.eqb x y) eqn:E.
    + apply String.eqb_eq in E. now left.
    + right. split; [exact H | reflexivity].
Qed.

Lemma unique_NoDup (l : list string) : NoDup (unique l).
Proof.
  induction l as [| y tl IH]; cbn; [constructor |].
  constructor.
  - rewrite filter_In. intros [_ H]. cbn in H.
    now rewrite String.eqb_refl in H.
  - now apply NoDup_filter.
Qed.

Lemma zone_row_spec (self : t) (building_risks : list RiskScore)
    (z : string) (ids : list string) (row : ZoneRisk) :
  In row (zone_row self building_risks z ids) ->
  zone_row self building_risks z ids = [row] /\
  zone row = z /\
  building_count row = length ids /\
  (critical_buildings_zone row <= building_count row)%nat /\
  (1 <= building_count row)%nat /\
  avg_risk_probability_zone row <= max_risk_probability row /\
  (zone_risk_level row = CRITICAL <->
   avg_risk_probability_zone row >= risk_threshold_critical self) /\
  (zone_risk_level row = CRITICAL ->
   (1 <= critical_buildings_zone row)%nat) /\
  (max_risk_probability row < risk_threshold_critical self ->
   critical_buildings_zone row = 0%nat).
Proof.
  unfold zone_row.
  set (probs := flat_map _ ids).
  assert (Hlen : (length probs <= length ids)%nat).
  { unfold probs. clear. induction ids as [| i tl IH]; cbn; [lia |].
    destruct (building_risk_map building_risks i); cbn; lia. }
  destruct probs as [| x xs] eqn:Ep; [intros [] |].
  intros [<- | []]. cbn [zone building_count critical_buildings_zone
                         avg_risk_probability_zone max_risk_probability
                         zone_risk_level].
  set (l := x :: xs) in *.
  set (thr := risk_threshold_critical self).
  assert (Hmax : forall y, In y l -> y <= max_of x xs)
    by (intros y Hy; now apply fold_Rmax_upper).
  assert (Hmax_in : In (max_of x xs) l) by apply fold_Rmax_In.
  assert (Havg : Stats.mean l <= max_of x xs).
  { apply (mean_bounds l (fold_left Rmin xs x) (max_of x xs));
      [discriminate |].
    intros y Hy. split; [now apply fold_Rmin_lower | now apply Hmax]. }
  assert (Hcount : (length (filter (fun r => Py.geb r thr) l)
                    <= length l)%nat) by apply filter_length_le.
  assert (Hiff : (if Py.geb (Stats.mean l) thr then CRITICAL
                  else if Py.geb (Stats.mean l) (risk_threshold_high self)
                       then HIGH
                       else if Py.geb (Stats.mean l)
                                 (risk_threshold_medium self)
                            then MEDIUM else LOW) = CRITICAL
                 <-> Stats.mean l >= thr).
  { destruct (Py.geb (Stats.mean l) thr) eqn:E.
    - apply Py_geb_spec in E. split; [intros _; exact E | reflexivity].
    - apply Py_geb_false in E. split; [| intros H; lra].
      destruct (Py.geb _ (risk_threshold_high self));
        [discriminate |].
      destruct (Py.geb _ (risk_threshold_medium self)); discriminate. }
  split; [reflexivity |]. split; [reflexivity |]. split; [reflexivity |].
  split; [lia |]. split; [cbn in Hlen; lia |]. split; [exact Havg |].
  split; [exact Hiff |]. split.
  - intros Hc. apply Hiff in Hc.
    assert (Hin : In (max_of x xs) (filter (fun r => Py.geb r thr) l)).
    { apply filter_In. split; [exact Hmax_in |]. apply Py_geb_spec. lra. }
    destruct (filter (fun r => Py.geb r thr) l); [destruct Hin | cbn; lia].
  - intros Hlt.
    assert (Hnone : forall y, In y l -> Py.geb y thr = false).
    { intros y Hy. apply Py_geb_false. specialize (Hmax y Hy). lra. }
    clear - Hnone. induction l as [| y tl IH]; [reflexivity |].
    cbn [filter]. rewrite (Hnone y (or_introl eq_refl)).
    apply IH. intros y' Hy'. apply Hnone. now right.
Qed.

Lemma flat_map_zone_NoDup (f : string -> list ZoneRisk) (zs : list string) :
  NoDup zs ->
  (forall z row, In row (f z) -> f z = [row] /\ zone row = z) ->
  NoDup (map zone (flat_map f zs)).
Proof.
  intros Hnd Hf. induction Hnd as [| z tl Hnotin Hnd IH]; cbn; [constructor |].
  rewrite map_app.
  destruct (f z) as [| row rest] eqn:E; [exact IH |].
  destruct (Hf z row) as [Hone Hz]; [rewrite E; now left |].
  rewrite E in Hone. injection Hone as ->. cbn. constructor; [| exact IH].
  intros Hin. apply in_map_iff in Hin. destruct Hin as (row' & Hzone & Hin).
  apply in_flat_map in Hin. destruct Hin as (z' & Hz' & Hrow').
  destruct (Hf z' row' Hrow') as [_ Hz'']. apply Hnotin. congruence.
Qed.

(** X16.  Every row of [calculate_zone_risk] describes a zone with at least
    one building: the count of critical buildings is at most the building
    count, the level is CRITICAL exactly when the average reaches the
    critical threshold, and a zone whose maximum is below the threshold has
    no critical building.  No zone appears twice. *)
Theorem calculate_zone_risk_spec (self : t) (buildings_df : ZoneTable)
    (building_risks : list RiskScore) :
  NoDup (map zone (calculate_zone_risk self buildings_df building_risks)) /\
  forall row, In row (calculate_zone_risk self buildings_df building_risks) ->
    (1 <= building_count row)%nat /\
    (critical_buildings_zone row <= building_count row)%nat /\
    (zone_risk_level row = CRITICAL <->
     avg_risk_probability_zone row >= risk_threshold_critical self) /\
    (max_risk_probability row < risk_threshold_critical self ->
     critical_buildings_zone row = 0%nat).
Proof.
  unfold calculate_zone_risk. destruct buildings_df as [rows | ids].
  - split.
    + apply flat_map_zone_NoDup; [apply unique_NoDup |].
      intros z row Hrow.
      destruct (zone_row_spec _ _ _ _ _ Hrow) as (H1 & H2 & _). auto.
    + intros row Hrow. apply in_flat_map in Hrow.
      destruct Hrow as (z & _ & Hrow).
      destruct (zone_row_spec _ _ _ _ _ Hrow)
        as (_ & _ & _ & H1 & H2 & H3 & H4 & H5 & H6).
      auto 10.
  - split.
    + destruct (zone_row self building_risks "Unknown" ids) as [| row rest] eqn:E;
        [constructor |].
      destruct (zone_row_spec self building_risks "Unknown" ids row)
        as (Hone & _); [rewrite E; now left |].
      rewrite E in Hone. injection Hone as ->.
      cbn. constructor; [intros [] | constructor].
    + intros row Hrow.
      destruct (zone_row_spec _ _ _ _ _ Hrow)
        as (_ & _ & _ & H1 & H2 & H3 & H4 & H5 & H6).
      auto 10.
Qed.


End ZoneRisk.

Lemma calculate_zone_risk_spec_witness :
  let r := RiskProbabilityModel.mkScore "b1" (9/10)
             RiskProbabilityModel.CRITICAL
             RiskProbabilityModel.IMMEDIATE_INTERVENTION_REQUIRED 1 1 1 1 4 in
  let rows := Reports.calculate_zone_risk RiskProbabilityModel.default_model
                (Reports.Labelled [("b1", "north")]%string) [r] in
  exists row, In row rows /\ (1 <= Reports.building_count row)%nat.
Proof.
  intros r rows.
  assert (Hin : exists row, In row rows).
  { unfold rows, Reports.calculate_zone_risk, Reports.zone_row. cbn.
    eexists. left. reflexivity. }
  destruct Hin as (row & Hrow). exists row. split; [exact Hrow |].
  exact (proj1 (proj2 (calculate_zone_risk_spec
                         RiskProbabilityModel.default_model
                         (Reports.Labelled [("b1", "north")]%string) [r])
                      row Hrow)).
Defined.

(** ** Alerts and the endpoints on the formatted predictions *)

Section Alerts.
Import RiskProbabilityModel ModelUtils.

Lemma generate_alert_raw (p : Prediction) :
  generate_alert (raw_dict p) = inr (alert_of p).
Proof. reflexivity. Qed.

Lemma alert_of_priority (p : Prediction) :
  alert_priority (alert_of p) =
  match failure_risk_level p with
  | CRITICAL => 1 | HIGH => 2 | MEDIUM => 3 | LOW => 4
  end%Z.
Proof. destruct p as [? ? ? lvl ? ? ?]. destruct lvl; reflexivity. Qed.

Lemma collect_alerts_raw (predictions : list Prediction) :
  collect_alerts (map raw_dict predictions) =
  inr (map alert_of
         (filter (fun p => match failure_risk_level p with
                           | CRITICAL | HIGH => true
                           | _ => false
                           end) predictions)).
Proof.
  induction predictions as [| p rest IH]; [reflexivity |].
  cbn [map collect_alerts].
  change (getitem (raw_dict p) "failure_risk_level")
    with (@inr DictError Value (VStr (level_name (failure_risk_level p)))).
  cbn [bind]. rewrite generate_alert_raw, IH. cbn [bind filter].
  destruct (failure_risk_level p); reflexivity.
Qed.

Lemma insert_alert_first (x : Alert) (l : list Alert) :
  (forall y, In y l -> (alert_priority x <= alert_priority y)%Z) ->
  insert_alert x l = x :: l.
Proof.
  destruct l as [| y tl]; [reflexivity |]. intros H. cbn.
  specialize (H y (or_introl eq_refl)).
  destruct (alert_priority y <? alert_priority x)%Z eqn:E; [| reflexivity].
  apply Z.ltb_lt in E. lia.
Qed.

Lemma insert_alert_after (x : Alert) (before rest : list Alert) :
  (forall y, In y before -> (alert_priority y < alert_priority x)%Z) ->
  (forall y, In y rest -> (alert_priority x <= alert_priority y)%Z) ->
  insert_alert x (before ++ rest) = before ++ x :: rest.
Proof.
  intros Hb Hr. induction before as [| y tl IH]; cbn.
  - now apply insert_alert_first.
  - replace (alert_priority y <? alert_priority x)%Z with true
      by (symmetry; apply Z.ltb_lt; apply Hb; now left).
    f_equal. apply IH. intros z Hz. apply Hb. now right.
Qed.

Lemma sort_two_priorities (predictions : list Prediction) :
  fold_right insert_alert []
    (map alert_of
       (filter (fun p => match failure_risk_level p with
                         | CRITICAL | HIGH => true
                         | _ => false
                         end) predictions))
  = map alert_of (filter (fun p => match failure_risk_level p with
                                   | CRITICAL => true
                                   | _ => false
                                   end) predictions)
    ++ map alert_of (filter (fun p => match failure_risk_level p with
                                      | HIGH => true
                                      | _ => false
                                      end) predictions).
Proof.
  induction predictions as [| p rest IH]; [reflexivity |].
  cbn [filter]. destruct (failure_risk_level p) eqn:E; try exact IH.
  - cbn [map fold_right]. rewrite IH.
    apply insert_alert_after.
    + intros y Hy. apply in_map_iff in Hy. destruct Hy as (q & <- & Hq).
      apply filter_In in Hq. destruct Hq as [_ Hq].
      rewrite !alert_of_priority, E.
      destruct (failure_risk_level q); try discriminate; lia.
    + intros y Hy. apply in_map_iff in Hy. destruct Hy as (q & <- & Hq).
      apply filter_In in Hq. destruct Hq as [_ Hq].
      rewrite !alert_of_priority, E.
      destruct (failure_risk_level q); try discriminate; lia.
  - cbn [map fold_right]. rewrite IH.
    change (alert_of p :: map alert_of _ ++ ?t)
      with ((alert_of p :: map alert_of
               (filter (fun p => match failure_risk_level p with
                                 | CRITICAL => true
                                 | _ => false
                                 end) rest)) ++ t).
    apply insert_alert_first.
    intros y Hy. rewrite alert_of_priority, E.
    apply in_app_iff in Hy.
    destruct Hy as [Hy | Hy]; apply in_map_iff in Hy;
      destruct Hy as (q & <- & Hq); apply filter_In in Hq;
      destruct Hq as [_ Hq]; rewrite alert_of_priority;
      destruct (failure_risk_level q); try discriminate; lia.
Qed.

(** X17.  On the rows of [predict_time_window], [generate_alerts] never
    fails and returns one alert per CRITICAL or HIGH row and none for the
    others: first the alerts of the CRITICAL rows, then those of the HIGH
    rows, each group in the order of the rows, with the title, priority
    (1 or 2) and action of its template. *)
Theorem generate_alerts_spec (predictions : list Prediction) :
  generate_alerts (map raw_dict predictions) =
  inr (map alert_of (filter (fun p => match failure_risk_level p with
                                      | CRITICAL => true
                                      | _ => false
                                      end) predictions)
       ++ map alert_of (filter (fun p => match failure_risk_level p with
                                         | HIGH => true
                                         | _ => false
                                         end) predictions)) /\
  (forall p, failure_risk_level p = CRITICAL ->
     alert_priority (alert_of p) = 1%Z /\
     alert_title (alert_of p)
       = "URGENT: Critical Failure Risk Detected"%string /\
     alert_action_required (alert_of p)
       = "IMMEDIATE MAINTENANCE REQUIRED"%string) /\
  (forall p, failure_risk_level p = HIGH ->
     alert_priority (alert_of p) = 2%Z /\
     alert_title (alert_of p) = "HIGH: Significant Failure Risk"%string /\
     alert_action_required (alert_of p)
       = "SCHEDULE MAINTENANCE SOON"%string).
Proof.
  split; [| split].
  - unfold generate_alerts. rewrite collect_alerts_raw. cbn [bind].
    now rewrite sort_two_priorities.
  - intros p Hp. unfold alert_of. rewrite Hp. cbn. auto.
  - intros p Hp. unfold alert_of. rewrite Hp. cbn. auto.
Qed.

End Alerts.

Lemma generate_alerts_spec_witness :
  let p := ModelUtils.mkPrediction "b1" "Library" (9/10)
             RiskProbabilityModel.CRITICAL 5 (8/10) "WATER" in
  ModelUtils.failure_risk_level p = RiskProbabilityModel.CRITICAL /\
  ModelUtils.alert_priority (ModelUtils.alert_of p) = 1%Z /\
  ModelUtils.generate_alerts [ModelUtils.raw_dict p]
    = inr [ModelUtils.alert_of p].
Proof.
  intros p.
  assert (Hp : ModelUtils.failure_risk_level p = RiskProbabilityModel.CRITICAL)
    by reflexivity.
  split; [exact Hp |]. split.
  - exact (proj1 (proj1 (proj2 (generate_alerts_spec [p])) p Hp)).
  - exact (proj1 (generate_alerts_spec [p])).
Defined.

Section FormattedPredictions.
Import RiskProbabilityModel ModelUtils.
Variable round4 : R -> R.
Variable failure_date : Value -> result Value.

(** The dictionary [format_predictions] builds for a row. *)
Lemma format_prediction_raw (p : Prediction) :
  dated failure_date p ->
  exists bid bname prob level days date conf concern action_required,
    format_prediction round4 failure_date (raw_dict p) =
    inr [ ("buildingId", bid); ("buildingName", bname);
          ("failureProbability", prob); ("riskLevel", level);
          ("estimatedDaysToFailure", days); ("estimatedFailureDate", date);
          ("confidence", conf); ("primaryConcern", concern);
          ("actionRequired", action_required) ]%string.
Proof.
  intros [date Hdate]. unfold format_prediction. cbn. rewrite Hdate. cbn.
  repeat eexists.
Qed.

(** A row whose failure date raises makes the whole formatting raise. *)
Lemma format_prediction_undated (p : Prediction) (e : DictError) :
  failure_date (VInt (estimated_days_to_failure p)) = inl e ->
  format_prediction round4 failure_date (raw_dict p) = inl e.
Proof. intros H. unfold format_prediction. cbn. rewrite H. reflexivity. Qed.

Lemma format_predictions_raw (predictions : list Prediction) :
  Forall (dated failure_date) predictions ->
  exists formatted,
    format_predictions round4 failure_date (map raw_dict predictions)
      = inr formatted /\
    length formatted = length predictions /\
    forall d, In d formatted ->
      getitem d "failure_risk_level" = inl (KeyError "failure_risk_level").
Proof.
  induction 1 as [| p rest Hp _ (more & Hmore & Hlen & Hall)].
  - exists []. split; [reflexivity |]. split; [reflexivity | intros d []].
  - destruct (format_prediction_raw p Hp)
      as (bid & bname & prob & level & days & date & conf & concern & ar & H).
    eexists. cbn [map format_predictions]. rewrite H, Hmore. cbn [bind].
    split; [reflexivity |]. split; [cbn; now rewrite Hlen |].
    intros d [<- | Hd]; [reflexivity | now apply Hall].
Qed.

(** X18.  When the failure date of every row of [predict_time_window] can
    be computed, [get_predictions] formats the rows, one dictionary per
    row.  [get_alerts] and [get_risk_summary] hand these formatted
    dictionaries, whose keys are riskLevel and the like, to functions that
    read the key failure_risk_level: with at least one prediction both
    endpoints answer with the error of that missing key; with no prediction
    they succeed with nothing to report. *)
Theorem endpoints_on_formatted_predictions (predictions : list Prediction) :
  Forall (dated failure_date) predictions ->
  (exists formatted,
     get_predictions round4 failure_date predictions = ApiSuccess formatted /\
     length formatted = length predictions) /\
  (predictions = [] ->
   get_alerts (get_predictions round4 failure_date predictions)
     = ApiSuccess (mkAlertsPayload [] 0 0) /\
   get_risk_summary (get_predictions round4 failure_date predictions)
     = ApiSuccess (mkGrouped [] [] [] [], (0, 0, 0, 0)%nat)) /\
  (predictions <> [] ->
   get_alerts (get_predictions round4 failure_date predictions)
     = ApiError (KeyError "failure_risk_level") /\
   get_risk_summary (get_predictions round4 failure_date predictions)
     = ApiError (KeyError "failure_risk_level")).
Proof.
  intros Hdated.
  destruct (format_predictions_raw predictions Hdated)
    as (formatted & Hrun & Hlen & Hall).
  unfold get_predictions. rewrite Hrun.
  split; [exists formatted; auto |]. split.
  - intros ->. cbn in Hrun. injection Hrun as <-. split; reflexivity.
  - intros Hne.
    destruct formatted as [| d rest].
    { destruct predictions; [easy | discriminate]. }
    pose proof (Hall d (or_introl eq_refl)) as Hd.
    split.
    + unfold get_alerts, generate_alerts. cbn [collect_alerts].
      rewrite Hd. reflexivity.
    + unfold get_risk_summary, group_by_risk_level. cbn [group_loop].
      unfold group_add. rewrite Hd. reflexivity.
Qed.

End FormattedPredictions.

Lemma endpoints_on_formatted_predictions_witness :
  let p := ModelUtils.mkPrediction "b1" "Library" (9/10)
             RiskProbabilityModel.CRITICAL 5 (8/10) "WATER" in
  let failure_date := fun _ : ModelUtils.Value =>
        @inr ModelUtils.DictError _ (ModelUtils.VStr "2030-01-01") in
  Forall (ModelUtils.dated failure_date) [p] /\ [p] <> [] /\
  ModelUtils.get_alerts
    (ModelUtils.get_predictions (fun x => x) failure_date [p])
    = ModelUtils.ApiError (ModelUtils.KeyError "failure_risk_level").
Proof.
  intros p failure_date.
  assert (Hd : Forall (ModelUtils.dated failure_date) [p]).
  { constructor; [| constructor]. eexists. reflexivity. }
  assert (Hne : [p] <> []) by discriminate.
  split; [exact Hd |]. split; [exact Hne |].
  exact (proj1 (proj2 (proj2
           (endpoints_on_formatted_predictions (fun x => x) failure_date [p] Hd))
           Hne)).
Defined.

(** ** The time-window heuristic *)

Section TimeWindowFacts.
Import TimeWindow.

Lemma Int_part_bounds (r : R) :
  IZR (Int_part r) <= r < IZR (Int_part r) + 1.
Proof. destruct (base_Int_part r) as [H1 H2]. lra. Qed.

Lemma Int_part_monotone (r s : R) : r <= s -> (Int_part r <= Int_part s)%Z.
Proof.
  intros H. pose proof (Int_part_bounds r). pose proof (Int_part_bounds s).
  assert (Hlt : IZR (Int_part r) < IZR (Int_part s + 1))
    by (rewrite plus_IZR; lra).
  apply lt_IZR in Hlt. lia.
Qed.

Lemma trunc_nonneg (r : R) : 0 <= r -> trunc r = Int_part r.
Proof. intros H. unfold trunc. destruct (Rle_dec 0 r); [reflexivity | lra]. Qed.

Lemma trunc_nonneg_bounds (r : R) : 0 <= r -> (0 <= trunc r)%Z.
Proof.
  intros H. rewrite trunc_nonneg by exact H.
  replace 0%Z with (Int_part 0).
  - now apply Int_part_monotone.
  - pose proof (Int_part_bounds 0) as [H1 H2].
    assert (Ha : IZR (Int_part 0) < IZR 1) by lra.
    assert (Hb : IZR (-1) < IZR (Int_part 0)) by lra.
    apply lt_IZR in Ha, Hb. lia.
Qed.

(** X19.  The time-window heuristic of [predict_time_window] never
    estimates more than 60 days, more than 45 days for a probability above
    0.5, or more than 30 days for a probability above 0.7; for a
    non-negative number of days since the last issue the estimate is
    non-negative and a higher probability never gives a later estimate.
    The confidence lies in [0,1] and for a probability in [0,1] it is
    [|2p - 1|]. *)
Theorem time_window_heuristic (prob days_since_last : R) :
  (estimated_days prob days_since_last <= 60)%Z /\
  (prob > 5/10 -> (estimated_days prob days_since_last <= 45)%Z) /\
  (prob > 7/10 -> (estimated_days prob days_since_last <= 30)%Z) /\
  (0 <= days_since_last ->
   (0 <= estimated_days prob days_since_last)%Z /\
   forall prob', prob <= prob' ->
     (estimated_days prob' days_since_last
      <= estimated_days prob days_since_last)%Z) /\
  0 <= confidence prob <= 1 /\
  (0 <= prob <= 1 -> confidence prob = Rabs (2 * prob - 1)).
Proof.
  unfold estimated_days.
  split; [| split; [| split; [| split; [| split]]]].
  - destruct (Py.gtb prob (7/10)); [lia |].
    destruct (Py.gtb prob (5/10)); lia.
  - intros H. destruct (Py.gtb prob (7/10)); [lia |].
    replace (Py.gtb prob (5/10)) with true
      by (symmetry; now apply Py_gtb_spec).
    lia.
  - intros H. replace (Py.gtb prob (7/10)) with true
      by (symmetry; now apply Py_gtb_spec).
    lia.
  - intros Hd.
    assert (H5 : 0 <= days_since_last * (5/10)) by nra.
    assert (H7 : 0 <= days_since_last * (7/10)) by nra.
    pose proof (trunc_nonneg_bounds _ Hd) as T1.
    pose proof (trunc_nonneg_bounds _ H5) as T5.
    pose proof (trunc_nonneg_bounds _ H7) as T7.
    assert (M57 : (trunc (days_since_last * (5/10))
                   <= trunc (days_since_last * (7/10)))%Z).
    { rewrite !trunc_nonneg by assumption. apply Int_part_monotone. nra. }
    assert (M71 : (trunc (days_since_last * (7/10))
                   <= trunc days_since_last)%Z).
    { rewrite !trunc_nonneg by assumption. apply Int_part_monotone. nra. }
    split.
    + destruct (Py.gtb prob (7/10)); [lia |].
      destruct (Py.gtb prob (5/10)); lia.
    + intros prob' Hp.
      destruct (Py.gtb prob (7/10)) eqn:E7.
      { apply Py_gtb_spec in E7.
        replace (Py.gtb prob' (7/10)) with true
          by (symmetry; apply Py_gtb_spec; lra).
        lia. }
      apply Py_gtb_false in E7.
      destruct (Py.gtb prob (5/10)) eqn:E5.
      { apply Py_gtb_spec in E5.
        destruct (Py.gtb prob' (7/10)); [lia |].
        replace (Py.gtb prob' (5/10)) with true
          by (symmetry; apply Py_gtb_spec; lra).
        lia. }
      destruct (Py.gtb prob' (7/10)); [lia |].
      destruct (Py.gtb prob' (5/10)); lia.
  - unfold confidence, clip. pose proof (Rabs_pos (prob - 5/10)).
    unfold Rmin, Rmax.
    destruct (Rle_dec (Rabs (prob - 5/10) * 2) 0);
      destruct (Rle_dec 1 _); lra.
  - intros Hp. unfold confidence, clip.
    replace (2 * prob - 1) with (2 * (prob - 5/10)) by lra.
    rewrite Rabs_mult, (Rabs_right 2) by lra.
    assert (Hb : Rabs (prob - 5/10) <= 5/10)
      by (unfold Rabs; destruct (Rcase_abs _); lra).
    pose proof (Rabs_pos (prob - 5/10)).
    unfold Rmin, Rmax.
    destruct (Rle_dec (Rabs (prob - 5/10) * 2) 0);
      destruct (Rle_dec 1 _); lra.
Qed.

End TimeWindowFacts.

Lemma time_window_heuristic_witness :
  8/10 > 7/10 /\ 0 <= 100 /\
  (TimeWindow.estimated_days (8/10) 100 <= 30)%Z /\
  (0 <= TimeWindow.estimated_days (8/10) 100)%Z.
Proof.
  assert (H8 : 8/10 > 7/10) by lra. assert (H0 : 0 <= 100) by lra.
  split; [exact H8 |]. split; [exact H0 |]. split.
  - exact (proj1 (proj2 (proj2 (time_window_heuristic (8/10) 100))) H8).
  - exact (proj1 (proj1 (proj2 (proj2 (proj2
             (time_window_heuristic (8/10) 100)))) H0)).
Defined.

(** ** PredictionFormatter.group_by_risk_level *)

Section Grouping.
Import RiskProbabilityModel ModelUtils.

Lemma group_loop_raw (g : Grouped) (predictions : list Prediction) :
  let of_level l :=
    map raw_dict
        (filter (fun p => Reports.level_eqb (failure_risk_level p) l)
                predictions) in
  group_loop g (map raw_dict predictions) =
  inr (mkGrouped (group_critical g ++ of_level CRITICAL)
                 (group_high g ++ of_level HIGH)
                 (group_medium g ++ of_level MEDIUM)
                 (group_low g ++ of_level LOW)).
Proof.
  cbv zeta. revert g.
  induction predictions as [| p tl IH]; intros g.
  - cbn. rewrite !app_nil_r. destruct g; reflexivity.
  - cbn [map group_loop]. unfold group_add at 1.
    change (getitem (raw_dict p) "failure_risk_level")
      with (@inr DictError _ (VStr (level_name (failure_risk_level p)))).
    cbn [bind filter].
    destruct (failure_risk_level p); cbn [level_name String.eqb Ascii.eqb
      Bool.eqb Reports.level_eqb bind]; rewrite IH; cbn [group_critical
      group_high group_medium group_low map]; rewrite <- ?app_assoc;
      reflexivity.
Qed.

Lemma level_filter_partition (predictions : list Prediction) :
  let count l :=
    length (filter (fun p => Reports.level_eqb (failure_risk_level p) l)
                   predictions) in
  (count CRITICAL + count HIGH + count MEDIUM + count LOW
   = length predictions)%nat.
Proof.
  cbv zeta. induction predictions as [| p tl IH]; [reflexivity |].
  cbn [filter]. destruct (failure_risk_level p); cbn; lia.
Qed.

(** X20.  On the rows of [predict_time_window], [group_by_risk_level]
    never fails and splits the rows by their risk level: each of the four
    groups holds the rows of its level in the order of the input, and no
    row is dropped, the sizes of the groups adding up to the number of
    rows. *)
Theorem group_by_risk_level_spec (predictions : list Prediction) :
  let of_level l :=
    map raw_dict
        (filter (fun p => Reports.level_eqb (failure_risk_level p) l)
                predictions) in
  group_by_risk_level (map raw_dict predictions) =
    inr (mkGrouped (of_level CRITICAL) (of_level HIGH)
                   (of_level MEDIUM) (of_level LOW)) /\
  (length (of_level CRITICAL) + length (of_level HIGH)
   + length (of_level MEDIUM) + length (of_level LOW)
   = length predictions)%nat.
Proof.
  cbv zeta. split.
  - unfold group_by_risk_level. now rewrite group_loop_raw.
  - rewrite !length_map. apply level_filter_partition.
Qed.

End Grouping.

(** ** FeatureEngineer *)

Section FeatureEngineering.
Import Data FeatureEngineer.

Lemma filter_none {A : Type} (f : A -> bool) (l : list A) :
  (forall x, In x l -> f x = false) -> filter f l = [].
Proof.
  induction l as [| x tl IH]; intros H; [reflexivity |].
  cbn. rewrite (H x (or_introl eq_refl)). apply IH.
  intros y Hy. apply H. now right.
Qed.

(** X21.  When no issue is dated after the readings of the clock that the
    call makes, as for a recorded history, every label that
    [create_training_dataset] gives is 0: the labels only count issues
    created after the call. *)
Theorem historical_targets_are_zero (now : nat -> Z)
    (target_window_days : Z) (issues_df : list Issue) (tick : nat)
    (building_ids : list string) :
  (forall i n, In i issues_df -> (tick <= n)%nat ->
               (created_at i <= now n)%Z) ->
  targets now target_window_days issues_df tick building_ids
  = map (fun _ => 0%Z) building_ids.
Proof.
  revert tick. induction building_ids as [| b rest IH]; intros tick Hpast.
  - reflexivity.
  - cbn [targets map]. unfold target_of.
    destruct (length (issues_of issues_df b) =? 0)%nat.
    + f_equal. now apply IH.
    + rewrite (filter_none _ (issues_of issues_df b)).
      * cbn. f_equal. apply IH. intros i n Hi Hn. apply Hpast; [exact Hi | lia].
      * intros i Hi. apply filter_In in Hi. destruct Hi as [Hi _].
        apply andb_false_iff. left. apply Z.ltb_ge.
        apply Hpast; [exact Hi | lia].
Qed.

Lemma diff_sorted_nonneg (l : list Z) :
  StronglySorted Z.le l -> forall d, In d (Stats.diff l) -> (0 <= d)%Z.
Proof.
  induction 1 as [| x tl Hs IH Hall]; intros d Hd; [destruct Hd |].
  destruct tl as [| y tl']; [destruct Hd |].
  cbn in Hd. destruct Hd as [<- | Hd].
  - apply Forall_inv in Hall. lia.
  - apply IH. exact Hd.
Qed.

Lemma time_diffs_length (issues : list Issue) :
  length (time_diffs issues) = (length issues - 1)%nat.
Proof.
  unfold time_diffs. now rewrite length_map, diff_length, sort_length,
    length_map.
Qed.

Lemma time_diffs_nonneg (issues : list Issue) (x : R) :
  In x (time_diffs issues) -> 0 <= x.
Proof.
  unfold time_diffs. intros H. apply in_map_iff in H.
  destruct H as (d & <- & Hd).
  apply (diff_sorted_nonneg _ (sort_sorted _)) in Hd.
  apply IZR_le. unfold days. apply Z.div_pos; [exact Hd |].
  apply ns_per_day_pos.
Qed.

Lemma sum_nonneg (l : list R) :
  (forall x, In x l -> 0 <= x) -> 0 <= Stats.sum l.
Proof.
  induction l as [| x tl IH]; intros H; [cbn; lra |].
  change (Stats.sum (x :: tl)) with (x + Stats.sum tl).
  pose proof (H x (or_introl eq_refl)).
  assert (0 <= Stats.sum tl) by (apply IH; intros y Hy; apply H; now right).
  lra.
Qed.

Lemma mean_nonneg (l : list R) :
  (forall x, In x l -> 0 <= x) -> 0 <= Stats.mean l.
Proof.
  intros H. unfold Stats.mean. pose proof (sum_nonneg l H).
  destruct l as [| x tl].
  - cbn. unfold Rdiv. rewrite Rinv_0. lra.
  - assert (0 < INR (length (x :: tl))) by (apply lt_0_INR; cbn; lia).
    apply Rmult_le_pos; [assumption |].
    left. now apply Rinv_0_lt_compat.
Qed.

(** X23.  With fewer than two issues the recurrence rate and the
    clustering score are 0.  With two or more the days between consecutive
    issues are non-negative, so neither function divides by zero and the
    recurrence rate lies in (0, 1].  The clustering score is NaN for
    exactly two issues, whose single gap has no sample deviation, and a
    non-negative number for three or more. *)
Theorem recurrence_and_clustering (issues : list Issue) :
  ((length issues < 2)%nat ->
   _calculate_recurrence_rate issues = 0 /\
   _calculate_clustering_score issues = Some 0) /\
  ((2 <= length issues)%nat ->
   1 <= Stats.mean (time_diffs issues) + 1 /\
   0 < _calculate_recurrence_rate issues <= 1) /\
  (length issues = 2%nat -> _calculate_clustering_score issues = None) /\
  ((3 <= length issues)%nat ->
   exists v, _calculate_clustering_score issues = Some v /\ 0 <= v).
Proof.
  pose proof (time_diffs_length issues) as Hlen.
  pose proof (mean_nonneg _ (time_diffs_nonneg issues)) as Hmean.
  unfold _calculate_recurrence_rate, _calculate_clustering_score.
  split; [| split; [| split]].
  - intros H. apply Nat.ltb_lt in H. rewrite H. split; reflexivity.
  - intros H.
    replace (length issues <? 2)%nat with false
      by (symmetry; apply Nat.ltb_ge; lia).
    replace (length (time_diffs issues) =? 0)%nat with false
      by (symmetry; apply Nat.eqb_neq; lia).
    split; [lra |].
    assert (Hinv : 0 < / (Stats.mean (time_diffs issues) + 1))
      by (apply Rinv_0_lt_compat; lra).
    unfold Rdiv. rewrite Rmult_1_l. split; [exact Hinv |].
    rewrite <- Rinv_1. apply Rinv_le_contravar; lra.
  - intros H. rewrite H. cbn [Nat.ltb Nat.leb].
    replace (length (time_diffs issues) =? 0)%nat with false
      by (symmetry; apply Nat.eqb_neq; lia).
    apply std_over_mean_plus_one_short. lia.
  - intros H.
    replace (length issues <? 2)%nat with false
      by (symmetry; apply Nat.ltb_ge; lia).
    replace (length (time_diffs issues) =? 0)%nat with false
      by (symmetry; apply Nat.eqb_neq; lia).
    rewrite std_over_mean_plus_one_two by lia.
    eexists. split; [reflexivity |].
    apply Rmult_le_pos; [apply sqrt_pos |].
    left. apply Rinv_0_lt_compat. lra.
Qed.

End FeatureEngineering.

Lemma historical_targets_are_zero_witness :
  let issues_df := [Data.mkIssue "issue_0" "b1" 5 50] in
  (forall i n, In i issues_df -> (0 <= n)%nat ->
               (Data.created_at i <= 100)%Z) /\
  FeatureEngineer.targets (fun _ => 100%Z) 30 issues_df 0 ["b1"; "b2"]%string
  = [0%Z; 0%Z].
Proof.
  intros issues_df.
  assert (H : forall i n, In i issues_df -> (0 <= n)%nat ->
                          (Data.created_at i <= 100)%Z).
  { intros i n [<- | []] _. cbn. lia. }
  split; [exact H |].
  exact (historical_targets_are_zero (fun _ => 100%Z) 30 issues_df 0
           ["b1"; "b2"]%string H).
Defined.

Lemma recurrence_and_clustering_witness :
  let issues := [Data.mkIssue "issue_0" "b1" 2 0;
                 Data.mkIssue "issue_1" "b1" 5 Data.ns_per_day] in
  length issues = 2%nat /\
  FeatureEngineer._calculate_clustering_score issues = None /\
  0 < FeatureEngineer._calculate_recurrence_rate issues <= 1.
Proof.
  intros issues.
  assert (H2 : length issues = 2%nat) by reflexivity.
  assert (Hge : (2 <= length issues)%nat) by (rewrite H2; constructor).
  split; [exact H2 |]. split.
  - exact (proj1 (proj2 (proj2 (recurrence_and_clustering issues))) H2).
  - exact (proj2 (proj1 (proj2 (recurrence_and_clustering issues)) Hge)).
Defined.

(** ** calculate_category_risk and calculate_risk_confidence *)

Section CategoryRisks.
Import CategoryRisk.
Variable now : nat -> Z.
Variable has_resolution_days : bool.

Lemma filter_length_le {A : Type} (f : A -> bool) (l : list A) :
  (length (filter f l) <= length l)%nat.
Proof.
  induction l as [| x tl IH]; cbn; [lia |].
  destruct (f x); cbn; lia.
Qed.

Lemma mean_skipna_nonneg (column : list (option R)) (m : R) :
  (forall d, In (Some d) column -> 0 <= d) ->
  mean_skipna column = Some m -> 0 <= m.
Proof.
  intros Hcol. unfold mean_skipna, Stats.pd_mean.
  set (values := flat_map _ column).
  assert (Hvalues : forall x, In x values -> 0 <= x).
  { intros x Hx. apply in_flat_map in Hx. destruct Hx as ([d |] & Hd & Hx).
    - destruct Hx as [<- | []]. now apply Hcol.
    - destruct Hx. }
  destruct values as [| v vs] eqn:E; [discriminate |].
  intros H. injection H as <-. now apply mean_nonneg.
Qed.

Lemma min_one_bounds (x : option R) :
  min_one x <= 1 /\
  (x = None -> min_one x = 1) /\
  ((forall v, x = Some v -> 0 <= v) -> 0 <= min_one x).
Proof.
  destruct x as [v |]; cbn.
  - rewrite Py_min_Rmin. split; [apply Rmin_l |]. split; [discriminate |].
    intros H. specialize (H v eq_refl). apply Rmin_glb; lra.
  - split; [lra |]. split; [reflexivity | intros _; lra].
Qed.

(** The row of one category. *)
Lemma category_row_spec (issues_df : list Issue) (tick : nat)
    (name : string) :
  let row := fst (category_row now has_resolution_days issues_df tick name) in
  row_category row = name /\
  (critical_issues row <= total_issues row)%nat /\
  (recent_issue_count row <= total_issues row)%nat /\
  category_risk_score row <= 1 /\
  (total_issues row = 0%nat -> category_risk_score row = 0) /\
  (avg_resolution_days row = None -> 25/100 <= category_risk_score row) /\
  ((forall i d, In i issues_df -> resolution_days i = Some d -> 0 <= d) ->
   0 <= category_risk_score row).
Proof.
  cbv zeta. unfold category_row.
  set (category_issues := filter _ issues_df).
  destruct (length category_issues =? 0)%nat eqn:E.
  { cbn. repeat split; try lia; try lra; try discriminate. }
  apply Nat.eqb_neq in E.
  cbn [fst row_category critical_issues total_issues recent_issue_count
       category_risk_score avg_resolution_days].
  set (critical_count :=
         length (filter (fun i => (4 <=? severity i)%Z) category_issues)).
  set (resolved_issues :=
         filter (fun i => String.eqb (status i) "RESOLVED") category_issues).
  match goal with
  | |- context [option_map _ ?a] => set (avg_resolution := a)
  end.
  set (recent_count :=
         length (filter (fun i => (_ <=? created_at i)%Z) category_issues)).
  set (total := length category_issues) in *.
  assert (Hc : (critical_count <= total)%nat) by apply filter_length_le.
  assert (Hr : (recent_count <= total)%nat) by apply filter_length_le.
  replace (0 <? total)%nat with true by (symmetry; apply Nat.ltb_lt; lia).
  assert (Ht : 0 < INR total) by (apply lt_0_INR; lia).
  assert (Hratio : 0 <= INR critical_count / INR total <= 1).
  { apply le_INR in Hc. pose proof (pos_INR critical_count).
    assert (Hinv : 0 < / INR total) by now apply Rinv_0_lt_compat.
    unfold Rdiv. split; [nra |].
    apply Rmult_le_reg_r with (INR total); [exact Ht |].
    rewrite Rmult_assoc, Rinv_l by lra. lra. }
  assert (Hfreq : 0 <= Py.min 1 (INR recent_count / 10) <= 1).
  { rewrite Py_min_Rmin. pose proof (pos_INR recent_count).
    split; [apply Rmin_glb; lra | apply Rmin_l]. }
  destruct (min_one_bounds (option_map (fun a => a / 30) avg_resolution))
    as (Hle & Hnan & Hpos).
  split; [reflexivity |]. split; [exact Hc |]. split; [exact Hr |].
  split; [lra |]. split; [lia |]. split.
  - intros Hnone. rewrite Hnan by (rewrite Hnone; reflexivity). lra.
  - intros Hdays.
    assert (0 <= min_one (option_map (fun a => a / 30) avg_resolution)).
    { apply Hpos. intros v Hv.
      destruct avg_resolution as [a |] eqn:Ea; [| discriminate].
      cbn in Hv. injection Hv as <-.
      assert (0 <= a); [| lra].
      unfold avg_resolution in Ea.
      destruct ((0 <? length resolved_issues)%nat && has_resolution_days).
      - apply (mean_skipna_nonneg (map resolution_days resolved_issues));
          [| exact Ea].
        intros d Hd. apply in_map_iff in Hd. destruct Hd as (i & Hi & Hin).
        apply (Hdays i d); [| exact Hi].
        unfold resolved_issues, category_issues in Hin.
        apply filter_In in Hin. destruct Hin as [Hin _].
        apply filter_In in Hin. tauto.
      - injection Ea as <-. lra. }
    lra.
Qed.

Lemma category_rows_spec (issues_df : list Issue) (names : list string)
    (tick : nat) :
  map row_category (category_rows now has_resolution_days issues_df tick names)
    = names /\
  forall row,
    In row (category_rows now has_resolution_days issues_df tick names) ->
    exists tick' name,
      row = fst (category_row now has_resolution_days issues_df tick' name).
Proof.
  revert tick. induction names as [| name rest IH]; intros tick.
  - split; [reflexivity | intros row []].
  - cbn [category_rows].
    pose proof (category_row_spec issues_df tick name) as Hrow.
    destruct (category_row now has_resolution_days issues_df tick name)
      as [row tick'] eqn:E.
    cbn [fst] in Hrow. cbv zeta in Hrow. destruct Hrow as [Hname _].
    destruct (IH tick') as [Hnames Hrows].
    split.
    + cbn [map]. now rewrite Hname, Hnames.
    + intros r [<- | Hr].
      * exists tick, name. now rewrite E.
      * now apply Hrows.
Qed.

(** X24.  [calculate_category_risk] returns one row for each of the five
    categories, in their order.  In every row the critical and the recent
    issues are at most the total, and the risk score is at most 1 and is 0
    for a category without issues.  The score is non-negative when no
    resolution time is negative; when the resolution times of the resolved
    issues are all missing, the average is NaN and counts as the largest
    resolution component, so the score is at least 0.25. *)
Theorem calculate_category_risk_spec (issues_df : list Issue) :
  let rows := calculate_category_risk now has_resolution_days issues_df in
  map row_category rows = categories /\
  forall row, In row rows ->
    (critical_issues row <= total_issues row)%nat /\
    (recent_issue_count row <= total_issues row)%nat /\
    category_risk_score row <= 1 /\
    (total_issues row = 0%nat -> category_risk_score row = 0) /\
    (avg_resolution_days row = None -> 25/100 <= category_risk_score row) /\
    ((forall i d, In i issues_df -> resolution_days i = Some d -> 0 <= d) ->
     0 <= category_risk_score row).
Proof.
  cbv zeta. unfold calculate_category_risk.
  destruct (category_rows_spec issues_df categories 0) as [Hnames Hrows].
  split; [exact Hnames |].
  intros row Hrow. destruct (Hrows row Hrow) as (tick & name & ->).
  pose proof (category_row_spec issues_df tick name) as H.
  cbv zeta in H. tauto.
Qed.

End CategoryRisks.

Lemma calculate_category_risk_spec_witness :
  let issues_df :=
    [CategoryRisk.mkIssue "WATER" 5 "RESOLVED" None 0] in
  let rows := CategoryRisk.calculate_category_risk (fun _ => 0%Z) true
                issues_df in
  exists row,
    In row rows /\ CategoryRisk.avg_resolution_days row = None /\
    25/100 <= CategoryRisk.category_risk_score row.
Proof.
  intros issues_df rows.
  destruct rows as [| row rest] eqn:E; [discriminate |].
  assert (Hin : In row rows) by (rewrite E; now left).
  assert (Hnan : CategoryRisk.avg_resolution_days row = None).
  { unfold rows in E. cbv [CategoryRisk.calculate_category_risk
      CategoryRisk.categories CategoryRisk.category_rows] in E.
    injection E as <- _. reflexivity. }
  exists row. split; [rewrite <- E; exact Hin |]. split; [exact Hnan |].
  exact (proj1 (proj2 (proj2 (proj2 (proj2
           (proj2 (calculate_category_risk_spec (fun _ => 0%Z) true issues_df)
                  row Hin))))) Hnan).
Defined.

(** X25.  For two confidences in [0,1] the combined confidence lies in
    [0,1] and is no greater than either of them; the default confidences
    0.85 and 0.80 combine to 0.68. *)
Theorem risk_confidence_bounds (failure_confidence anomaly_confidence : R) :
  0 <= failure_confidence <= 1 -> 0 <= anomaly_confidence <= 1 ->
  0 <= RiskProbabilityModel.calculate_risk_confidence
         failure_confidence anomaly_confidence
    <= Rmin failure_confidence anomaly_confidence /\
  RiskProbabilityModel.calculate_risk_confidence (85/100) (80/100) = 68/100.
Proof.
  intros Hf Ha. unfold RiskProbabilityModel.calculate_risk_confidence.
  split; [| lra]. split; [nra |].
  apply Rmin_glb; nra.
Qed.

Lemma risk_confidence_bounds_witness :
  0 <= 85/100 <= 1 /\ 0 <= 80/100 <= 1 /\
  RiskProbabilityModel.calculate_risk_confidence (85/100) (80/100)
    <= Rmin (85/100) (80/100).
Proof.
  assert (Hf : 0 <= 85/100 <= 1) by lra.
  assert (Ha : 0 <= 80/100 <= 1) by lra.
  split; [exact Hf |]. split; [exact Ha |].
  exact (proj2 (proj1 (risk_confidence_bounds (85/100) (80/100) Hf Ha))).
Defined.
